(** * cqvx: request signing and response normalization

    A shallow embedding of the signing subsystem (package [auth]) and of the
    response-normalization subsystem (packages [normalizer],
    [normalizer/coinbase] and [normalizer/prime]) of the cqvx venue client,
    together with the properties stated about them.

    Conventions of the embedding.
    - A Go [string] is a [String.string] (a sequence of bytes); a [[]byte] is a
      [list Byte.byte], wrapped in [option] where the code can see a nil slice.
    - [int] and [int64] values are [Z]; 32-bit words of the hash are [Z] with the
      wrap-around written out.
    - [float64] values are the kernel's binary64 floats ([PrimFloat.float]).
    - [map[string]string] is a [gmap string string].
    - A function returning [(T, error)] returns [result T]; an [error] value is a
      term of the inductive type of errors of its package.
    - The system clock, [encoding/json], [time.Parse], [strconv.ParseFloat],
      [fmt]'s [%f] verb and the conversions between [float64] and integers are
      collaborators of the Go runtime library: functions that read or call
      them take them as parameters, and the properties hold for all of them.
      [encoding/base64], [crypto/sha256], [crypto/hmac], [strconv.ParseInt],
      [strconv.FormatInt] and [strings.TrimSpace] are given executable models. *)

From Stdlib Require Import ZArith List String Ascii Strings.Byte Lia Bool.
From Stdlib Require Import DecimalString.
From Stdlib Require Import Floats.PrimFloat Floats.SpecFloat Floats.FloatOps.
From Stdlib Require Import Numbers.Cyclic.Int63.Uint63.
From stdpp Require Import gmap strings.
Import ListNotations.

#[local] Set Warnings "-register-all".


Local Open Scope Z_scope.

(** ** Results and errors *)

Inductive result (E A : Type) : Type :=
| Ok (a : A)
| Err (e : E).
Arguments Ok {E A} a.
Arguments Err {E A} e.

Definition is_ok {E A} (r : result E A) : bool :=
  match r with Ok _ => true | Err _ => false end.

Definition is_err {E A} (r : result E A) : bool := negb (is_ok r).

(** ** The parts of the Go runtime library the code relies on *)

Module Go.

(** *** Bytes and strings *)

Definition byte_to_Z (b : byte) : Z := Z.of_N (Byte.to_N b).

Definition byte_of_Z (z : Z) : byte :=
  match Byte.of_N (Z.to_N (z mod 256)) with
  | Some b => b
  | None => x00
  end.

(** [string(b)] for a byte slice [b]; a nil slice converts to the empty
    string, like an empty one. *)
Definition string_of_slice (b : option (list byte)) : string :=
  match b with
  | None => ""
  | Some l => string_of_list_byte l
  end.

(** [[]byte(s)] *)
Definition bytes_of_string (s : string) : list byte := list_byte_of_string s.

Definition code (c : ascii) : Z := Z.of_N (N_of_ascii c).

Definition codes (s : string) : list Z := map code (list_ascii_of_string s).

Definition string_of_codes (l : list Z) : string :=
  string_of_list_ascii (map (fun z => ascii_of_N (Z.to_N z)) l).

(** *** strconv.FormatInt(n, 10) *)

Definition FormatInt (n : Z) : string := NilZero.string_of_int (Z.to_int n).

(** *** strconv.ParseInt(s, 10, 64)

    An optional sign, then one or more decimal digits; the value must fit in
    an [int64]. *)

Inductive NumError : Type := ErrSyntax | ErrRange.

Definition is_digit (c : ascii) : bool :=
  (48 <=? code c) && (code c <=? 57).

Fixpoint parse_digits (acc : Z) (l : list ascii) : option Z :=
  match l with
  | [] => Some acc
  | c :: r => if is_digit c then parse_digits (acc * 10 + (code c - 48)) r else None
  end.

(** strconv.ParseUint(s, 10, 64) *)
Definition ParseUint (s : string) : result NumError Z :=
  match list_ascii_of_string s with
  | [] => Err ErrSyntax
  | l =>
      match parse_digits 0 l with
      | None => Err ErrSyntax
      | Some un => if un <? 2 ^ 64 then Ok un else Err ErrRange
      end
  end.

Definition ParseInt (s : string) : result NumError Z :=
  match s with
  | EmptyString => Err ErrSyntax
  | String c0 rest =>
      let neg := Ascii.eqb c0 "-" in
      let s1 := if Ascii.eqb c0 "+" || neg then rest else s in
      match ParseUint s1 with
      | Err ErrSyntax => Err ErrSyntax
      | Err ErrRange => Err ErrRange
      | Ok un =>
          let cutoff := 2 ^ 63 in
          if negb neg && (cutoff <=? un) then Err ErrRange
          else if neg && (cutoff <? un) then Err ErrRange
          else Ok (if neg then - un else un)
      end
  end.

(** *** strings.TrimSpace

    Leading and trailing white space, as Unicode defines it, is removed.  The
    white-space runes are the six ASCII ones and U+0085, U+00A0, U+1680,
    U+2000..U+200A, U+2028, U+2029, U+202F, U+205F and U+3000, recognised here
    by their UTF-8 encodings. *)

Definition is_ascii_space (z : Z) : bool :=
  (z =? 9) || (z =? 10) || (z =? 11) || (z =? 12) || (z =? 13) || (z =? 32).

Definition space2 (a b : Z) : bool :=
  (a =? 194) && ((b =? 133) || (b =? 160)).

Definition space3 (a b c : Z) : bool :=
  ((a =? 225) && (b =? 154) && (c =? 128))
  || ((a =? 226) && (b =? 128)
      && (((128 <=? c) && (c <=? 138)) || (c =? 168) || (c =? 169) || (c =? 175)))
  || ((a =? 226) && (b =? 129) && (c =? 159))
  || ((a =? 227) && (b =? 128) && (c =? 128)).

Fixpoint trim_left (l : list Z) : list Z :=
  match l with
  | [] => []
  | a :: r =>
      if is_ascii_space a then trim_left r
      else
        match r with
        | b :: r2 =>
            if space2 a b then trim_left r2
            else
              match r2 with
              | c :: r3 => if space3 a b c then trim_left r3 else l
              | [] => l
              end
        | [] => l
        end
  end.

(** The same scan from the end of the string, over the reversed bytes. *)
Fixpoint trim_left_rev (l : list Z) : list Z :=
  match l with
  | [] => []
  | a :: r =>
      if is_ascii_space a then trim_left_rev r
      else
        match r with
        | b :: r2 =>
            if space2 b a then trim_left_rev r2
            else
              match r2 with
              | c :: r3 => if space3 c b a then trim_left_rev r3 else l
              | [] => l
              end
        | [] => l
        end
  end.

Definition TrimSpace (s : string) : string :=
  string_of_codes (rev (trim_left_rev (rev (trim_left (codes s))))).

(** *** time.Time, reduced to the instant it denotes *)

Record Time : Type := mkTime { unix_sec : Z; nanosecond : Z }.

(** time.Unix(sec, nsec) *)
Definition time_Unix (sec nsec : Z) : Time :=
  if (nsec <? 0) || (1000000000 <=? nsec) then
    let n := Z.quot nsec 1000000000 in
    let sec := sec + n in
    let nsec := nsec - n * 1000000000 in
    if nsec <? 0 then mkTime (sec - 1) (nsec + 1000000000) else mkTime sec nsec
  else mkTime sec nsec.

(** time.Time's Unix() and UnixMilli() *)
Definition Time_Unix (t : Time) : Z := unix_sec t.
Definition Time_UnixMilli (t : Time) : Z :=
  unix_sec t * 1000 + Z.quot (nanosecond t) 1000000.

(** *** Dynamic values and errors

    [iface] is a value of type [interface{}]: what [encoding/json] stores
    there (nil, bool, float64, string, array, object) and the integer types
    the order-book type switches also name. *)

Inductive iface : Type :=
| INil
| IBool (b : bool)
| IFloat64 (f : float)
| IString (s : string)
| IInt (n : Z)
| IInt64 (n : Z)
| IArray (l : list iface)
| IObject (m : list (string * iface)).

(** An [error] value.  [Errorf format args] is what [fmt.Errorf] builds from
    a format and its arguments (a [%w] argument is the wrapped error);
    [ErrorString] is [errors.New]; the others are the error types of the
    library functions modelled above. *)
Inductive error : Type :=
| ErrorString (msg : string)
| Errorf (format : string) (args : list arg)
| Base64Corrupt
| NumErr (fn num : string) (kind : NumError)
with arg : Type :=
| AInt (n : Z)
| AStr (s : string)
| AVal (v : iface)
| AErr (e : error).

End Go.

(** ** encoding/base64, the standard encoding with padding *)

Module Base64.

Definition alphabet : list Z :=
  Go.codes "ABCDEFGHIJKLMNOPQRSTUVWXYZabcdefghijklmnopqrstuvwxyz0123456789+/".

Definition padChar : Z := 61.

Definition enc (v : Z) : Z := nth (Z.to_nat (Z.land v 63)) alphabet 0.

(** Three source bytes become four characters; a final group of one or two
    bytes is padded with '='. *)
Fixpoint encode (src : list Z) : list Z :=
  match src with
  | [] => []
  | [a] =>
      let v := Z.shiftl a 16 in
      [enc (Z.shiftr v 18); enc (Z.shiftr v 12); padChar; padChar]
  | [a; b] =>
      let v := Z.lor (Z.shiftl a 16) (Z.shiftl b 8) in
      [enc (Z.shiftr v 18); enc (Z.shiftr v 12); enc (Z.shiftr v 6); padChar]
  | a :: b :: c :: rest =>
      let v := Z.lor (Z.lor (Z.shiftl a 16) (Z.shiftl b 8)) c in
      enc (Z.shiftr v 18) :: enc (Z.shiftr v 12) :: enc (Z.shiftr v 6) :: enc v
        :: encode rest
  end.

(** StdEncoding.EncodeToString *)
Definition EncodeToString (src : list byte) : string :=
  Go.string_of_codes (encode (map Go.byte_to_Z src)).

(** The decode map: the 6-bit value of an alphabet character. *)
Definition dec (c : Z) : option Z :=
  if (65 <=? c) && (c <=? 90) then Some (c - 65)
  else if (97 <=? c) && (c <=? 122) then Some (c - 97 + 26)
  else if (48 <=? c) && (c <=? 57) then Some (c - 48 + 52)
  else if c =? 43 then Some 62
  else if c =? 47 then Some 63
  else None.

Inductive CorruptInputError : Type := corruptInput.

(** One quantum of four characters at a time; padding may only close the
    input.  The bits of a final partial quantum that do not fill a byte are
    dropped without a check (the encoding is not strict). *)
Fixpoint decode_quanta (l : list Z) : option (list Z) :=
  match l with
  | [] => Some []
  | a :: b :: c :: d :: rest =>
      match dec a, dec b with
      | Some va, Some vb =>
          match dec c, dec d with
          | Some vc, Some vd =>
              let v := Z.lor (Z.lor (Z.lor (Z.shiftl va 18) (Z.shiftl vb 12))
                                    (Z.shiftl vc 6)) vd in
              match decode_quanta rest with
              | Some out =>
                  Some (Z.land (Z.shiftr v 16) 255 :: Z.land (Z.shiftr v 8) 255
                          :: Z.land v 255 :: out)
              | None => None
              end
          | Some vc, None =>
              if (d =? padChar) && match rest with [] => true | _ => false end then
                let v := Z.lor (Z.lor (Z.shiftl va 18) (Z.shiftl vb 12)) (Z.shiftl vc 6) in
                Some [Z.land (Z.shiftr v 16) 255; Z.land (Z.shiftr v 8) 255]
              else None
          | None, _ =>
              if (c =? padChar) && (d =? padChar)
                 && match rest with [] => true | _ => false end then
                let v := Z.lor (Z.shiftl va 18) (Z.shiftl vb 12) in
                Some [Z.land (Z.shiftr v 16) 255]
              else None
          end
      | _, _ => None
      end
  | _ => None
  end.

(** Carriage returns and line feeds are skipped wherever they occur. *)
Definition is_newline (c : Z) : bool := (c =? 10) || (c =? 13).

(** StdEncoding.DecodeString *)
Definition DecodeString (s : string) : result CorruptInputError (list byte) :=
  match decode_quanta (List.filter (fun c => negb (is_newline c)) (Go.codes s)) with
  | Some out => Ok (map Go.byte_of_Z out)
  | None => Err corruptInput
  end.

End Base64.

(** ** crypto/sha256 and crypto/hmac *)

Module SHA256.

Definition u32 (x : Z) : Z := x mod 2 ^ 32.

(** bits.RotateLeft32(x, -n) *)
Definition rotr (x n : Z) : Z :=
  u32 (Z.lor (Z.shiftr x n) (Z.shiftl x (32 - n))).

Definition not32 (x : Z) : Z := Z.lxor x 4294967295.

Definition _K : list Z :=
  [ 0x428A2F98; 0x71374491; 0xB5C0FBCF; 0xE9B5DBA5;
    0x3956C25B; 0x59F111F1; 0x923F82A4; 0xAB1C5ED5;
    0xD807AA98; 0x12835B01; 0x243185BE; 0x550C7DC3;
    0x72BE5D74; 0x80DEB1FE; 0x9BDC06A7; 0xC19BF174;
    0xE49B69C1; 0xEFBE4786; 0x0FC19DC6; 0x240CA1CC;
    0x2DE92C6F; 0x4A7484AA; 0x5CB0A9DC; 0x76F988DA;
    0x983E5152; 0xA831C66D; 0xB00327C8; 0xBF597FC7;
    0xC6E00BF3; 0xD5A79147; 0x06CA6351; 0x14292967;
    0x27B70A85; 0x2E1B2138; 0x4D2C6DFC; 0x53380D13;
    0x650A7354; 0x766A0ABB; 0x81C2C92E; 0x92722C85;
    0xA2BFE8A1; 0xA81A664B; 0xC24B8B70; 0xC76C51A3;
    0xD192E819; 0xD6990624; 0xF40E3585; 0x106AA070;
    0x19A4C116; 0x1E376C08; 0x2748774C; 0x34B0BCB5;
    0x391C0CB3; 0x4ED8AA4A; 0x5B9CCA4F; 0x682E6FF3;
    0x748F82EE; 0x78A5636F; 0x84C87814; 0x8CC70208;
    0x90BEFFFA; 0xA4506CEB; 0xBEF9A3F7; 0xC67178F2 ].

Definition init : list Z :=
  [ 0x6A09E667; 0xBB67AE85; 0x3C6EF372; 0xA54FF53A;
    0x510E527F; 0x9B05688C; 0x1F83D9AB; 0x5BE0CD19 ].

(** Big-endian 32-bit words of a block. *)
Fixpoint words (block : list Z) : list Z :=
  match block with
  | a :: b :: c :: d :: rest =>
      Z.lor (Z.lor (Z.lor (Z.shiftl a 24) (Z.shiftl b 16)) (Z.shiftl c 8)) d
        :: words rest
  | _ => []
  end.

(** The message schedule: [w] holds w[0..i-1]; each step appends w[i]. *)
Fixpoint schedule (n : nat) (w : list Z) : list Z :=
  match n with
  | O => w
  | S n' =>
      let i := length w in
      let v1 := nth (i - 2) w 0 in
      let t1 := Z.lxor (Z.lxor (rotr v1 17) (rotr v1 19)) (Z.shiftr v1 10) in
      let v2 := nth (i - 15) w 0 in
      let t2 := Z.lxor (Z.lxor (rotr v2 7) (rotr v2 18)) (Z.shiftr v2 3) in
      schedule n' (w ++ [u32 (t1 + nth (i - 7) w 0 + t2 + nth (i - 16) w 0)])
  end.

Record regs : Type := mkRegs { ra : Z; rb : Z; rc : Z; rd : Z; re : Z; rf : Z; rg : Z; rh : Z }.

Definition round (r : regs) (kw : Z * Z) : regs :=
  let '(mkRegs a b c d e f g h) := r in
  let t1 := h + Z.lxor (Z.lxor (rotr e 6) (rotr e 11)) (rotr e 25)
              + Z.lxor (Z.land e f) (Z.land (not32 e) g) + fst kw + snd kw in
  let t2 := Z.lxor (Z.lxor (rotr a 2) (rotr a 13)) (rotr a 22)
              + Z.lxor (Z.lxor (Z.land a b) (Z.land a c)) (Z.land b c) in
  mkRegs (u32 (t1 + t2)) a b c (u32 (d + t1)) e f g.

(** One 64-byte block folded into the chaining value. *)
Definition block (h : list Z) (p : list Z) : list Z :=
  let w := schedule 48 (words p) in
  let r0 := mkRegs (nth 0 h 0) (nth 1 h 0) (nth 2 h 0) (nth 3 h 0)
                   (nth 4 h 0) (nth 5 h 0) (nth 6 h 0) (nth 7 h 0) in
  let '(mkRegs a b c d e f g hh) := fold_left round (combine _K w) r0 in
  map u32 (map (fun xy : Z * Z => fst xy + snd xy) (combine h [a; b; c; d; e; f; g; hh])).

Fixpoint blocks (n : nat) (h : list Z) (p : list Z) : list Z :=
  match n with
  | O => h
  | S n' => blocks n' (block h (firstn 64 p)) (skipn 64 p)
  end.

Definition be_bytes (nbytes : nat) (v : Z) : list Z :=
  map (fun i => Z.land (Z.shiftr v (8 * Z.of_nat i)) 255) (rev (seq 0 nbytes)).

(** Padding: 0x80, zeros up to 56 mod 64, then the bit length on 8 bytes. *)
Definition pad (msg : list Z) : list Z :=
  let len := Z.of_nat (length msg) in
  let zeros := (55 - len) mod 64 in
  msg ++ [128] ++ repeat 0 (Z.to_nat zeros) ++ be_bytes 8 (8 * len).

(** sha256.Sum256 *)
Definition Sum256 (msg : list Z) : list Z :=
  let p := pad msg in
  flat_map (be_bytes 4) (blocks (Nat.div (length p) 64) init p).

Definition BlockSize : nat := 64.

End SHA256.

Module HMAC.

(** hmac.New(sha256.New, key), Write(msg), Sum(nil) *)
Definition Sum (key msg : list Z) : list Z :=
  let key := if (SHA256.BlockSize <? length key)%nat then SHA256.Sum256 key else key in
  let key := key ++ repeat 0 (SHA256.BlockSize - length key) in
  let ipad := map (Z.lxor 0x36) key in
  let opad := map (Z.lxor 0x5c) key in
  SHA256.Sum256 (opad ++ SHA256.Sum256 (ipad ++ msg)).

End HMAC.

(** ** encoding/hex *)

Module Hex.

Definition hextable : string := "0123456789abcdef".

Definition digit (v : Z) : Z := nth (Z.to_nat v) (Go.codes hextable) 0.

(** Two characters per byte: the high nibble, then the low one. *)
Definition Encode (src : list Z) : list Z :=
  flat_map (fun v => [digit (Z.shiftr v 4); digit (Z.land v 15)]) src.

(** hex.EncodeToString *)
Definition EncodeToString (src : list byte) : string :=
  Go.string_of_codes (Encode (map Go.byte_to_Z src)).

End Hex.

(** ** Package auth: request signing *)

Module Auth.

(** SignRequest: one outbound call to be authenticated.  A nil [Body] is
    [None]. *)
Module SignRequest.
Record t : Type := mk {
  Method : string;
  Path : string;
  Body : option (list byte);
  Timestamp : string;
  Headers : gmap string (list string)
}.
End SignRequest.

(** SignResult: headers and query parameters to add to the request.  A map
    left unset is the empty map. *)
Module SignResult.
Record t : Type := mk {
  Headers : gmap string string;
  QueryParams : gmap string string
}.
End SignResult.

(** *** HMAC-SHA256 (hmac.go) *)

Record HMACConfig : Type := mkHMACConfig {
  APIKey : string;
  Secret : string;
  Passphrase : string
}.

Record HMACSigner : Type := mkHMACSigner { config : HMACConfig }.

Definition NewHMACSigner (config : HMACConfig) : result Go.error HMACSigner :=
  if String.eqb (APIKey config) "" then Err (Go.Errorf "API key is required" [])
  else if String.eqb (Secret config) "" then Err (Go.Errorf "secret is required" [])
  else if String.eqb (Passphrase config) "" then Err (Go.Errorf "passphrase is required" [])
  else
    match Base64.DecodeString (Secret config) with
    | Err _ => Err (Go.Errorf "secret must be valid base64: %w" [Go.AErr Go.Base64Corrupt])
    | Ok _ => Ok (mkHMACSigner config)
    end.

(** The pre-hash string: timestamp + method + path + body. *)
Definition prehash (timestamp : string) (req : SignRequest.t) : string :=
  timestamp +:+ SignRequest.Method req +:+ SignRequest.Path req
    +:+ Go.string_of_slice (SignRequest.Body req).

(** HMACSigner.Sign.  [now] is the value [time.Now()] returns during the
    call; the context argument is not used by this signer. *)
Definition HMACSigner_Sign (s : HMACSigner) (now : Go.Time) (req : SignRequest.t)
  : result Go.error SignResult.t :=
  let timestamp :=
    if String.eqb (SignRequest.Timestamp req) ""
    then Go.FormatInt (Go.Time_Unix now)
    else SignRequest.Timestamp req in
  let prehash := prehash timestamp req in
  match Base64.DecodeString (Secret (config s)) with
  | Err _ => Err (Go.Errorf "failed to decode secret: %w" [Go.AErr Go.Base64Corrupt])
  | Ok decodedSecret =>
      let signature :=
        HMAC.Sum (map Go.byte_to_Z decodedSecret)
                 (map Go.byte_to_Z (Go.bytes_of_string prehash)) in
      let signatureB64 := Base64.EncodeToString (map Go.byte_of_Z signature) in
      Ok (SignResult.mk
            (<["CB-ACCESS-KEY" := APIKey (config s)]>
               (<["CB-ACCESS-SIGN" := signatureB64]>
                  (<["CB-ACCESS-TIMESTAMP" := timestamp]>
                     (<["CB-ACCESS-PASSPHRASE" := Passphrase (config s)]> ∅))))
            ∅)
  end.

(** *** MPC (mpc.go)

    The signing function is supplied by the caller.  It receives the context
    and the message, may fail, and may read and change state of its own
    (a closure over variables of the caller): [W] is that state. *)

Section MPC.
Context {Ctx W : Type}.

Definition SignerFunc : Type :=
  Ctx -> list byte -> W -> result Go.error string * W.

Record MPCConfig : Type := mkMPCConfig {
  mpc_APIKey : string;
  mpc_SignerFunc : option SignerFunc
}.

(** A constructed signer: its function is known to be non-nil. *)
Record MPCSigner : Type := mkMPCSigner {
  signer_APIKey : string;
  signer_SignerFunc : SignerFunc
}.

Definition NewMPCSigner (config : MPCConfig) : result Go.error MPCSigner :=
  if String.eqb (mpc_APIKey config) "" then Err (Go.Errorf "API key is required" [])
  else
    match mpc_SignerFunc config with
    | None => Err (Go.Errorf "signer function is required" [])
    | Some f => Ok (mkMPCSigner (mpc_APIKey config) f)
    end.

(** The message to sign: timestamp + method + path + body. *)
Definition message (timestamp : string) (req : SignRequest.t) : string :=
  timestamp +:+ SignRequest.Method req +:+ SignRequest.Path req
    +:+ Go.string_of_slice (SignRequest.Body req).

Definition MPCSigner_Sign (s : MPCSigner) (now : Go.Time) (ctx : Ctx)
           (req : SignRequest.t) (w : W) : result Go.error SignResult.t * W :=
  let timestamp :=
    if String.eqb (SignRequest.Timestamp req) ""
    then Go.FormatInt (Go.Time_UnixMilli now)
    else SignRequest.Timestamp req in
  let message := message timestamp req in
  match signer_SignerFunc s ctx (Go.bytes_of_string message) w with
  | (Err err, w') => (Err (Go.Errorf "MPC signing failed: %w" [Go.AErr err]), w')
  | (Ok signature, w') =>
      (Ok (SignResult.mk
             (<["X-API-KEY" := signer_APIKey s]>
                (<["X-TIMESTAMP" := timestamp]>
                   (<["X-SIGNATURE" := signature]> ∅)))
             ∅), w')
  end.
End MPC.

(** DefaultMPCSignerFunc: the SHA-256 digest of the message in hexadecimal.
    It keeps no state and never fails. *)
Definition DefaultMPCSignerFunc {Ctx W : Type} : @SignerFunc Ctx W :=
  fun _ message w =>
    let hash := SHA256.Sum256 (map Go.byte_to_Z message) in
    (Ok (Hex.EncodeToString (map Go.byte_of_Z hash)), w).

(** *** Bearer token (bearer.go) *)

Record BearerConfig : Type := mkBearerConfig { Token : string }.

Record BearerSigner : Type := mkBearerSigner { bearer_config : BearerConfig }.

Definition NewBearerSigner (config : BearerConfig) : result Go.error BearerSigner :=
  if String.eqb (Token config) "" then Err (Go.Errorf "token is required" [])
  else Ok (mkBearerSigner config).

(** BearerSigner.Sign: neither the context nor the request is read. *)
Definition BearerSigner_Sign (s : BearerSigner) (req : SignRequest.t)
  : result Go.error SignResult.t :=
  Ok (SignResult.mk (<["Authorization" := "Bearer " +:+ Token (bearer_config s)]> ∅) ∅).

End Auth.

(** ** Package normalizer: shared parsing utilities (utils.go) *)

Module Normalizer.

(** timestamppb.Timestamp *)
Record Timestamp : Type := mkTimestamp { Seconds : Z; Nanos : Z }.

(** timestamppb.New *)
Definition timestamppb_New (t : Go.Time) : Timestamp :=
  mkTimestamp (Go.Time_Unix t) (Go.nanosecond t).

(** isNumeric: only digits, after an optional leading minus.  The loop of
    the source ranges over runes; a rune is a digit exactly when it is a
    single byte in '0'..'9', so the test is made on bytes. *)
Definition isNumeric (s : string) : bool :=
  match s with
  | EmptyString => false
  | String c0 rest =>
      let s := if Ascii.eqb c0 "-" then rest else s in
      if forallb Go.is_digit (list_ascii_of_string s)
      then 0 <? Z.of_nat (String.length s)
      else false
  end.

(** parseUnixTimestamp: seconds, milliseconds or microseconds by magnitude. *)
Definition parseUnixTimestamp (s : string) : result Go.error (option Timestamp) :=
  match Go.ParseInt s with
  | Err kind =>
      Err (Go.Errorf "invalid unix timestamp: %w" [Go.AErr (Go.NumErr "ParseInt" s kind)])
  | Ok n =>
      if n <? 100000000000 then
        Ok (Some (timestamppb_New (Go.time_Unix n 0)))
      else if n <? 100000000000000 then
        Ok (Some (timestamppb_New (Go.time_Unix (Z.quot n 1000) (Z.rem n 1000 * 1000000))))
      else if n <? 100000000000000000 then
        Ok (Some (timestamppb_New (Go.time_Unix (Z.quot n 1000000) (Z.rem n 1000000 * 1000))))
      else
        Err (Go.Errorf "unix timestamp out of reasonable range: %d" [Go.AInt n])
  end.

Definition RFC3339 : string := "2006-01-02T15:04:05Z07:00".
Definition RFC3339Nano : string := "2006-01-02T15:04:05.999999999Z07:00".

Definition formats : list string :=
  [ RFC3339;
    RFC3339Nano;
    "2006-01-02T15:04:05.999Z";
    "2006-01-02T15:04:05.999999Z";
    "2006-01-02T15:04:05Z";
    "2006-01-02 15:04:05";
    "2006-01-02T15:04:05.999Z07:00" ].

Section WithRuntime.
(** time.Parse(layout, value) *)
Variable time_Parse : string -> string -> result Go.error Go.Time.
(** strconv.ParseFloat(s, 64) *)
Variable strconv_ParseFloat : string -> result Go.error float.

(** The loop over the calendar formats: the first that parses wins. *)
Fixpoint try_formats (fs : list string) (s : string) : result Go.error (option Timestamp) :=
  match fs with
  | [] => Err (Go.Errorf "unable to parse timestamp: %q" [Go.AStr s])
  | format :: rest =>
      match time_Parse format s with
      | Ok t => Ok (Some (timestamppb_New t))
      | Err _ => try_formats rest s
      end
  end.

(** ParseTimestamp: [Ok None] is the (nil, nil) return. *)
Definition ParseTimestamp (s : string) : result Go.error (option Timestamp) :=
  let s := Go.TrimSpace s in
  if String.eqb s "" || String.eqb s "null" then Ok None
  else if isNumeric s then parseUnixTimestamp s
  else try_formats formats s.

(** ParseTimestampOrNow *)
Definition ParseTimestampOrNow (now : Go.Time) (s : string) : Timestamp :=
  match ParseTimestamp s with
  | Ok (Some ts) => ts
  | _ => timestamppb_New now
  end.

(** ParseDecimal *)
Definition ParseDecimal (s : string) : result Go.error float :=
  let s := Go.TrimSpace s in
  if String.eqb s "" || String.eqb s "null" then Ok 0%float
  else
    match strconv_ParseFloat s with
    | Err err => Err (Go.Errorf "invalid decimal: %w" [Go.AErr err])
    | Ok f =>
        if PrimFloat.is_nan f || PrimFloat.is_infinity f
        then Err (Go.Errorf "invalid decimal: %s (NaN or Inf)" [Go.AStr s])
        else Ok f
    end.

(** ParseDecimalOrZero *)
Definition ParseDecimalOrZero (s : string) : float :=
  match ParseDecimal s with
  | Err _ => 0%float
  | Ok f => f
  end.
End WithRuntime.

(** *** The canonical order-book records (markets/v1) *)

Record OrderBookLevel : Type := mkOrderBookLevel {
  Price : option float;
  Quantity : option float;
  OrderCount : option Z
}.

Record OrderBook : Type := mkOrderBook {
  VenueId : option string;
  VenueSymbol : option string;
  Timestamp_ : option Timestamp;
  Bids : list OrderBookLevel;
  Asks : list OrderBookLevel;
  BestBid : option float;
  BestAsk : option float;
  Spread : option float;
  MidPrice : option float;
  Sequence : option Z
}.

(** *** The canonical trade record (markets/v1) *)

Inductive TradeSide : Type :=
| TRADE_SIDE_UNSPECIFIED
| TRADE_SIDE_BUY
| TRADE_SIDE_SELL.

Module Trade.
Record t : Type := mk {
  TradeId : option string;
  VenueId : option string;
  VenueSymbol : option string;
  Timestamp : option Timestamp;
  Price : option float;
  Quantity : option float;
  Side : option TradeSide;
  Value : option float
}.
End Trade.

(** *** The canonical account records (venues/v1)

    The enumerations list the values the repository names; the records list
    the fields the normalizers set, every other field being left unset. *)

Inductive OrderType : Type :=
| ORDER_TYPE_UNSPECIFIED
| ORDER_TYPE_MARKET
| ORDER_TYPE_LIMIT
| ORDER_TYPE_STOP_LOSS
| ORDER_TYPE_STOP_LIMIT
| ORDER_TYPE_TRAILING_STOP
| ORDER_TYPE_IOC
| ORDER_TYPE_FOK
| ORDER_TYPE_GTC
| ORDER_TYPE_POST_ONLY.

Inductive OrderSide : Type :=
| ORDER_SIDE_UNSPECIFIED
| ORDER_SIDE_BUY
| ORDER_SIDE_SELL.

Inductive OrderStatus : Type :=
| ORDER_STATUS_UNSPECIFIED
| ORDER_STATUS_NEW
| ORDER_STATUS_PENDING
| ORDER_STATUS_OPEN
| ORDER_STATUS_PARTIALLY_FILLED
| ORDER_STATUS_FILLED
| ORDER_STATUS_CANCELLED
| ORDER_STATUS_REJECTED.

Inductive TimeInForce : Type :=
| TIME_IN_FORCE_UNSPECIFIED
| TIME_IN_FORCE_GTC
| TIME_IN_FORCE_IOC
| TIME_IN_FORCE_FOK
| TIME_IN_FORCE_GTD.

Inductive ExecutionType : Type :=
| EXECUTION_TYPE_UNSPECIFIED
| EXECUTION_TYPE_NEW
| EXECUTION_TYPE_TRADE
| EXECUTION_TYPE_FILL.

Module Balance.
Record t : Type := mk {
  AccountId : option string;
  AssetId : option string;
  Total : option float;
  Available : option float;
  Locked : option float
}.
End Balance.

Module Order.
Record t : Type := mk {
  OrderId : option string;
  VenueOrderId : option string;
  ClientOrderId : option string;
  VenueSymbol : option string;
  Side : option OrderSide;
  OrderType : option OrderType;
  Status : option OrderStatus;
  TimeInForce : option TimeInForce;
  Quantity : option float;
  Price : option float;
  StopPrice : option float;
  FilledQuantity : option float;
  AverageFillPrice : option float;
  CreatedAt : option Timestamp;
  UpdatedAt : option Timestamp;
  TotalFees : option float;
  PostOnly : option bool
}.
End Order.

Module ExecutionReport.
Record t : Type := mk {
  ExecutionId : option string;
  OrderId : option string;
  VenueOrderId : option string;
  VenueSymbol : option string;
  ExecutionType : option ExecutionType;
  OrderStatus : option string;
  Side : option string;
  Timestamp : option Timestamp;
  Price : option float;
  Quantity : option float;
  Fee : option float;
  TradeId : option string;
  IsMaker : option bool;
  VenueExecutionId : option string;
  Value : option float;
  ClientOrderId : option string
}.
End ExecutionReport.

End Normalizer.

(** ** Package normalizer/coinbase *)

Module Coinbase.

(** *** Error normalization (errors.go) *)

Record CoinbaseError : Type := mkCoinbaseError {
  Error : string;
  Message : string;
  ErrorDetails : string;
  PreviewFailure : string;
  NewOrderFailure : string;
  EditFailure : string
}.

(** The errors NormalizeError returns: one of the three classified error
    types of the package, or an unclassified error built by fmt.Errorf. *)
Inductive error : Type :=
| Unclassified (e : Go.error)
| PermanentError (Err : Go.error) (Code : string)
| TemporaryError (Err : Go.error) (Code : string)
| RateLimitError (Err : Go.error) (Code : string).

(** toLower: ASCII upper-case letters are lowered, other bytes kept. *)
Definition toLower (s : string) : string :=
  Go.string_of_codes
    (map (fun c => if (65 <=? c) && (c <=? 90) then c + 32 else c) (Go.codes s)).

(** The loop of [contains]: [count] positions are tried from [i] on. *)
Fixpoint contains_loop (s substr : string) (i count : nat) : bool :=
  match count with
  | O => false
  | S count' =>
      if String.eqb (String.substring i (String.length substr) s) substr then true
      else contains_loop s substr (S i) count'
  end.

(** contains: case-insensitive substring test.  The loop runs for
    i = 0 .. len(s) - len(substr), not at all when that bound is negative. *)
Definition contains (s substr : string) : bool :=
  let s := toLower s in
  let substr := toLower substr in
  if (String.length substr <=? String.length s)%nat
  then contains_loop s substr 0 (String.length s - String.length substr + 1)
  else false.

Definition clientErrors : list string :=
  [ "invalid"; "missing"; "insufficient"; "exceed"; "too small"; "too large";
    "not allowed"; "unsupported"; "duplicate"; "malformed" ].

(** isClientError *)
Definition isClientError (cbErr : CoinbaseError) : bool :=
  let msg := Error cbErr +:+ " " +:+ Message cbErr +:+ " " +:+ ErrorDetails cbErr in
  existsb (fun pattern => contains msg pattern) clientErrors.

(** formatErrorMessage *)
Definition formatErrorMessage (cbErr : CoinbaseError) : string :=
  let msg := "coinbase api error" in
  let msg := if String.eqb (Error cbErr) "" then msg else msg +:+ ": " +:+ Error cbErr in
  let msg :=
    if String.eqb (Message cbErr) "" then msg
    else if String.eqb (Error cbErr) "" then msg +:+ ": " +:+ Message cbErr
    else msg +:+ " (" +:+ Message cbErr +:+ ")" in
  let details :=
    (if String.eqb (ErrorDetails cbErr) "" then [] else [ErrorDetails cbErr])
    ++ (if String.eqb (PreviewFailure cbErr) "" then [] else ["preview: " +:+ PreviewFailure cbErr])
    ++ (if String.eqb (NewOrderFailure cbErr) "" then [] else ["order: " +:+ NewOrderFailure cbErr])
    ++ (if String.eqb (EditFailure cbErr) "" then [] else ["edit: " +:+ EditFailure cbErr]) in
  match details with
  | [] => msg
  | d0 :: ds =>
      let detailStr := fold_left (fun acc d => acc +:+ "; " +:+ d) ds d0 in
      msg +:+ " [" +:+ detailStr +:+ "]"
  end.

(** classifyError *)
Definition classifyError (statusCode : Z) (msg : string) (cbErr : CoinbaseError) : error :=
  let baseErr := Go.Errorf "%s (status: %d)" [Go.AStr msg; Go.AInt statusCode] in
  if (statusCode =? 401) || (statusCode =? 403) then PermanentError baseErr "AUTH_FAILURE"
  else if statusCode =? 429 then RateLimitError baseErr "RATE_LIMIT"
  else if statusCode =? 400 then
    if isClientError cbErr then PermanentError baseErr "INVALID_REQUEST"
    else TemporaryError baseErr "BAD_REQUEST"
  else if statusCode =? 404 then PermanentError baseErr "NOT_FOUND"
  else if (statusCode =? 500) || (statusCode =? 503) || (statusCode =? 502) || (statusCode =? 504)
  then TemporaryError baseErr "SERVER_ERROR"
  else TemporaryError baseErr "UNKNOWN".

Section Errors.
(** json.Unmarshal(body, &cbErr) *)
Variable json_Unmarshal : list byte -> result Go.error CoinbaseError.

(** NormalizeError *)
Definition NormalizeError (statusCode : Z) (body : list byte) : error :=
  if (length body =? 0)%nat then
    Unclassified (Go.Errorf "coinbase api error: status %d (no body)" [Go.AInt statusCode])
  else
    match json_Unmarshal body with
    | Err _ =>
        Unclassified (Go.Errorf "coinbase api error: status %d: %s"
                        [Go.AInt statusCode; Go.AStr (string_of_list_byte body)])
    | Ok cbErr => classifyError statusCode (formatErrorMessage cbErr) cbErr
    end.
End Errors.

(** *** Order-book normalization (orderbook.go) *)

Record PriceBook : Type := mkPriceBook {
  ProductID : string;
  Bids : option (list (list Go.iface));
  Asks : option (list (list Go.iface));
  pb_Time : string
}.

Record CoinbaseOrderBook : Type := mkCoinbaseOrderBook {
  PriceBook_ : PriceBook;
  Time : string
}.

Section OrderBook.
Variable time_Parse : string -> string -> result Go.error Go.Time.
Variable strconv_ParseFloat : string -> result Go.error float.
(** fmt.Sprintf("%f", f) *)
Variable Sprintf_f : float -> string.
(** int32(f) for a float64 f *)
Variable int32_of_float64 : float -> Z.
(** json.Unmarshal(raw, &cbBook) *)
Variable json_Unmarshal : list byte -> result Go.error CoinbaseOrderBook.

Let ParseDecimalOrZero := Normalizer.ParseDecimalOrZero strconv_ParseFloat.

(** The first two elements of a level, as a decimal string each. *)
Definition decimal_string (v : Go.iface) : option string :=
  match v with
  | Go.IString str => Some str
  | Go.IFloat64 f => Some (Sprintf_f f)
  | _ => None
  end.

(** The optional third element: the order count. *)
Definition order_count (level : list Go.iface) : option Z :=
  match level with
  | _ :: _ :: Go.IFloat64 countFloat :: _ => Some (int32_of_float64 countFloat)
  | _ :: _ :: Go.IString countStr :: _ =>
      let countFloat := ParseDecimalOrZero countStr in
      if PrimFloat.ltb 0%float countFloat then Some (int32_of_float64 countFloat) else None
  | _ => None
  end.

(** The body of the loop of parseOrderBookLevels, for the level at index [i]. *)
Definition parse_level (i : Z) (level : list Go.iface)
  : result Go.error Normalizer.OrderBookLevel :=
  match level with
  | v0 :: v1 :: _ =>
      match decimal_string v0 with
      | None => Err (Go.Errorf "invalid price type at index %d: %T" [Go.AInt i; Go.AVal v0])
      | Some priceStr =>
          let price := ParseDecimalOrZero priceStr in
          match decimal_string v1 with
          | None =>
              Err (Go.Errorf "invalid quantity type at index %d: %T" [Go.AInt i; Go.AVal v1])
          | Some quantityStr =>
              let quantity := ParseDecimalOrZero quantityStr in
              Ok (Normalizer.mkOrderBookLevel (Some price) (Some quantity) (order_count level))
          end
      end
  | _ =>
      Err (Go.Errorf "invalid level at index %d: expected at least 2 elements, got %d"
             [Go.AInt i; Go.AInt (Z.of_nat (length level))])
  end.

Fixpoint parse_levels_from (i : Z) (levels : list (list Go.iface))
         (result_ : list Normalizer.OrderBookLevel)
  : result Go.error (list Normalizer.OrderBookLevel) :=
  match levels with
  | [] => Ok result_
  | level :: rest =>
      match parse_level i level with
      | Err e => Err e
      | Ok obLevel => parse_levels_from (i + 1) rest (result_ ++ [obLevel])
      end
  end.

(** parseOrderBookLevels *)
Definition parseOrderBookLevels (levels : option (list (list Go.iface)))
  : result Go.error (list Normalizer.OrderBookLevel) :=
  match levels with
  | None => Ok []
  | Some levels => parse_levels_from 0 levels []
  end.

(** NormalizeOrderBook.  [now] is what timestamppb.Now() returns. *)
Definition NormalizeOrderBook (now : Go.Time) (raw : list byte)
  : result Go.error Normalizer.OrderBook :=
  if (length raw =? 0)%nat then Err (Go.Errorf "empty orderbook response" [])
  else
    match json_Unmarshal raw with
    | Err err => Err (Go.Errorf "failed to parse coinbase orderbook: %w" [Go.AErr err])
    | Ok cbBook =>
        let timeStr := Time cbBook in
        let timeStr := if String.eqb timeStr "" then pb_Time (PriceBook_ cbBook) else timeStr in
        let timestamp :=
          if negb (String.eqb timeStr "") then
            match Normalizer.ParseTimestamp time_Parse timeStr with
            | Ok ts => ts
            | Err _ => Some (Normalizer.timestamppb_New now)
            end
          else Some (Normalizer.timestamppb_New now) in
        match parseOrderBookLevels (Bids (PriceBook_ cbBook)) with
        | Err err => Err (Go.Errorf "failed to parse bids: %w" [Go.AErr err])
        | Ok bids =>
            match parseOrderBookLevels (Asks (PriceBook_ cbBook)) with
            | Err err => Err (Go.Errorf "failed to parse asks: %w" [Go.AErr err])
            | Ok asks =>
                let bestBid :=
                  match bids with
                  | l0 :: _ => Normalizer.Price l0
                  | [] => None
                  end in
                let bestAsk :=
                  match asks with
                  | l0 :: _ => Normalizer.Price l0
                  | [] => None
                  end in
                let '(spread, midPrice) :=
                  match bestBid, bestAsk with
                  | Some bid, Some ask =>
                      (Some (PrimFloat.sub ask bid),
                       Some (PrimFloat.div (PrimFloat.add bid ask) 2%float))
                  | _, _ => (None, None)
                  end in
                Ok (Normalizer.mkOrderBook
                      (Some "coinbase") (Some (ProductID (PriceBook_ cbBook)))
                      timestamp bids asks bestBid bestAsk spread midPrice None)
            end
        end
    end.
End OrderBook.

(** *** Trade normalization (trade.go) *)

Module CoinbaseTrade.
Record t : Type := mk {
  TradeID : string;
  ProductID : string;
  Price : string;
  Size : string;
  Time : string;
  Side : string;
  Bid : string;
  Ask : string
}.
End CoinbaseTrade.

Record CoinbaseTradesResponse : Type := mkCoinbaseTradesResponse {
  Trades : list CoinbaseTrade.t;
  BestBid : string;
  BestAsk : string
}.

(** parseTradeSide *)
Definition parseTradeSide (side : string) : Normalizer.TradeSide :=
  if String.eqb side "BUY" then Normalizer.TRADE_SIDE_BUY
  else if String.eqb side "SELL" then Normalizer.TRADE_SIDE_SELL
  else Normalizer.TRADE_SIDE_UNSPECIFIED.

Section Trades.
Variable time_Parse : string -> string -> result Go.error Go.Time.
Variable strconv_ParseFloat : string -> result Go.error float.
(** json.Unmarshal(raw, &tradesResp) *)
Variable json_Unmarshal_trades : list byte -> result Go.error CoinbaseTradesResponse.
(** json.Unmarshal(raw, &trade) *)
Variable json_Unmarshal_trade : list byte -> result Go.error CoinbaseTrade.t.

Let ParseDecimalOrZero := Normalizer.ParseDecimalOrZero strconv_ParseFloat.

(** normalizeSingleTrade *)
Definition normalizeSingleTrade (cbTrade : CoinbaseTrade.t) : result Go.error Normalizer.Trade.t :=
  match Normalizer.ParseTimestamp time_Parse (CoinbaseTrade.Time cbTrade) with
  | Err err => Err (Go.Errorf "invalid trade time: %w" [Go.AErr err])
  | Ok timestamp =>
      let price := ParseDecimalOrZero (CoinbaseTrade.Price cbTrade) in
      let quantity := ParseDecimalOrZero (CoinbaseTrade.Size cbTrade) in
      let value := PrimFloat.mul price quantity in
      let side := parseTradeSide (CoinbaseTrade.Side cbTrade) in
      Ok (Normalizer.Trade.mk
            (Some (CoinbaseTrade.TradeID cbTrade)) (Some "coinbase")
            (Some (CoinbaseTrade.ProductID cbTrade)) timestamp
            (Some price) (Some quantity) (Some side) (Some value))
  end.

(** NormalizeTrade: the first trade of a trades list, else a single trade. *)
Definition NormalizeTrade (raw : list byte) : result Go.error Normalizer.Trade.t :=
  if (length raw =? 0)%nat then Err (Go.Errorf "empty trade response" [])
  else
    let single :=
      match json_Unmarshal_trade raw with
      | Err err => Err (Go.Errorf "failed to parse coinbase trade: %w" [Go.AErr err])
      | Ok trade => normalizeSingleTrade trade
      end in
    match json_Unmarshal_trades raw with
    | Ok tradesResp =>
        match Trades tradesResp with
        | trade0 :: _ => normalizeSingleTrade trade0
        | [] => single
        end
    | Err _ => single
    end.

(** The loop of NormalizeTrades: a trade that does not convert is passed
    over. *)
Fixpoint normalize_trades_from (cbTrades : list CoinbaseTrade.t)
         (trades : list Normalizer.Trade.t) : list Normalizer.Trade.t :=
  match cbTrades with
  | [] => trades
  | cbTrade :: rest =>
      match normalizeSingleTrade cbTrade with
      | Err _ => normalize_trades_from rest trades
      | Ok trade => normalize_trades_from rest (trades ++ [trade])
      end
  end.

(** NormalizeTrades *)
Definition NormalizeTrades (raw : list byte) : result Go.error (list Normalizer.Trade.t) :=
  if (length raw =? 0)%nat then Err (Go.Errorf "empty trades response" [])
  else
    match json_Unmarshal_trades raw with
    | Err err => Err (Go.Errorf "failed to parse coinbase trades: %w" [Go.AErr err])
    | Ok tradesResp =>
        if (length (Trades tradesResp) =? 0)%nat then Ok []
        else Ok (normalize_trades_from (Trades tradesResp) [])
    end.
End Trades.

End Coinbase.

(** ** Package normalizer/prime *)

Module Prime.

(** *** Error normalization (errors.go) *)

Record PrimeError : Type := mkPrimeError {
  Message : string;
  Code : string;
  Details : gmap string Go.iface;
  StatusCode : Z
}.

Inductive error : Type :=
| Unclassified (e : Go.error)
| PermanentError (Err : Go.error) (Code : string)
| TemporaryError (Err : Go.error) (Code : string)
| RateLimitError (Err : Go.error) (Code : string).

Definition clientErrorCodes : gmap string bool :=
  <["INVALID_ARGUMENT" := true]>
    (<["INVALID_PRODUCT" := true]>
       (<["INVALID_ORDER" := true]>
          (<["INVALID_ORDER_ID" := true]>
             (<["INVALID_PORTFOLIO" := true]>
                (<["INVALID_PORTFOLIO_ID" := true]>
                   (<["INSUFFICIENT_FUNDS" := true]>
                      (<["ORDER_NOT_FOUND" := true]>
                         (<["VALIDATION_ERROR" := true]> ∅)))))))).

(** isClientError: the map is indexed by the code; a missing key reads as
    false. *)
Definition isClientError (primeErr : PrimeError) : bool :=
  default false (clientErrorCodes !! Code primeErr).

(** classifyError *)
Definition classifyError (statusCode : Z) (msg : string) (primeErr : PrimeError) : error :=
  let baseErr := Go.Errorf "%s (status: %d)" [Go.AStr msg; Go.AInt statusCode] in
  if (statusCode =? 401) || (statusCode =? 403) then PermanentError baseErr (Code primeErr)
  else if statusCode =? 429 then RateLimitError baseErr (Code primeErr)
  else if statusCode =? 400 then
    if isClientError primeErr then PermanentError baseErr (Code primeErr)
    else TemporaryError baseErr (Code primeErr)
  else if statusCode =? 404 then PermanentError baseErr (Code primeErr)
  else if (statusCode =? 500) || (statusCode =? 503) || (statusCode =? 502)
  then TemporaryError baseErr (Code primeErr)
  else TemporaryError baseErr (Code primeErr).

(** IsTemporary, IsPermanent, IsRateLimit *)
Definition IsTemporary (err : error) : bool :=
  match err with
  | TemporaryError _ _ | RateLimitError _ _ => true
  | _ => false
  end.

Definition IsPermanent (err : error) : bool :=
  match err with PermanentError _ _ => true | _ => false end.

Definition IsRateLimit (err : error) : bool :=
  match err with RateLimitError _ _ => true | _ => false end.

Section Errors.
(** json.Unmarshal(body, &primeErr) *)
Variable json_Unmarshal : list byte -> result Go.error PrimeError.
(** json.Marshal(primeErr.Details) *)
Variable json_Marshal : gmap string Go.iface -> result Go.error string.

(** formatErrorMessage *)
Definition formatErrorMessage (primeErr : PrimeError) : string :=
  let msg := "prime api error" in
  let msg := if String.eqb (Code primeErr) "" then msg else msg +:+ ": " +:+ Code primeErr in
  let msg :=
    if String.eqb (Message primeErr) "" then msg
    else if String.eqb (Code primeErr) "" then msg +:+ ": " +:+ Message primeErr
    else msg +:+ " (" +:+ Message primeErr +:+ ")" in
  if (0 <? size (Details primeErr))%nat then
    match json_Marshal (Details primeErr) with
    | Ok detailsJSON => msg +:+ " [details: " +:+ detailsJSON +:+ "]"
    | Err _ => msg
    end
  else msg.

(** NormalizeError *)
Definition NormalizeError (statusCode : Z) (body : list byte) : error :=
  if (length body =? 0)%nat then
    Unclassified (Go.Errorf "prime api error: status %d (no body)" [Go.AInt statusCode])
  else
    match json_Unmarshal body with
    | Err _ =>
        Unclassified (Go.Errorf "prime api error: status %d: %s"
                        [Go.AInt statusCode; Go.AStr (string_of_list_byte body)])
    | Ok primeErr => classifyError statusCode (formatErrorMessage primeErr) primeErr
    end.
End Errors.

(** *** Order-book normalization (orderbook.go) *)

Record PrimeOrderBook : Type := mkPrimeOrderBook {
  ProductID : string;
  Bids : list (list Go.iface);
  Asks : list (list Go.iface);
  Time : string;
  Sequence : Z
}.

Section OrderBook.
Variable time_Parse : string -> string -> result Go.error Go.Time.
Variable strconv_ParseFloat : string -> result Go.error float.
(** float64(v) for an int or int64 v *)
Variable float64_of_int : Z -> float.
(** json.Unmarshal(raw, &primeBook) *)
Variable json_Unmarshal : list byte -> result Go.error PrimeOrderBook.

Let ParseDecimalOrZero := Normalizer.ParseDecimalOrZero strconv_ParseFloat.

(** The type switch on a price or size: a string or a number. *)
Definition number (v : Go.iface) : option float :=
  match v with
  | Go.IString str => Some (ParseDecimalOrZero str)
  | Go.IFloat64 f => Some f
  | Go.IInt n => Some (float64_of_int n)
  | Go.IInt64 n => Some (float64_of_int n)
  | _ => None
  end.

(** The body of the loop of parseOrderBookLevels, for the level at index
    [i]: an error, or the price and size read.  *)
Definition parse_level (i : Z) (level : list Go.iface) : result Go.error (float * float) :=
  match level with
  | v0 :: v1 :: _ =>
      match number v0 with
      | None => Err (Go.Errorf "level %d: invalid price type %T" [Go.AInt i; Go.AVal v0])
      | Some price =>
          match number v1 with
          | None => Err (Go.Errorf "level %d: invalid size type %T" [Go.AInt i; Go.AVal v1])
          | Some size => Ok (price, size)
          end
      end
  | _ =>
      Err (Go.Errorf "level %d: expected at least 2 elements, got %d"
             [Go.AInt i; Go.AInt (Z.of_nat (length level))])
  end.

(** The test that skips a level: price == 0 && size == 0 on float64. *)
Definition is_empty_level (price size : float) : bool :=
  PrimFloat.eqb price 0%float && PrimFloat.eqb size 0%float.

Fixpoint parse_levels_from (i : Z) (levels : list (list Go.iface))
         (result_ : list Normalizer.OrderBookLevel)
  : result Go.error (list Normalizer.OrderBookLevel) :=
  match levels with
  | [] => Ok result_
  | level :: rest =>
      match parse_level i level with
      | Err e => Err e
      | Ok (price, size) =>
          if is_empty_level price size then parse_levels_from (i + 1) rest result_
          else
            parse_levels_from (i + 1) rest
              (result_ ++ [Normalizer.mkOrderBookLevel (Some price) (Some size) None])
      end
  end.

(** parseOrderBookLevels *)
Definition parseOrderBookLevels (levels : list (list Go.iface))
  : result Go.error (list Normalizer.OrderBookLevel) :=
  parse_levels_from 0 levels [].

(** NormalizeOrderBook.  [now] is what timestamppb.Now() returns. *)
Definition NormalizeOrderBook (now : Go.Time) (raw : list byte)
  : result Go.error Normalizer.OrderBook :=
  if (length raw =? 0)%nat then Err (Go.Errorf "empty orderbook response" [])
  else
    match json_Unmarshal raw with
    | Err err => Err (Go.Errorf "failed to parse prime orderbook: %w" [Go.AErr err])
    | Ok primeBook =>
        let timestamp :=
          if negb (String.eqb (Time primeBook) "") then
            match Normalizer.ParseTimestamp time_Parse (Time primeBook) with
            | Ok ts => ts
            | Err _ => Some (Normalizer.timestamppb_New now)
            end
          else Some (Normalizer.timestamppb_New now) in
        match parseOrderBookLevels (Bids primeBook) with
        | Err err => Err (Go.Errorf "failed to parse bids: %w" [Go.AErr err])
        | Ok bids =>
            match parseOrderBookLevels (Asks primeBook) with
            | Err err => Err (Go.Errorf "failed to parse asks: %w" [Go.AErr err])
            | Ok asks =>
                let bestBid :=
                  match bids with
                  | l0 :: _ => Normalizer.Price l0
                  | [] => None
                  end in
                let bestAsk :=
                  match asks with
                  | l0 :: _ => Normalizer.Price l0
                  | [] => None
                  end in
                let '(spread, midPrice) :=
                  match bestBid, bestAsk with
                  | Some bid, Some ask =>
                      (Some (PrimFloat.sub ask bid),
                       Some (PrimFloat.div (PrimFloat.add bid ask) 2%float))
                  | _, _ => (None, None)
                  end in
                Ok (Normalizer.mkOrderBook
                      (Some "prime") (Some (ProductID primeBook))
                      timestamp bids asks bestBid bestAsk spread midPrice
                      (if 0 <? Sequence primeBook then Some (Sequence primeBook) else None))
            end
        end
    end.
End OrderBook.

(** *** Balance normalization (balance.go) *)

Module PrimeBalance.
Record t : Type := mk {
  Symbol : string;
  Amount : string;
  Holds : string;
  BondedAmount : string;
  ReservedAmount : string;
  UnbondingAmount : string;
  UnvestedAmount : string;
  PendingRewardsAmount : string;
  PastRewardsAmount : string;
  BondableAmount : string;
  WithdrawableAmount : string
}.
End PrimeBalance.

Module PrimeWalletBalance.
Record t : Type := mk {
  Symbol : string;
  Amount : string;
  Holds : string;
  Type_ : string;
  WalletID : string;
  WalletName : string
}.
End PrimeWalletBalance.

Section Balances.
Variable strconv_ParseFloat : string -> result Go.error float.
(** json.Unmarshal(raw, &primeBalance) *)
Variable json_Unmarshal_balance : list byte -> result Go.error PrimeBalance.t.
(** json.Unmarshal(raw, &walletBalance) *)
Variable json_Unmarshal_wallet : list byte -> result Go.error PrimeWalletBalance.t.

Let ParseDecimalOrZero := Normalizer.ParseDecimalOrZero strconv_ParseFloat.

(** NormalizeBalance *)
Definition NormalizeBalance (raw : list byte) : result Go.error Normalizer.Balance.t :=
  if (length raw =? 0)%nat then Err (Go.Errorf "empty balance response" [])
  else
    match json_Unmarshal_balance raw with
    | Err err => Err (Go.Errorf "failed to parse prime balance: %w" [Go.AErr err])
    | Ok primeBalance =>
        let total := ParseDecimalOrZero (PrimeBalance.Amount primeBalance) in
        let holds := ParseDecimalOrZero (PrimeBalance.Holds primeBalance) in
        let available := PrimFloat.sub total holds in
        Ok (Normalizer.Balance.mk
              None (Some (PrimeBalance.Symbol primeBalance))
              (Some total) (Some available) (Some holds))
    end.

(** NormalizeWalletBalance *)
Definition NormalizeWalletBalance (raw : list byte) : result Go.error Normalizer.Balance.t :=
  if (length raw =? 0)%nat then Err (Go.Errorf "empty wallet balance response" [])
  else
    match json_Unmarshal_wallet raw with
    | Err err => Err (Go.Errorf "failed to parse prime wallet balance: %w" [Go.AErr err])
    | Ok walletBalance =>
        let total := ParseDecimalOrZero (PrimeWalletBalance.Amount walletBalance) in
        let holds := ParseDecimalOrZero (PrimeWalletBalance.Holds walletBalance) in
        let available := PrimFloat.sub total holds in
        Ok (Normalizer.Balance.mk
              (Some (PrimeWalletBalance.WalletID walletBalance))
              (Some (PrimeWalletBalance.Symbol walletBalance))
              (Some total) (Some available) (Some holds))
    end.
End Balances.

(** *** Order normalization (order.go) *)

Record PrimeOrderEdit : Type := mkPrimeOrderEdit {
  edit_Price : string;
  edit_Size : string;
  edit_DisplaySize : string;
  edit_StopPrice : string;
  edit_StopLimitPrice : string;
  edit_EndTime : string;
  edit_AcceptTime : string;
  edit_ClientOrderID : string;
  edit_BaseQuantity : string;
  edit_QuoteValue : string;
  edit_DisplayBaseSize : string;
  edit_DisplayQuoteSize : string;
  edit_ExpiryTime : string
}.

Module PrimeOrder.
Record t : Type := mk {
  ID : string;
  UserID : string;
  PortfolioID : string;
  ProductID : string;
  Side : string;
  ClientOrderID : string;
  Type_ : string;
  BaseQuantity : string;
  QuoteValue : string;
  LimitPrice : string;
  StartTime : string;
  ExpiryTime : string;
  Status : string;
  TimeInForce : string;
  CreatedAt : string;
  FilledQuantity : string;
  FilledValue : string;
  AverageFilledPrice : string;
  Commission : string;
  ExchangeFee : string;
  HistoricalPOV : string;
  StopPrice : string;
  NetAverageFilledPrice : string;
  UserContext : string;
  ClientProductID : string;
  PostOnly : bool;
  OrderEditHistory : list PrimeOrderEdit;
  IsRaiseExact : bool;
  DisplaySize : string;
  EditHistory : list PrimeOrderEdit;
  DisplayQuoteSize : string;
  DisplayBaseSize : string
}.
End PrimeOrder.

(** mapOrderType *)
Definition mapOrderType (primeType : string) : Normalizer.OrderType :=
  if String.eqb primeType "MARKET" then Normalizer.ORDER_TYPE_MARKET
  else if String.eqb primeType "LIMIT" then Normalizer.ORDER_TYPE_LIMIT
  else if String.eqb primeType "STOP_LIMIT" then Normalizer.ORDER_TYPE_STOP_LIMIT
  else if String.eqb primeType "TWAP" then Normalizer.ORDER_TYPE_LIMIT
  else if String.eqb primeType "VWAP" then Normalizer.ORDER_TYPE_LIMIT
  else if String.eqb primeType "BLOCK" then Normalizer.ORDER_TYPE_LIMIT
  else if String.eqb primeType "RFQ" then Normalizer.ORDER_TYPE_LIMIT
  else Normalizer.ORDER_TYPE_UNSPECIFIED.

(** mapOrderSide *)
Definition mapOrderSide (primeSide : string) : Normalizer.OrderSide :=
  if String.eqb primeSide "BUY" then Normalizer.ORDER_SIDE_BUY
  else if String.eqb primeSide "SELL" then Normalizer.ORDER_SIDE_SELL
  else Normalizer.ORDER_SIDE_UNSPECIFIED.

(** mapOrderStatus *)
Definition mapOrderStatus (primeStatus : string) : Normalizer.OrderStatus :=
  if String.eqb primeStatus "OPEN" || String.eqb primeStatus "WORKING"
  then Normalizer.ORDER_STATUS_OPEN
  else if String.eqb primeStatus "FILLED" then Normalizer.ORDER_STATUS_FILLED
  else if String.eqb primeStatus "CANCELLED" then Normalizer.ORDER_STATUS_CANCELLED
  else if String.eqb primeStatus "EXPIRED" then Normalizer.ORDER_STATUS_REJECTED
  else if String.eqb primeStatus "PENDING" then Normalizer.ORDER_STATUS_PENDING
  else if String.eqb primeStatus "REJECTED" then Normalizer.ORDER_STATUS_REJECTED
  else Normalizer.ORDER_STATUS_UNSPECIFIED.

(** mapTimeInForce *)
Definition mapTimeInForce (primeTIF : string) : Normalizer.TimeInForce :=
  if String.eqb primeTIF "GOOD_UNTIL_DATE_TIME" then Normalizer.TIME_IN_FORCE_GTD
  else if String.eqb primeTIF "GOOD_UNTIL_CANCELLED" then Normalizer.TIME_IN_FORCE_GTC
  else if String.eqb primeTIF "IMMEDIATE_OR_CANCEL" then Normalizer.TIME_IN_FORCE_IOC
  else if String.eqb primeTIF "FILL_OR_KILL" then Normalizer.TIME_IN_FORCE_FOK
  else Normalizer.TIME_IN_FORCE_GTC.

Section Orders.
Variable time_Parse : string -> string -> result Go.error Go.Time.
Variable strconv_ParseFloat : string -> result Go.error float.
(** json.Unmarshal(raw, &primeOrder) *)
Variable json_Unmarshal_order : list byte -> result Go.error PrimeOrder.t.

Let ParseDecimalOrZero := Normalizer.ParseDecimalOrZero strconv_ParseFloat.

(** A decimal field of an order: parsed when the field is not empty, the
    zero value of float64 otherwise. *)
Definition decimal_field (s : string) : float :=
  if negb (String.eqb s "") then ParseDecimalOrZero s else 0%float.

(** NormalizeOrder *)
Definition NormalizeOrder (raw : list byte) : result Go.error Normalizer.Order.t :=
  if (length raw =? 0)%nat then Err (Go.Errorf "empty order response" [])
  else
    match json_Unmarshal_order raw with
    | Err err => Err (Go.Errorf "failed to parse prime order: %w" [Go.AErr err])
    | Ok primeOrder =>
        match Normalizer.ParseTimestamp time_Parse (PrimeOrder.CreatedAt primeOrder) with
        | Err err => Err (Go.Errorf "invalid created_at: %w" [Go.AErr err])
        | Ok createdAt =>
            let limitPrice := decimal_field (PrimeOrder.LimitPrice primeOrder) in
            let stopPrice := decimal_field (PrimeOrder.StopPrice primeOrder) in
            let quantity := decimal_field (PrimeOrder.BaseQuantity primeOrder) in
            let filledQuantity := decimal_field (PrimeOrder.FilledQuantity primeOrder) in
            let avgFilledPrice := decimal_field (PrimeOrder.AverageFilledPrice primeOrder) in
            let commission := decimal_field (PrimeOrder.Commission primeOrder) in
            let orderType := mapOrderType (PrimeOrder.Type_ primeOrder) in
            let side := mapOrderSide (PrimeOrder.Side primeOrder) in
            let status := mapOrderStatus (PrimeOrder.Status primeOrder) in
            let timeInForce := mapTimeInForce (PrimeOrder.TimeInForce primeOrder) in
            Ok (Normalizer.Order.mk
                  (Some (PrimeOrder.ID primeOrder)) (Some (PrimeOrder.ID primeOrder))
                  (Some (PrimeOrder.ClientOrderID primeOrder))
                  (Some (PrimeOrder.ProductID primeOrder))
                  (Some side) (Some orderType) (Some status) (Some timeInForce)
                  (Some quantity) (Some limitPrice) (Some stopPrice)
                  (Some filledQuantity) (Some avgFilledPrice)
                  createdAt createdAt (Some commission)
                  (Some (PrimeOrder.PostOnly primeOrder)))
        end
    end.
End Orders.

(** *** Fill normalization (fill.go) *)

Module PrimeFill.
Record t : Type := mk {
  PortfolioID : string;
  PortfolioUUID : string;
  PortfolioName : string;
  FillID : string;
  ExecID : Z;
  OrderID : string;
  InstrumentID : string;
  InstrumentUUID : string;
  Symbol : string;
  MatchID : string;
  FillPrice : float;
  FillQty : float;
  ClientID : string;
  ClientOrderID : string;
  OrderQty : float;
  LimitPrice : float;
  TotalFilled : float;
  FilledVWAP : float;
  ExpireTime : string;
  StopPrice : float;
  Side : string;
  TIF : string;
  STPMode : string;
  Flags : string;
  Fee : float;
  FeeAsset : string;
  OrderStatus : string;
  EventTime : string;
  Source : string;
  ExecutionVenue : string
}.
End PrimeFill.

Section Fills.
Variable time_Parse : string -> string -> result Go.error Go.Time.
(** json.Unmarshal(raw, &primeFill) *)
Variable json_Unmarshal_fill : list byte -> result Go.error PrimeFill.t.

(** NormalizeExecutionReport *)
Definition NormalizeExecutionReport (raw : list byte)
  : result Go.error Normalizer.ExecutionReport.t :=
  if (length raw =? 0)%nat then Err (Go.Errorf "empty execution report response" [])
  else
    match json_Unmarshal_fill raw with
    | Err err => Err (Go.Errorf "failed to parse prime fill: %w" [Go.AErr err])
    | Ok primeFill =>
        match Normalizer.ParseTimestamp time_Parse (PrimeFill.EventTime primeFill) with
        | Err err => Err (Go.Errorf "invalid event_time: %w" [Go.AErr err])
        | Ok timestamp =>
            let value := PrimFloat.mul (PrimeFill.FillPrice primeFill) (PrimeFill.FillQty primeFill) in
            let orderStatus := PrimeFill.OrderStatus primeFill in
            let executionType := Normalizer.EXECUTION_TYPE_FILL in
            let isMaker := false in
            let side := PrimeFill.Side primeFill in
            Ok (Normalizer.ExecutionReport.mk
                  (Some (PrimeFill.FillID primeFill))
                  (Some (PrimeFill.OrderID primeFill))
                  (Some (PrimeFill.OrderID primeFill))
                  (Some (PrimeFill.Symbol primeFill))
                  (Some executionType) (Some orderStatus) (Some side) timestamp
                  (Some (PrimeFill.FillPrice primeFill))
                  (Some (PrimeFill.FillQty primeFill))
                  (Some (PrimeFill.Fee primeFill))
                  (Some (PrimeFill.MatchID primeFill))
                  (Some isMaker)
                  (Some (PrimeFill.FillID primeFill))
                  (Some value)
                  (if negb (String.eqb (PrimeFill.ClientOrderID primeFill) "")
                   then Some (PrimeFill.ClientOrderID primeFill) else None))
        end
    end.
End Fills.

End Prime.

(** * Vocabulary of the properties

    Names for what the properties speak of, and instances of the runtime
    parameters on which closed examples are evaluated. *)

(** ** Known values *)

Definition hex (l : list Z) : string :=
  let digits := Go.codes "0123456789abcdef" in
  Go.string_of_codes
    (flat_map (fun b => [nth (Z.to_nat (b / 16)) digits 0; nth (Z.to_nat (b mod 16)) digits 0]) l).

(** ** Signing *)

Section SigningVocabulary.
Import Auth.

(** The timestamp a Sign call uses. *)
Definition effective_timestamp (now : Go.Time) (req : SignRequest.t) : string :=
  if String.eqb (SignRequest.Timestamp req) ""
  then Go.FormatInt (Go.Time_Unix now)
  else SignRequest.Timestamp req.

(** base64(HMAC-SHA256(key, message)) *)
Definition signature_of (key : list byte) (message : string) : string :=
  Base64.EncodeToString
    (map Go.byte_of_Z
       (HMAC.Sum (map Go.byte_to_Z key) (map Go.byte_to_Z (Go.bytes_of_string message)))).

(** A signing function instrumented to log every message it is called with,
    in call order, as the test suite's capturing closures do. *)
Definition recording {Ctx W : Type} (f : @SignerFunc Ctx W) : @SignerFunc Ctx (list (list byte) * W) :=
  fun ctx msg st =>
    let '(r, w') := f ctx msg (snd st) in
    (r, (fst st ++ [msg], w')).

(** The double-quote character, and the JSON body of the example. *)
Definition dq : string := String (ascii_of_nat 34) EmptyString.

Definition example_body : string :=
  "{" +:+ dq +:+ "symbol" +:+ dq +:+ ":" +:+ dq +:+ "BTC-USD" +:+ dq +:+ "}".

Definition example_request : SignRequest.t :=
  SignRequest.mk "POST" "/api/v1/orders" (Some (Go.bytes_of_string example_body))
                 "1234567890" ∅.

End SigningVocabulary.

(** The capturing signer of the test suite: it stores the message it receives
    and returns a fixed signature. *)
Definition capturing_signer : @Auth.SignerFunc unit (list byte) :=
  fun _ message _ => (Ok "test-signature", message).

(** ** Error classification *)

(** [sub] occurs in [s] at offset [j]. *)
Definition occurs_at (j : nat) (sub s : string) : Prop :=
  exists pre post, String.length pre = j /\ s = pre +:+ sub +:+ post.



Definition prime_client_codes : list string :=
  [ "INVALID_ARGUMENT"; "INVALID_PRODUCT"; "INVALID_ORDER"; "INVALID_ORDER_ID";
    "INVALID_PORTFOLIO"; "INVALID_PORTFOLIO_ID"; "INSUFFICIENT_FUNDS";
    "ORDER_NOT_FOUND"; "VALIDATION_ERROR" ].

(** The base error both packages wrap: message and status code. *)
Definition base_error (msg : string) (statusCode : Z) : Go.error :=
  Go.Errorf "%s (status: %d)" [Go.AStr msg; Go.AInt statusCode].

(** *** Decoders for closed examples

    [encoding/json] is a parameter of the normalizers.  For closed examples it
    is instantiated by a fixture: a table from the body texts of the test
    suite to the structures they decode to; any other body is a syntax
    error. *)

(** JSON text written with single quotes in place of double quotes. *)
Definition json_text (s : string) : string :=
  Go.string_of_codes (map (fun c => if c =? 39 then 34 else c) (Go.codes s)).

Definition json_bytes (s : string) : list byte := Go.bytes_of_string (json_text s).

Fixpoint fixture_lookup {A : Type} (table : list (string * A)) (body : string) : option A :=
  match table with
  | [] => None
  | (text, v) :: rest => if String.eqb (json_text text) body then Some v else fixture_lookup rest body
  end.

Definition fixture_Unmarshal {A : Type} (table : list (string * A)) (body : list byte)
  : result Go.error A :=
  match fixture_lookup table (string_of_list_byte body) with
  | Some v => Ok v
  | None => Err (Go.ErrorString "invalid character")
  end.

Definition coinbase_error_fixtures : list (string * Coinbase.CoinbaseError) :=
  [ ("{'error': 'rate_limit', 'message': 'Too many requests'}",
     Coinbase.mkCoinbaseError "rate_limit" "Too many requests" "" "" "" "");
    ("{'error': 'insufficient_funds', 'message': 'Not enough balance'}",
     Coinbase.mkCoinbaseError "insufficient_funds" "Not enough balance" "" "" "" "");
    ("{'error': 'processing_error', 'message': 'Request failed'}",
     Coinbase.mkCoinbaseError "processing_error" "Request failed" "" "" "" "");
    ("{'error': 'rejected', 'preview_failure_reason': 'Insufficient funds'}",
     Coinbase.mkCoinbaseError "rejected" "" "" "Insufficient funds" "" "") ].

Definition prime_error_fixtures : list (string * Prime.PrimeError) :=
  [ ("{'message': 'Too many requests', 'code': 'RATE_LIMIT_EXCEEDED'}",
     Prime.mkPrimeError "Too many requests" "RATE_LIMIT_EXCEEDED" ∅ 0);
    ("{'message': 'Invalid order', 'code': 'INVALID_ORDER'}",
     Prime.mkPrimeError "Invalid order" "INVALID_ORDER" ∅ 0);
    ("{'message': 'Invalid order size', 'code': 'invalid_order'}",
     Prime.mkPrimeError "Invalid order size" "invalid_order" ∅ 0) ].

Definition no_Marshal (m : gmap string Go.iface) : result Go.error string :=
  Err (Go.ErrorString "unsupported value").

(** ** Timestamps *)

(** The Unix time of a UTC calendar date and time of day (proleptic Gregorian
    calendar), to name the instant a calendar timestamp denotes. *)
Definition unix_of_civil (y m d hh mm ss : Z) : Z :=
  let y' := if m <=? 2 then y - 1 else y in
  let era := y' / 400 in
  let yoe := y' - era * 400 in
  let doy := (153 * (m + (if 2 <? m then -3 else 9)) + 2) / 5 + d - 1 in
  let doe := yoe * 365 + yoe / 4 - yoe / 100 + doy in
  (era * 146097 + doe - 719468) * 86400 + hh * 3600 + mm * 60 + ss.

(** A fragment of time.Parse for closed examples: layout RFC3339 and a value
    of the exact shape YYYY-MM-DDTHH:MM:SSZ with fields in range; everything
    else is reported as a parse error. *)
Definition two_digits (a b : Z) : option Z :=
  if (48 <=? a) && (a <=? 57) && (48 <=? b) && (b <=? 57)
  then Some ((a - 48) * 10 + (b - 48)) else None.

Definition days_in (y m : Z) : Z :=
  if m =? 2 then
    if ((y mod 4 =? 0) && negb (y mod 100 =? 0)) || (y mod 400 =? 0) then 29 else 28
  else if (m =? 4) || (m =? 6) || (m =? 9) || (m =? 11) then 30 else 31.

Definition example_time_Parse (layout value : string) : result Go.error Go.Time :=
  let bad := Err (Go.ErrorString "parsing time: cannot parse") in
  if negb (String.eqb layout Normalizer.RFC3339) then bad
  else
    match Go.codes value with
    | [y1; y2; y3; y4; 45; m1; m2; 45; d1; d2; 84; h1; h2; 58; n1; n2; 58; s1; s2; 90] =>
        match two_digits y1 y2, two_digits y3 y4, two_digits m1 m2,
              two_digits d1 d2, two_digits h1 h2, two_digits n1 n2, two_digits s1 s2 with
        | Some yh, Some yl, Some m, Some d, Some hh, Some mm, Some ss =>
            let y := yh * 100 + yl in
            if (1 <=? m) && (m <=? 12) && (1 <=? d) && (d <=? days_in y m)
               && (hh <? 24) && (mm <? 60) && (ss <? 60)
            then Ok (Go.mkTime (unix_of_civil y m d hh mm ss) 0)
            else bad
        | _, _, _, _, _, _, _ => bad
        end
    | _ => bad
    end.

(** ** Order books *)

(** A fragment of strconv.ParseFloat for closed examples: an optional minus
    sign, digits, and an optional fraction, with at most fifteen digits in
    all.  The value is then a quotient of two integers that binary64 holds
    exactly, and one correctly rounded division gives the nearest float64,
    which is what strconv.ParseFloat returns.  Anything else is reported as a
    syntax error. *)
Fixpoint split_at_dot (l : list ascii) : list ascii * option (list ascii) :=
  match l with
  | [] => ([], None)
  | c :: r =>
      if Ascii.eqb c "." then ([], Some r)
      else let '(a, b) := split_at_dot r in (c :: a, b)
  end.

Definition float_of_small_Z (z : Z) : float := PrimFloat.of_uint63 (Uint63.of_Z z).

Definition example_ParseFloat (s : string) : result Go.error float :=
  let bad := Err (Go.NumErr "ParseFloat" s Go.ErrSyntax) in
  let l := list_ascii_of_string s in
  let '(neg, l) :=
    match l with
    | c :: r => if Ascii.eqb c "-" then (true, r) else (false, l)
    | [] => (false, l)
    end in
  let '(int_part, frac) := split_at_dot l in
  let frac_part := match frac with Some f => f | None => [] end in
  let digits := int_part ++ frac_part in
  if (length digits =? 0)%nat || (15 <? length digits)%nat then bad
  else
    match Go.parse_digits 0 digits with
    | None => bad
    | Some m =>
        let f := PrimFloat.div (float_of_small_Z m)
                               (float_of_small_Z (10 ^ Z.of_nat (length frac_part))) in
        Ok (if neg then PrimFloat.opp f else f)
    end.

(** *** Closed examples

    fmt's [%f] verb prints the exact value of a float64 rounded to six
    decimals, halves to even.  The value of a finite float is m * 2^e, so the
    rounding is integer arithmetic. *)
Definition pad6 (n : Z) : string :=
  let d := Go.FormatInt n in
  string_of_list_ascii (repeat "0"%char (6 - String.length d)) +:+ d.

Definition example_Sprintf_f (f : float) : string :=
  match Prim2SF f with
  | S754_nan => "NaN"
  | S754_infinity s => if s then "-Inf" else "+Inf"
  | S754_zero s => (if s then "-" else "") +:+ "0.000000"
  | S754_finite s m e =>
      let num := Z.pos m * 1000000 in
      let q :=
        if 0 <=? e then num * 2 ^ e
        else
          let d := 2 ^ (- e) in
          let q0 := num / d in
          let r := num mod d in
          if (d <? 2 * r) || ((d =? 2 * r) && Z.odd q0) then q0 + 1 else q0 in
      (if s then "-" else "") +:+ Go.FormatInt (q / 1000000) +:+ "." +:+ pad6 (q mod 1000000)
  end.

(** float64(v) for an integer v: the nearest float64, halves to even. *)
Definition example_float64_of_int (v : Z) : float :=
  SF2Prim (binary_normalize 53 1024 v 0 false).

(** int32(f) for a float64 f within range: truncation toward zero. *)
Definition example_int32_of_float64 (f : float) : Z :=
  match Prim2SF f with
  | S754_finite s m e =>
      let n := if 0 <=? e then Z.pos m * 2 ^ e else Z.pos m / 2 ^ (- e) in
      if s then - n else n
  | _ => 0
  end.

Definition f1_2 : float := PrimFloat.div 12 10.

Definition coinbase_book_fixtures : list (string * Coinbase.CoinbaseOrderBook) :=
  [ ("{'pricebook': {'product_id': 'BTC-USD', 'bids': [[50000, 1.5]], 'asks': [[50010, 1.2]]}}",
     Coinbase.mkCoinbaseOrderBook
       (Coinbase.mkPriceBook "BTC-USD"
          (Some [[Go.IFloat64 50000; Go.IFloat64 1.5]])
          (Some [[Go.IFloat64 50010; Go.IFloat64 f1_2]]) "") "");
    ("{'pricebook': {'product_id': 'BTC-USD', 'bids': [], 'asks': [['50010', '1.2']]}}",
     Coinbase.mkCoinbaseOrderBook
       (Coinbase.mkPriceBook "BTC-USD"
          (Some [])
          (Some [[Go.IString "50010"; Go.IString "1.2"]]) "") "") ].

Definition prime_book_fixtures : list (string * Prime.PrimeOrderBook) :=
  [ ("{'product_id': 'BTC-USD', 'bids': [[50000, 1.5]], 'asks': [[50010, 1.2]], 'sequence': 12345}",
     Prime.mkPrimeOrderBook "BTC-USD"
       [[Go.IFloat64 50000; Go.IFloat64 1.5]]
       [[Go.IFloat64 50010; Go.IFloat64 f1_2]] "" 12345);
    ("{'product_id': 'BTC-USD', 'bids': [['0', '0.0']], 'asks': [[50010, 1.2]]}",
     Prime.mkPrimeOrderBook "BTC-USD"
       [[Go.IString "0"; Go.IString "0.0"]]
       [[Go.IFloat64 50010; Go.IFloat64 f1_2]] "" 0) ].

Definition coinbase_NormalizeOrderBook_example : Go.Time -> list byte -> result Go.error Normalizer.OrderBook :=
  Coinbase.NormalizeOrderBook example_time_Parse example_ParseFloat example_Sprintf_f
    example_int32_of_float64 (fixture_Unmarshal coinbase_book_fixtures).

Definition prime_NormalizeOrderBook_example : Go.Time -> list byte -> result Go.error Normalizer.OrderBook :=
  Prime.NormalizeOrderBook example_time_Parse example_ParseFloat example_float64_of_int
    (fixture_Unmarshal prime_book_fixtures).

Definition clock : Go.Time := Go.mkTime 1700000000 0.

Section OrderBookVocabulary.
Import Normalizer.

(** A converted level always carries a price. *)
Definition has_price (l : OrderBookLevel) : Prop := exists p, Price l = Some p.

(** What an order book says of its two sides: best bid and ask are the prices
    of the first level of each side; spread and mid-price are there when both
    sides have a level, as best-ask minus best-bid and as half their sum;
    with no level on a side, its best price, the spread and the mid-price are
    absent. *)
Definition summarizes_levels (ob : OrderBook) : Prop :=
  (forall l0 rest, Bids ob = l0 :: rest ->
      exists bid, Price l0 = Some bid /\ BestBid ob = Some bid)
  /\ (forall l0 rest, Asks ob = l0 :: rest ->
        exists ask, Price l0 = Some ask /\ BestAsk ob = Some ask)
  /\ (forall bid ask, BestBid ob = Some bid -> BestAsk ob = Some ask ->
        Spread ob = Some (PrimFloat.sub ask bid)
        /\ MidPrice ob = Some (PrimFloat.div (PrimFloat.add bid ask) 2%float))
  /\ (forall lb rb la ra, Bids ob = lb :: rb -> Asks ob = la :: ra ->
        exists bid ask,
          Price lb = Some bid /\ Price la = Some ask
          /\ Spread ob = Some (PrimFloat.sub ask bid)
          /\ MidPrice ob = Some (PrimFloat.div (PrimFloat.add bid ask) 2%float))
  /\ (Bids ob = [] -> BestBid ob = None /\ Spread ob = None /\ MidPrice ob = None)
  /\ (Asks ob = [] -> BestAsk ob = None /\ Spread ob = None /\ MidPrice ob = None).

Variable strconv_ParseFloat : string -> result Go.error float.
Variable float64_of_int : Z -> float.

(** The price and size a level holds, when it has two elements or more and
    both are strings or numbers. *)
Definition level_values (level : list Go.iface) : option (float * float) :=
  match level with
  | v0 :: v1 :: _ =>
      match Prime.number strconv_ParseFloat float64_of_int v0,
            Prime.number strconv_ParseFloat float64_of_int v1 with
      | Some price, Some size => Some (price, size)
      | _, _ => None
      end
  | _ => None
  end.

Fixpoint all_values (levels : list (list Go.iface)) : option (list (float * float)) :=
  match levels with
  | [] => Some []
  | level :: rest =>
      match level_values level, all_values rest with
      | Some pq, Some vals => Some (pq :: vals)
      | _, _ => None
      end
  end.

(** The levels that are kept: those whose price and size are not both zero. *)
Definition kept (vals : list (float * float)) : list (float * float) :=
  List.filter (fun pq => negb (Prime.is_empty_level (fst pq) (snd pq))) vals.

Definition level_of (pq : float * float) : OrderBookLevel :=
  mkOrderBookLevel (Some (fst pq)) (Some (snd pq)) None.

End OrderBookVocabulary.

(** ** Vocabulary of the further properties *)

(** A lower-case hexadecimal digit. *)
Definition is_hex_digit (c : ascii) : bool :=
  ((48 <=? Go.code c) && (Go.code c <=? 57)) || ((97 <=? Go.code c) && (Go.code c <=? 102)).

(** The value of a string of decimal digits, and of a numeric string with
    its optional minus sign. *)
Definition digits_value (l : list ascii) : Z :=
  fold_left (fun acc c => acc * 10 + (Go.code c - 48)) l 0.

Definition numeric_value (t : string) : Z :=
  match t with
  | String c rest =>
      if Ascii.eqb c "-" then - digits_value (list_ascii_of_string rest)
      else digits_value (list_ascii_of_string t)
  | EmptyString => 0
  end.

(** Nanoseconds per unit of a numeric timestamp of value [v]: seconds below
    1e11, milliseconds below 1e14, microseconds above. *)
Definition timestamp_unit (v : Z) : Z :=
  if v <? 10 ^ 11 then 10 ^ 9 else if v <? 10 ^ 14 then 10 ^ 6 else 10 ^ 3.

(** The type of a Coinbase error: the package has no predicates of its own,
    callers use type assertions. *)
Definition coinbase_is_permanent (err : Coinbase.error) : bool :=
  match err with Coinbase.PermanentError _ _ => true | _ => false end.

Definition coinbase_is_temporary (err : Coinbase.error) : bool :=
  match err with Coinbase.TemporaryError _ _ => true | _ => false end.

Definition coinbase_is_rate_limit (err : Coinbase.error) : bool :=
  match err with Coinbase.RateLimitError _ _ => true | _ => false end.

(** The error a classified error wraps, and its code. *)
Definition coinbase_wrapped (err : Coinbase.error) : option (Go.error * string) :=
  match err with
  | Coinbase.Unclassified _ => None
  | Coinbase.PermanentError e c | Coinbase.TemporaryError e c
  | Coinbase.RateLimitError e c => Some (e, c)
  end.

Definition prime_wrapped (err : Prime.error) : option (Go.error * string) :=
  match err with
  | Prime.Unclassified _ => None
  | Prime.PermanentError e c | Prime.TemporaryError e c
  | Prime.RateLimitError e c => Some (e, c)
  end.

(** toLower on one byte. *)
Definition lower_char (c : ascii) : ascii :=
  ascii_of_N (Z.to_N (if (65 <=? Go.code c) && (Go.code c <=? 90) then Go.code c + 32
                      else Go.code c)).

(** Coinbase books with a time: at the top level, in the price book. *)
Definition coinbase_timed_book_fixtures : list (string * Coinbase.CoinbaseOrderBook) :=
  [ ("{'pricebook': {'product_id': 'BTC-USD', 'time': '2021-01-01T00:00:00Z'}, 'time': ' '}",
     Coinbase.mkCoinbaseOrderBook
       (Coinbase.mkPriceBook "BTC-USD" None None "2021-01-01T00:00:00Z") " ");
    ("{'pricebook': {'product_id': 'BTC-USD', 'time': '2021-01-01T00:00:00Z'}}",
     Coinbase.mkCoinbaseOrderBook
       (Coinbase.mkPriceBook "BTC-USD" None None "2021-01-01T00:00:00Z") "");
    ("{'pricebook': {'product_id': 'BTC-USD'}, 'time': 'yesterday'}",
     Coinbase.mkCoinbaseOrderBook (Coinbase.mkPriceBook "BTC-USD" None None "") "yesterday") ].

(** A float64 that is neither NaN nor an infinity. *)
Definition finite (f : float) : Prop :=
  PrimFloat.is_nan f = false /\ PrimFloat.is_infinity f = false.

(** The value of a result, when there is one. *)
Definition ok_value {E A : Type} (r : result E A) : option A :=
  match r with
  | Ok a => Some a
  | Err _ => None
  end.

(** A trades response whose first trade has a time that does not parse, read
    as a trades list and as a single trade: json.Unmarshal passes over the
    keys a struct has no field for. *)
Definition coinbase_trades_fixtures : list (string * Coinbase.CoinbaseTradesResponse) :=
  [ ("{'trades': [{'trade_id': '1', 'time': 'soon', 'price': '10', 'size': '2', 'side': 'BUY'}, {'trade_id': '2', 'time': '1700000000', 'price': '1.5', 'size': '2', 'side': 'sell'}]}",
     Coinbase.mkCoinbaseTradesResponse
       [ Coinbase.CoinbaseTrade.mk "1" "" "10" "2" "soon" "BUY" "" "";
         Coinbase.CoinbaseTrade.mk "2" "" "1.5" "2" "1700000000" "sell" "" "" ]
       "" "") ].

Definition coinbase_trade_fixtures : list (string * Coinbase.CoinbaseTrade.t) :=
  [ ("{'trades': [{'trade_id': '1', 'time': 'soon', 'price': '10', 'size': '2', 'side': 'BUY'}, {'trade_id': '2', 'time': '1700000000', 'price': '1.5', 'size': '2', 'side': 'sell'}]}",
     Coinbase.CoinbaseTrade.mk "" "" "" "" "" "" "" "") ].

(** The value of a byte. *)
Definition is_byte (z : Z) : Prop := 0 <= z < 256.

(** Prime account responses. *)
Definition prime_balance_fixtures : list (string * Prime.PrimeBalance.t) :=
  [ ("{'symbol': 'BTC', 'amount': '1.5', 'holds': 'n/a'}",
     Prime.PrimeBalance.mk "BTC" "1.5" "n/a" "" "" "" "" "" "" "" "") ].

Definition prime_order_fixtures : list (string * Prime.PrimeOrder.t) :=
  [ ("{'id': 'o-1', 'product_id': 'BTC-USD', 'side': 'BUY', 'type': 'TWAP', 'base_quantity': '2', 'limit_price': 'market', 'status': 'EXPIRED', 'created_at': '2021-01-01T00:00:00Z'}",
     Prime.PrimeOrder.mk "o-1" "" "" "BTC-USD" "BUY" "" "TWAP" "2" "" "market" "" ""
       "EXPIRED" "" "2021-01-01T00:00:00Z" "" "" "" "" "" "" "" "" "" "" false [] false
       "" [] "" "");
    ("{'id': 'o-2', 'product_id': 'BTC-USD', 'created_at': 'yesterday'}",
     Prime.PrimeOrder.mk "o-2" "" "" "BTC-USD" "" "" "" "" "" "" "" ""
       "" "" "yesterday" "" "" "" "" "" "" "" "" "" "" false [] false
       "" [] "" "") ].

Definition prime_fill_fixtures : list (string * Prime.PrimeFill.t) :=
  [ ("{'fill_id': 'f-1', 'order_id': 'o-1', 'symbol': 'BTC-USD', 'fill_price': 1.5, 'fill_qty': 2, 'side': 'BUY'}",
     Prime.PrimeFill.mk "" "" "" "f-1" 0 "o-1" "" "" "BTC-USD" "" 1.5 2 "" "" 0 0 0 0 "" 0
       "BUY" "" "" "" 0 "" "" "" "" "") ].

(** One or more decimal digits. *)
Definition decimal_digits (ds : string) : Prop :=
  ds <> ""
  /\ Forall (fun c => In c (list_ascii_of_string "0123456789")) (list_ascii_of_string ds).

(** What reading a decimal field [s] of a response gives: the value
    ParseDecimal returns for it, and 0 when the field is empty or does not
    parse; in every case a float64 that is neither NaN nor an infinity. *)
Definition reads_decimal (strconv_ParseFloat : string -> result Go.error float)
           (s : string) (field : option float) : Prop :=
  field = Some (Normalizer.ParseDecimalOrZero strconv_ParseFloat s)
  /\ finite (Normalizer.ParseDecimalOrZero strconv_ParseFloat s)
  /\ (forall f, Normalizer.ParseDecimal strconv_ParseFloat s = Ok f -> field = Some f)
  /\ (is_ok (Normalizer.ParseDecimal strconv_ParseFloat s) = false -> field = Some 0%float)
  /\ (s = "" -> field = Some 0%float).

(** * Properties *)

(** ** The runtime models on known values *)

Example sha256_abc :
  hex (SHA256.Sum256 (Go.codes "abc"))
  = "ba7816bf8f01cfea414140de5dae2223b00361a396177a9cb410ff61f20015ad".
Proof. vm_compute. reflexivity. Qed.

Example sha256_empty :
  hex (SHA256.Sum256 [])
  = "e3b0c44298fc1c149afbf4c8996fb92427ae41e4649b934ca495991b7852b855".
Proof. vm_compute. reflexivity. Qed.

Example sha256_two_blocks :
  hex (SHA256.Sum256 (Go.codes "abcdbcdecdefdefgefghfghighijhijkijkljklmklmnlmnomnopnopq"))
  = "248d6a61d20638b8e5c026930c3e6039a33ce45964ff2167f6ecedd419db06c1".
Proof. vm_compute. reflexivity. Qed.

Example hmac_sha256_fox :
  hex (HMAC.Sum (Go.codes "key") (Go.codes "The quick brown fox jumps over the lazy dog"))
  = "f7bc83f430538424b13298e6aa6fb143ef4d59a14946175997479dbc2d1a3cd8".
Proof. vm_compute. reflexivity. Qed.

Example base64_secret :
  Base64.EncodeToString (Go.bytes_of_string "secret") = "c2VjcmV0"
  /\ Base64.DecodeString "c2VjcmV0" = Ok (Go.bytes_of_string "secret").
Proof. split; vm_compute; reflexivity. Qed.

Example base64_padding :
  Base64.DecodeString "c2Vjcg==" = Ok (Go.bytes_of_string "secr")
  /\ Base64.DecodeString "c2VjcmU=" = Ok (Go.bytes_of_string "secre")
  /\ Base64.DecodeString "c2Vjcg=" = Err Base64.corruptInput
  /\ Base64.DecodeString "not base64!" = Err Base64.corruptInput.
Proof. repeat split; vm_compute; reflexivity. Qed.

Example ParseInt_bounds :
  Go.ParseInt "-9223372036854775808" = Ok (-9223372036854775808)
  /\ Go.ParseInt "-9223372036854775809" = Err Go.ErrRange
  /\ Go.ParseInt "9223372036854775807" = Ok 9223372036854775807
  /\ Go.ParseInt "9223372036854775808" = Err Go.ErrRange
  /\ Go.ParseInt "-" = Err Go.ErrSyntax
  /\ Go.ParseInt "12a" = Err Go.ErrSyntax.
Proof. repeat split; vm_compute; reflexivity. Qed.

Example TrimSpace_values :
  Go.TrimSpace "  null " = "null"
  /\ Go.TrimSpace (Go.string_of_codes [9; 194; 160; 49; 32; 50; 226; 128; 168; 13; 10]) = "1 2"
  /\ Go.TrimSpace (Go.string_of_codes [160; 49; 133]) = Go.string_of_codes [160; 49; 133]
  /\ Go.TrimSpace (Go.string_of_codes [32; 227; 128; 128]) = "".
Proof. repeat split; vm_compute; reflexivity. Qed.

Example FormatInt_values :
  Go.FormatInt 0 = "0" /\ Go.FormatInt 1234567890 = "1234567890" /\ Go.FormatInt (-42) = "-42".
Proof. repeat split; vm_compute; reflexivity. Qed.

Example example_ParseFloat_values :
  example_ParseFloat "50000" = Ok 50000%float
  /\ example_ParseFloat "1.5" = Ok 1.5%float
  /\ example_ParseFloat "50010.00" = Ok 50010%float
  /\ example_ParseFloat "0.125" = Ok 0.125%float
  /\ example_ParseFloat "-2.25" = Ok (-2.25)%float
  /\ example_ParseFloat "abc" = Err (Go.NumErr "ParseFloat" "abc" Go.ErrSyntax).
Proof. repeat split; vm_compute; reflexivity. Qed.

Example example_Sprintf_f_values :
  example_Sprintf_f 50000%float = "50000.000000"
  /\ example_Sprintf_f 1.5%float = "1.500000"
  /\ example_Sprintf_f (PrimFloat.div 12 10) = "1.200000"
  /\ example_Sprintf_f (-0.0625)%float = "-0.062500"
  /\ example_Sprintf_f 0.0078125%float = "0.007812"
  /\ example_Sprintf_f 0.0234375%float = "0.023438".
Proof. repeat split; vm_compute; reflexivity. Qed.

Example unix_of_civil_epoch : unix_of_civil 1970 1 1 0 0 0 = 0.
Proof. reflexivity. Qed.

Example unix_of_civil_2021 : unix_of_civil 2021 1 1 0 0 0 = 1609459200.
Proof. reflexivity. Qed.

Example example_time_Parse_2021 :
  example_time_Parse Normalizer.RFC3339 "2021-01-01T00:00:00Z" = Ok (Go.mkTime 1609459200 0).
Proof. vm_compute. reflexivity. Qed.

(** ** HMAC signer *)

Section HMACProperties.
Import Auth.

Lemma NewHMACSigner_ok config s :
  NewHMACSigner config = Ok s ->
  s = mkHMACSigner config
  /\ APIKey config <> "" /\ Secret config <> "" /\ Passphrase config <> ""
  /\ exists key, Base64.DecodeString (Secret config) = Ok key.
Proof.
  unfold NewHMACSigner.
  destruct (String.eqb_spec (APIKey config) ""); [discriminate|].
  destruct (String.eqb_spec (Secret config) ""); [discriminate|].
  destruct (String.eqb_spec (Passphrase config) ""); [discriminate|].
  destruct (Base64.DecodeString (Secret config)) as [key|] eqn:Hdec; [|discriminate].
  intros [= <-]. eauto 10.
Qed.

Lemma HMACSigner_Sign_ok s now req key :
  Base64.DecodeString (Secret (config s)) = Ok key ->
  exists res,
    HMACSigner_Sign s now req = Ok res
    /\ SignResult.Headers res !! "CB-ACCESS-SIGN"
       = Some (signature_of key (prehash (effective_timestamp now req) req))
    /\ SignResult.Headers res !! "CB-ACCESS-TIMESTAMP" = Some (effective_timestamp now req)
    /\ SignResult.Headers res !! "CB-ACCESS-KEY" = Some (APIKey (config s))
    /\ SignResult.Headers res !! "CB-ACCESS-PASSPHRASE" = Some (Passphrase (config s)).
Proof.
  intros Hdec. unfold HMACSigner_Sign. rewrite Hdec.
  eexists. split; [reflexivity|]. cbn [SignResult.Headers].
  fold (effective_timestamp now req).
  repeat split; simplify_map_eq; reflexivity.
Qed.

(** C1. A signer constructed with the base64 encoding of "secret" as its
    secret signs GET /orders with an empty body at timestamp "1234567890"
    with the CB-ACCESS-SIGN value c0bz9rdYCiGfAsKzIyfvmtx6eU1fbWn3SVcwKIVqZM4=,
    which is base64(HMAC-SHA256("secret", "1234567890GET/orders")).  The
    API key, the passphrase, the clock, the request's headers and whether the
    empty body is nil or zero-length make no difference. *)
Theorem hmac_sign_known_vector apiKey passphrase s now body headers :
  NewHMACSigner
    (mkHMACConfig apiKey (Base64.EncodeToString (Go.bytes_of_string "secret")) passphrase)
  = Ok s ->
  Go.string_of_slice body = "" ->
  exists res,
    HMACSigner_Sign s now (SignRequest.mk "GET" "/orders" body "1234567890" headers) = Ok res
    /\ SignResult.Headers res !! "CB-ACCESS-SIGN"
       = Some "c0bz9rdYCiGfAsKzIyfvmtx6eU1fbWn3SVcwKIVqZM4="
    /\ signature_of (Go.bytes_of_string "secret") "1234567890GET/orders"
       = "c0bz9rdYCiGfAsKzIyfvmtx6eU1fbWn3SVcwKIVqZM4=".
Proof.
  intros Hnew Hbody.
  apply NewHMACSigner_ok in Hnew as (-> & _ & _ & _ & _).
  assert (Hdec : Base64.DecodeString
                   (Secret (config (mkHMACSigner
                      (mkHMACConfig apiKey
                         (Base64.EncodeToString (Go.bytes_of_string "secret")) passphrase))))
                 = Ok (Go.bytes_of_string "secret"))
    by (vm_compute; reflexivity).
  assert (Hsig : signature_of (Go.bytes_of_string "secret") "1234567890GET/orders"
                 = "c0bz9rdYCiGfAsKzIyfvmtx6eU1fbWn3SVcwKIVqZM4=")
    by (vm_compute; reflexivity).
  destruct (HMACSigner_Sign_ok _ now
              (SignRequest.mk "GET" "/orders" body "1234567890" headers) _ Hdec)
    as (res & Hres & Hsign & _).
  exists res. split; [exact Hres|]. split; [|exact Hsig].
  rewrite Hsign. unfold prehash, effective_timestamp. cbn [SignRequest.Timestamp
    SignRequest.Method SignRequest.Path SignRequest.Body]. rewrite Hbody.
  exact (f_equal Some Hsig).
Qed.

Lemma hmac_sign_known_vector_witness :
  exists res,
    HMACSigner_Sign
      (mkHMACSigner (mkHMACConfig "key" "c2VjcmV0" "pass")) (Go.mkTime 0 0)
      (SignRequest.mk "GET" "/orders" (Some []) "1234567890" ∅) = Ok res
    /\ SignResult.Headers res !! "CB-ACCESS-SIGN"
       = Some "c0bz9rdYCiGfAsKzIyfvmtx6eU1fbWn3SVcwKIVqZM4="
    /\ signature_of (Go.bytes_of_string "secret") "1234567890GET/orders"
       = "c0bz9rdYCiGfAsKzIyfvmtx6eU1fbWn3SVcwKIVqZM4=".
Proof.
  apply (hmac_sign_known_vector "key" "pass"
           (mkHMACSigner (mkHMACConfig "key" "c2VjcmV0" "pass")) (Go.mkTime 0 0)
           (Some []) ∅).
  - vm_compute. reflexivity.
  - reflexivity.
Defined.

(** C2, as amended.  A nil body and a zero-length body both contribute the
    empty string to the pre-hash timestamp + method + path + body.  For a
    signer that NewHMACSigner returned and two requests that agree in method,
    path and timestamp, one with a nil body and one with a zero-length body,
    both Sign calls succeed and return the same CB-ACCESS-SIGN value, the MAC
    of timestamp + method + path under the decoded secret, when the caller
    supplies the timestamp, and also when it does not and the two calls read
    the same Unix second from the clock; the timestamp signed is then that
    second in decimal.  The whole result of Sign is the same in these cases,
    for every signer. *)
Theorem hmac_sign_nil_body_eq_empty_body s method path timestamp headers :
  prehash timestamp (SignRequest.mk method path None timestamp headers)
  = timestamp +:+ method +:+ path +:+ ""
  /\ prehash timestamp (SignRequest.mk method path (Some []) timestamp headers)
     = timestamp +:+ method +:+ path +:+ ""
  /\ (forall now,
        HMACSigner_Sign s now (SignRequest.mk method path None timestamp headers)
        = HMACSigner_Sign s now (SignRequest.mk method path (Some []) timestamp headers))
  /\ (forall now1 now2,
        timestamp <> "" \/ Go.unix_sec now1 = Go.unix_sec now2 ->
        HMACSigner_Sign s now1 (SignRequest.mk method path None timestamp headers)
        = HMACSigner_Sign s now2 (SignRequest.mk method path (Some []) timestamp headers))
  /\ (forall now res1 res2,
        HMACSigner_Sign s now (SignRequest.mk method path None timestamp headers) = Ok res1 ->
        HMACSigner_Sign s now (SignRequest.mk method path (Some []) timestamp headers) = Ok res2 ->
        SignResult.Headers res1 !! "CB-ACCESS-SIGN" = SignResult.Headers res2 !! "CB-ACCESS-SIGN")
  /\ (forall config,
        NewHMACSigner config = Ok s ->
        exists key,
          Base64.DecodeString (Secret config) = Ok key
          /\ forall now1 now2,
               timestamp <> "" \/ Go.unix_sec now1 = Go.unix_sec now2 ->
               let signed :=
                 if String.eqb timestamp "" then Go.FormatInt (Go.unix_sec now1)
                 else timestamp in
               exists res1 res2,
                 HMACSigner_Sign s now1 (SignRequest.mk method path None timestamp headers)
                 = Ok res1
                 /\ HMACSigner_Sign s now2
                      (SignRequest.mk method path (Some []) timestamp headers)
                    = Ok res2
                 /\ SignResult.Headers res1 !! "CB-ACCESS-SIGN"
                    = Some (signature_of key (signed +:+ method +:+ path +:+ ""))
                 /\ SignResult.Headers res2 !! "CB-ACCESS-SIGN"
                    = Some (signature_of key (signed +:+ method +:+ path +:+ ""))).
Proof.
  assert (Hclocks : forall now1 now2,
             timestamp <> "" \/ Go.unix_sec now1 = Go.unix_sec now2 ->
             HMACSigner_Sign s now1 (SignRequest.mk method path None timestamp headers)
             = HMACSigner_Sign s now2 (SignRequest.mk method path (Some []) timestamp headers)).
  { intros now1 now2 Hts. unfold HMACSigner_Sign. cbn [SignRequest.Timestamp].
    destruct (String.eqb_spec timestamp "") as [He|Hne]; [|reflexivity].
    destruct Hts as [Hts|Hsec]; [contradiction|]. unfold Go.Time_Unix. rewrite Hsec.
    reflexivity. }
  split; [reflexivity|]. split; [reflexivity|]. split; [reflexivity|].
  split; [exact Hclocks|]. split.
  - intros now res1 res2 H1 H2.
    assert (Heq : Ok (E := Go.error) res1 = Ok res2) by (rewrite <- H1, <- H2; reflexivity).
    injection Heq as ->. reflexivity.
  - intros config Hnew.
    apply NewHMACSigner_ok in Hnew as (-> & _ & _ & _ & key & Hdec).
    exists key. split; [exact Hdec|]. intros now1 now2 Hts signed.
    destruct (HMACSigner_Sign_ok (mkHMACSigner config) now1
                (SignRequest.mk method path None timestamp headers) key Hdec)
      as (res1 & Hres1 & Hsig1 & _).
    exists res1, res1. split; [exact Hres1|].
    split; [rewrite <- (Hclocks now1 now2 Hts); exact Hres1|].
    split; exact Hsig1.
Qed.

Lemma hmac_sign_nil_body_eq_empty_body_witness :
  (exists res1 res2,
      HMACSigner_Sign (mkHMACSigner (mkHMACConfig "key" "c2VjcmV0" "pass")) (Go.mkTime 5 0)
        (SignRequest.mk "GET" "/orders" None "1234567890" ∅) = Ok res1
      /\ HMACSigner_Sign (mkHMACSigner (mkHMACConfig "key" "c2VjcmV0" "pass")) (Go.mkTime 77 0)
           (SignRequest.mk "GET" "/orders" (Some []) "1234567890" ∅) = Ok res2
      /\ SignResult.Headers res1 !! "CB-ACCESS-SIGN"
         = Some "c0bz9rdYCiGfAsKzIyfvmtx6eU1fbWn3SVcwKIVqZM4="
      /\ SignResult.Headers res2 !! "CB-ACCESS-SIGN"
         = Some "c0bz9rdYCiGfAsKzIyfvmtx6eU1fbWn3SVcwKIVqZM4=")
  /\ (exists res1 res2,
        HMACSigner_Sign (mkHMACSigner (mkHMACConfig "key" "c2VjcmV0" "pass")) (Go.mkTime 5 0)
          (SignRequest.mk "GET" "/orders" None "" ∅) = Ok res1
        /\ HMACSigner_Sign (mkHMACSigner (mkHMACConfig "key" "c2VjcmV0" "pass"))
             (Go.mkTime 5 999000000)
             (SignRequest.mk "GET" "/orders" (Some []) "" ∅) = Ok res2
        /\ SignResult.Headers res1 !! "CB-ACCESS-SIGN"
           = Some "rwk/pCNmJk5P2o+PoP4dOaNmsGafxzCI6k8JAK24fpM="
        /\ SignResult.Headers res2 !! "CB-ACCESS-SIGN"
           = Some "rwk/pCNmJk5P2o+PoP4dOaNmsGafxzCI6k8JAK24fpM=").
Proof.
  assert (Hsecret : forall key,
             Base64.DecodeString (Secret (mkHMACConfig "key" "c2VjcmV0" "pass")) = Ok key ->
             key = Go.bytes_of_string "secret").
  { intros key Hkey.
    assert (Hk : Ok (E := Base64.CorruptInputError) key = Ok (Go.bytes_of_string "secret"))
      by (rewrite <- Hkey; vm_compute; reflexivity).
    now injection Hk. }
  split.
  - destruct (hmac_sign_nil_body_eq_empty_body
                (mkHMACSigner (mkHMACConfig "key" "c2VjcmV0" "pass"))
                "GET" "/orders" "1234567890" ∅) as (_ & _ & _ & _ & _ & H).
    destruct (H (mkHMACConfig "key" "c2VjcmV0" "pass") ltac:(vm_compute; reflexivity))
      as (key & Hkey & Hsign).
    apply Hsecret in Hkey. subst key.
    destruct (Hsign (Go.mkTime 5 0) (Go.mkTime 77 0) ltac:(left; discriminate))
      as (res1 & res2 & H1 & H2 & Hs1 & Hs2).
    exists res1, res2. split; [exact H1|]. split; [exact H2|].
    split; [rewrite Hs1|rewrite Hs2]; vm_compute; reflexivity.
  - destruct (hmac_sign_nil_body_eq_empty_body
                (mkHMACSigner (mkHMACConfig "key" "c2VjcmV0" "pass"))
                "GET" "/orders" "" ∅) as (_ & _ & _ & _ & _ & H).
    destruct (H (mkHMACConfig "key" "c2VjcmV0" "pass") ltac:(vm_compute; reflexivity))
      as (key & Hkey & Hsign).
    apply Hsecret in Hkey. subst key.
    destruct (Hsign (Go.mkTime 5 0) (Go.mkTime 5 999000000) ltac:(right; reflexivity))
      as (res1 & res2 & H1 & H2 & Hs1 & Hs2).
    exists res1, res2. split; [exact H1|]. split; [exact H2|].
    split; [rewrite Hs1|rewrite Hs2]; vm_compute; reflexivity.
Defined.

(** C2, the claim as stated fails when the requests carry no timestamp: each
    Sign call then signs the Unix second it reads from the clock, and two
    calls one with a nil body at second 5 and one with a zero-length body at
    second 77 return different signatures for requests that agree in method,
    path and (absent) timestamp. *)
Lemma hmac_sign_absent_timestamp_two_clock_readings :
  option_map (fun res => SignResult.Headers res !! "CB-ACCESS-SIGN")
    (ok_value
       (HMACSigner_Sign (mkHMACSigner (mkHMACConfig "key" "c2VjcmV0" "pass")) (Go.mkTime 5 0)
          (SignRequest.mk "GET" "/orders" None "" ∅)))
  = Some (Some "rwk/pCNmJk5P2o+PoP4dOaNmsGafxzCI6k8JAK24fpM=")
  /\ option_map (fun res => SignResult.Headers res !! "CB-ACCESS-SIGN")
       (ok_value
          (HMACSigner_Sign (mkHMACSigner (mkHMACConfig "key" "c2VjcmV0" "pass"))
             (Go.mkTime 77 0)
             (SignRequest.mk "GET" "/orders" (Some []) "" ∅)))
     = Some (Some "HuRiTqVfRE+C3HxsiRQbcSvyA49xQhGxv8ZdEnKwJJo=")
  /\ NewHMACSigner (mkHMACConfig "key" "c2VjcmV0" "pass")
     = Ok (mkHMACSigner (mkHMACConfig "key" "c2VjcmV0" "pass"))
  /\ String.eqb "rwk/pCNmJk5P2o+PoP4dOaNmsGafxzCI6k8JAK24fpM="
       "HuRiTqVfRE+C3HxsiRQbcSvyA49xQhGxv8ZdEnKwJJo=" = false.
Proof. repeat split; vm_compute; reflexivity. Qed.

(** C8. A signer that NewHMACSigner returned never fails to sign: the secret
    it decodes at sign time is the one the constructor decoded. *)
Theorem hmac_sign_never_fails_after_construction config s now req :
  NewHMACSigner config = Ok s ->
  exists res, HMACSigner_Sign s now req = Ok res.
Proof.
  intros Hnew.
  apply NewHMACSigner_ok in Hnew as (-> & _ & _ & _ & key & Hdec).
  destruct (HMACSigner_Sign_ok (mkHMACSigner config) now req key Hdec) as (res & Hres & _).
  exists res. exact Hres.
Qed.

Lemma hmac_sign_never_fails_after_construction_witness :
  exists res,
    HMACSigner_Sign
      (mkHMACSigner (mkHMACConfig "key" "dGVzdC1zZWNyZXQtdmFsdWUtZm9yLWhtYWMtc2hhMjU2" "pass"))
      (Go.mkTime 1700000000 0)
      (SignRequest.mk "POST" "/orders" (Some (Go.bytes_of_string "{}")) "" ∅) = Ok res.
Proof.
  apply (hmac_sign_never_fails_after_construction
           (mkHMACConfig "key" "dGVzdC1zZWNyZXQtdmFsdWUtZm9yLWhtYWMtc2hhMjU2" "pass")).
  vm_compute. reflexivity.
Defined.

End HMACProperties.

(** ** MPC signer *)

Section MPCProperties.
Import Auth.
Context {Ctx W : Type}.

(** C3. With a caller-supplied timestamp, Sign calls the external signing
    function exactly once, on the bytes of timestamp + method + path + body
    with nothing in between, and returns what it returns: the signature and
    the timestamp in the headers, or its error wrapped.  For POST
    /api/v1/orders with body {"symbol":"BTC-USD"} at timestamp "1234567890"
    the message is 1234567890POST/api/v1/orders{"symbol":"BTC-USD"}. *)
Theorem mpc_sign_message (f : @SignerFunc Ctx W) apiKey now ctx req log w :
  SignRequest.Timestamp req <> "" ->
  let msg :=
    Go.bytes_of_string
      (SignRequest.Timestamp req +:+ SignRequest.Method req +:+ SignRequest.Path req
         +:+ Go.string_of_slice (SignRequest.Body req)) in
  snd (MPCSigner_Sign (mkMPCSigner apiKey (recording f)) now ctx req (log, w))
  = (log ++ [msg], snd (f ctx msg w))
  /\ fst (MPCSigner_Sign (mkMPCSigner apiKey (recording f)) now ctx req (log, w))
     = match fst (f ctx msg w) with
       | Ok signature =>
           Ok (SignResult.mk
                 (<["X-API-KEY" := apiKey]>
                    (<["X-TIMESTAMP" := SignRequest.Timestamp req]>
                       (<["X-SIGNATURE" := signature]> ∅))) ∅)
       | Err err => Err (Go.Errorf "MPC signing failed: %w" [Go.AErr err])
       end
  /\ Go.string_of_slice (SignRequest.Body example_request) = example_body
  /\ (SignRequest.Timestamp example_request +:+ SignRequest.Method example_request
        +:+ SignRequest.Path example_request
        +:+ Go.string_of_slice (SignRequest.Body example_request))
     = "1234567890POST/api/v1/orders{" +:+ dq +:+ "symbol" +:+ dq +:+ ":"
         +:+ dq +:+ "BTC-USD" +:+ dq +:+ "}".
Proof.
  intros Hts msg.
  unfold MPCSigner_Sign, message, recording. cbn [signer_SignerFunc signer_APIKey fst snd].
  destruct (String.eqb_spec (SignRequest.Timestamp req) ""); [contradiction|].
  fold msg. destruct (f ctx msg w) as [[signature|err] w']; cbn [fst snd].
  - repeat split; vm_compute; reflexivity.
  - repeat split; vm_compute; reflexivity.
Qed.

End MPCProperties.

Lemma mpc_sign_message_witness :
  snd (Auth.MPCSigner_Sign (Auth.mkMPCSigner "test-key" (recording capturing_signer))
         (Go.mkTime 0 0) tt example_request ([], []))
  = ([Go.bytes_of_string
        ("1234567890POST/api/v1/orders{" +:+ dq +:+ "symbol" +:+ dq +:+ ":"
           +:+ dq +:+ "BTC-USD" +:+ dq +:+ "}")],
     Go.bytes_of_string
        ("1234567890POST/api/v1/orders{" +:+ dq +:+ "symbol" +:+ dq +:+ ":"
           +:+ dq +:+ "BTC-USD" +:+ dq +:+ "}")).
Proof.
  destruct (mpc_sign_message capturing_signer "test-key" (Go.mkTime 0 0) tt
              example_request [] []) as (H & _).
  - discriminate.
  - exact H.
Defined.

(** ** Strings: substrings and the case-insensitive search of the Coinbase package *)

Section Substrings.

Lemma length_append (a b : string) :
  String.length (a +:+ b) = (String.length a + String.length b)%nat.
Proof. induction a as [|c a IH]; simpl; [reflexivity|]. f_equal. exact IH. Qed.

Lemma substring_prefix (sub s : string) :
  String.substring 0 (String.length sub) s = sub <-> exists post, s = sub +:+ post.
Proof.
  revert s. induction sub as [|c sub IH]; intros s.
  - split; [intros _; exists s; reflexivity|]. intros _. now destruct s.
  - destruct s as [|c' s']; simpl.
    + split; [discriminate|]. intros [post Hpost]. discriminate.
    + split.
      * intros [= -> Hsub]. apply IH in Hsub as [post ->]. now exists post.
      * intros [post [= -> ->]]. f_equal. apply IH. now exists post.
Qed.

Lemma substring_occurs (sub : string) (j : nat) (s : string) :
  (j + String.length sub <= String.length s)%nat ->
  String.substring j (String.length sub) s = sub <-> occurs_at j sub s.
Proof.
  revert s. induction j as [|j IH]; intros s Hlen.
  - rewrite substring_prefix. split.
    + intros [post ->]. exists "", post. split; reflexivity.
    + intros (pre & post & Hpre & ->). destruct pre; [|discriminate]. now exists post.
  - destruct s as [|c s']; [cbn in Hlen; lia|].
    cbn in Hlen. cbn [String.substring].
    rewrite IH by lia. split.
    + intros (pre & post & Hpre & ->). exists (String c pre), post. cbn. now rewrite Hpre.
    + intros (pre & post & Hpre & Heq). destruct pre as [|c0 pre]; [discriminate|].
      cbn in Hpre, Heq. injection Hpre as Hpre. injection Heq as -> ->.
      now exists pre, post.
Qed.

Lemma occurs_at_bound j sub s :
  occurs_at j sub s -> (j + String.length sub <= String.length s)%nat.
Proof. intros (pre & post & <- & ->). rewrite !length_append. lia. Qed.

Lemma contains_loop_spec s substr count i :
  Coinbase.contains_loop s substr i count = true
  <-> exists j, (i <= j < i + count)%nat
                /\ String.substring j (String.length substr) s = substr.
Proof.
  revert i. induction count as [|count IH]; intros i; cbn.
  - split; [discriminate|]. intros (j & Hj & _). lia.
  - destruct (String.eqb_spec (String.substring i (String.length substr) s) substr) as [Heq|Hne].
    + split; [|reflexivity]. intros _. exists i. split; [lia|exact Heq].
    + rewrite IH. split.
      * intros (j & Hj & Hsub). exists j. split; [lia|exact Hsub].
      * intros (j & Hj & Hsub). exists j. split; [|exact Hsub].
        destruct (Nat.eq_dec j i) as [->|]; [contradiction|lia].
Qed.

(** [contains] is the substring test on the lowered strings. *)
Lemma contains_spec s substr :
  Coinbase.contains s substr = true
  <-> exists pre post,
        Coinbase.toLower s = pre +:+ Coinbase.toLower substr +:+ post.
Proof.
  unfold Coinbase.contains.
  set (ls := Coinbase.toLower s). set (lsub := Coinbase.toLower substr).
  destruct (Nat.leb_spec (String.length lsub) (String.length ls)) as [Hle|Hgt].
  - rewrite contains_loop_spec. split.
    + intros (j & Hj & Hsub).
      apply substring_occurs in Hsub; [|lia].
      destruct Hsub as (pre & post & _ & Heq). now exists pre, post.
    + intros (pre & post & Heq).
      assert (Hocc : occurs_at (String.length pre) lsub ls) by (now exists pre, post).
      pose proof (occurs_at_bound _ _ _ Hocc) as Hb.
      exists (String.length pre). split; [lia|].
      apply substring_occurs; [lia|exact Hocc].
  - split; [discriminate|]. intros (pre & post & Heq).
    apply (f_equal String.length) in Heq. rewrite !length_append in Heq. lia.
Qed.

End Substrings.

(** ** Error classification *)

Section ErrorClassification.



Lemma prime_isClientError_spec primeErr :
  Prime.isClientError primeErr = true <-> In (Prime.Code primeErr) prime_client_codes.
Proof.
  unfold Prime.isClientError, Prime.clientErrorCodes, prime_client_codes.
  generalize (Prime.Code primeErr) as code. intros code. split.
  - repeat (rewrite lookup_insert; case_decide; [subst; cbn [In]; tauto|]).
    rewrite lookup_empty. discriminate.
  - cbn [In]. intros H.
    repeat (destruct H as [<-|H]; [vm_compute; reflexivity|]). contradiction.
Qed.

Variable cb_Unmarshal : list byte -> result Go.error Coinbase.CoinbaseError.
Variable prime_Unmarshal : list byte -> result Go.error Prime.PrimeError.
Variable json_Marshal : gmap string Go.iface -> result Go.error string.

(** C4, as amended.  With status 429, a non-empty body that decodes as the
    venue's error structure is classified RateLimitError whatever it
    holds; an empty body, or one that does not decode, gives an unclassified
    error that carries the status code (and the raw body), not a
    RateLimitError. *)
Theorem normalize_error_429 (body : list byte) :
  (forall cbErr,
      body <> [] -> cb_Unmarshal body = Ok cbErr ->
      Coinbase.NormalizeError cb_Unmarshal 429 body
      = Coinbase.RateLimitError
          (base_error (Coinbase.formatErrorMessage cbErr) 429) "RATE_LIMIT")
  /\ (forall primeErr,
        body <> [] -> prime_Unmarshal body = Ok primeErr ->
        Prime.NormalizeError prime_Unmarshal json_Marshal 429 body
        = Prime.RateLimitError
            (base_error (Prime.formatErrorMessage json_Marshal primeErr) 429)
            (Prime.Code primeErr))
  /\ (body = [] ->
      Coinbase.NormalizeError cb_Unmarshal 429 body
      = Coinbase.Unclassified
          (Go.Errorf "coinbase api error: status %d (no body)" [Go.AInt 429])
      /\ Prime.NormalizeError prime_Unmarshal json_Marshal 429 body
         = Prime.Unclassified
             (Go.Errorf "prime api error: status %d (no body)" [Go.AInt 429]))
  /\ (forall err,
        body <> [] -> cb_Unmarshal body = Err err ->
        Coinbase.NormalizeError cb_Unmarshal 429 body
        = Coinbase.Unclassified
            (Go.Errorf "coinbase api error: status %d: %s"
               [Go.AInt 429; Go.AStr (string_of_list_byte body)]))
  /\ (forall err,
        body <> [] -> prime_Unmarshal body = Err err ->
        Prime.NormalizeError prime_Unmarshal json_Marshal 429 body
        = Prime.Unclassified
            (Go.Errorf "prime api error: status %d: %s"
               [Go.AInt 429; Go.AStr (string_of_list_byte body)])).
Proof.
  unfold Coinbase.NormalizeError, Prime.NormalizeError.
  repeat split.
  - intros cbErr Hne Hdec. destruct body; [contradiction|]. cbn [length Nat.eqb].
    rewrite Hdec. reflexivity.
  - intros primeErr Hne Hdec. destruct body; [contradiction|]. cbn [length Nat.eqb].
    rewrite Hdec. reflexivity.
  - subst body. reflexivity.
  - subst body. reflexivity.
  - intros err Hne Hdec. destruct body; [contradiction|]. cbn [length Nat.eqb].
    rewrite Hdec. reflexivity.
  - intros err Hne Hdec. destruct body; [contradiction|]. cbn [length Nat.eqb].
    rewrite Hdec. reflexivity.
Qed.


End ErrorClassification.

(** C4, the claim as stated fails: with an empty body, status 429 gives an
    unclassified error from both normalizers, and the same for a body that is
    not JSON. *)
Lemma normalize_error_429_not_always_rate_limit :
  Coinbase.NormalizeError (fixture_Unmarshal coinbase_error_fixtures) 429 []
  = Coinbase.Unclassified (Go.Errorf "coinbase api error: status %d (no body)" [Go.AInt 429])
  /\ Prime.NormalizeError (fixture_Unmarshal prime_error_fixtures) no_Marshal 429 []
     = Prime.Unclassified (Go.Errorf "prime api error: status %d (no body)" [Go.AInt 429])
  /\ Prime.IsRateLimit
       (Prime.NormalizeError (fixture_Unmarshal prime_error_fixtures) no_Marshal 429 [])
     = false
  /\ Coinbase.NormalizeError (fixture_Unmarshal coinbase_error_fixtures) 429
       (Go.bytes_of_string "{invalid json")
     = Coinbase.Unclassified
         (Go.Errorf "coinbase api error: status %d: %s" [Go.AInt 429; Go.AStr "{invalid json"]).
Proof. repeat split; vm_compute; reflexivity. Qed.

Lemma normalize_error_429_witness :
  Coinbase.NormalizeError (fixture_Unmarshal coinbase_error_fixtures) 429
    (json_bytes "{'error': 'rate_limit', 'message': 'Too many requests'}")
  = Coinbase.RateLimitError
      (base_error "coinbase api error: rate_limit (Too many requests)" 429) "RATE_LIMIT"
  /\ Prime.NormalizeError (fixture_Unmarshal prime_error_fixtures) no_Marshal 429
       (json_bytes "{'message': 'Too many requests', 'code': 'RATE_LIMIT_EXCEEDED'}")
     = Prime.RateLimitError
         (base_error "prime api error: RATE_LIMIT_EXCEEDED (Too many requests)" 429)
         "RATE_LIMIT_EXCEEDED".
Proof.
  split.
  - destruct (normalize_error_429 (fixture_Unmarshal coinbase_error_fixtures)
                (fixture_Unmarshal prime_error_fixtures) no_Marshal
                (json_bytes "{'error': 'rate_limit', 'message': 'Too many requests'}"))
      as (H & _).
    apply (H (Coinbase.mkCoinbaseError "rate_limit" "Too many requests" "" "" "" "")).
    + discriminate.
    + vm_compute. reflexivity.
  - destruct (normalize_error_429 (fixture_Unmarshal coinbase_error_fixtures)
                (fixture_Unmarshal prime_error_fixtures) no_Marshal
                (json_bytes "{'message': 'Too many requests', 'code': 'RATE_LIMIT_EXCEEDED'}"))
      as (_ & H & _).
    rewrite (H (Prime.mkPrimeError "Too many requests" "RATE_LIMIT_EXCEEDED" ∅ 0)).
    + vm_compute. reflexivity.
    + discriminate.
    + vm_compute. reflexivity.
Defined.



Example coinbase_400_unrelated_text_is_temporary :
  Coinbase.NormalizeError (fixture_Unmarshal coinbase_error_fixtures) 400
    (json_bytes "{'error': 'processing_error', 'message': 'Request failed'}")
  = Coinbase.TemporaryError
      (base_error "coinbase api error: processing_error (Request failed)" 400) "BAD_REQUEST".
Proof. vm_compute. reflexivity. Qed.

(** The Coinbase search reads the error, message and error_details fields
    only: a keyword in another field does not make the error permanent. *)
Example coinbase_400_other_fields_not_searched :
  Coinbase.NormalizeError (fixture_Unmarshal coinbase_error_fixtures) 400
    (json_bytes "{'error': 'rejected', 'preview_failure_reason': 'Insufficient funds'}")
  = Coinbase.TemporaryError
      (base_error "coinbase api error: rejected [preview: Insufficient funds]" 400)
      "BAD_REQUEST".
Proof. vm_compute. reflexivity. Qed.

(** ** Timestamps *)

Lemma parse_digits_total (l : list ascii) :
  forallb Go.is_digit l = true ->
  forall acc, 0 <= acc -> exists v, Go.parse_digits acc l = Some v /\ acc <= v.
Proof.
  induction l as [|c l IH]; intros Hall acc Hacc; cbn [Go.parse_digits].
  - exists acc. split; [reflexivity|lia].
  - cbn [forallb] in Hall. apply andb_prop in Hall as [Hc Hl]. rewrite Hc.
    unfold Go.is_digit in Hc. apply andb_prop in Hc as [Hlo Hhi].
    apply Z.leb_le in Hlo, Hhi.
    destruct (IH Hl (acc * 10 + (Go.code c - 48)) ltac:(lia)) as (v & Hv & Hge).
    exists v. split; [exact Hv|lia].
Qed.

Lemma parse_digits_value (l : list ascii) :
  forallb Go.is_digit l = true ->
  forall acc,
    Go.parse_digits acc l = Some (fold_left (fun a c => a * 10 + (Go.code c - 48)) l acc).
Proof.
  induction l as [|c l IH]; intros Hall acc; cbn [Go.parse_digits fold_left]; [reflexivity|].
  cbn [forallb] in Hall. apply andb_prop in Hall as [Hc Hl]. rewrite Hc. now apply IH.
Qed.

Section Timestamps.
Import Normalizer.
Variable time_Parse : string -> string -> result Go.error Go.Time.

Lemma isNumeric_not_empty_or_null t :
  isNumeric t = true -> String.eqb t "" || String.eqb t "null" = false.
Proof.
  intros H.
  destruct (String.eqb_spec t ""); [subst; discriminate|].
  destruct (String.eqb_spec t "null"); [subst; vm_compute in H; discriminate|].
  reflexivity.
Qed.

Lemma ParseTimestamp_numeric s :
  isNumeric (Go.TrimSpace s) = true ->
  ParseTimestamp time_Parse s = parseUnixTimestamp (Go.TrimSpace s).
Proof.
  intros H. unfold ParseTimestamp.
  rewrite (isNumeric_not_empty_or_null _ H), H. reflexivity.
Qed.


Lemma time_Unix_normal sec nsec :
  0 <= nsec < 1000000000 -> Go.time_Unix sec nsec = Go.mkTime sec nsec.
Proof.
  intros H. unfold Go.time_Unix.
  destruct (Z.ltb_spec nsec 0); [lia|].
  destruct (Z.leb_spec 1000000000 nsec); [lia|]. reflexivity.
Qed.

Lemma parseUnixTimestamp_value t n :
  Go.ParseInt t = Ok n ->
  (n < 10 ^ 11 -> parseUnixTimestamp t = Ok (Some (mkTimestamp n 0)))
  /\ (10 ^ 11 <= n < 10 ^ 14 ->
      parseUnixTimestamp t
      = Ok (Some (mkTimestamp (n / 1000) (n mod 1000 * 1000000))))
  /\ (10 ^ 14 <= n < 10 ^ 17 ->
      parseUnixTimestamp t
      = Ok (Some (mkTimestamp (n / 1000000) (n mod 1000000 * 1000))))
  /\ (10 ^ 17 <= n ->
      parseUnixTimestamp t
      = Err (Go.Errorf "unix timestamp out of reasonable range: %d" [Go.AInt n])).
Proof.
  intros Hn. unfold parseUnixTimestamp. rewrite Hn.
  change (10 ^ 11) with 100000000000. change (10 ^ 14) with 100000000000000.
  change (10 ^ 17) with 100000000000000000.
  repeat split; intros Hr.
  - destruct (Z.ltb_spec n 100000000000); [|lia].
    rewrite time_Unix_normal by lia. reflexivity.
  - destruct (Z.ltb_spec n 100000000000); [lia|].
    destruct (Z.ltb_spec n 100000000000000); [|lia].
    rewrite Z.quot_div_nonneg, Z.rem_mod_nonneg by lia.
    pose proof (Z.mod_pos_bound n 1000 ltac:(lia)).
    rewrite time_Unix_normal by lia. reflexivity.
  - destruct (Z.ltb_spec n 100000000000); [lia|].
    destruct (Z.ltb_spec n 100000000000000); [lia|].
    destruct (Z.ltb_spec n 100000000000000000); [|lia].
    rewrite Z.quot_div_nonneg, Z.rem_mod_nonneg by lia.
    pose proof (Z.mod_pos_bound n 1000000 ltac:(lia)).
    rewrite time_Unix_normal by lia. reflexivity.
  - destruct (Z.ltb_spec n 100000000000); [lia|].
    destruct (Z.ltb_spec n 100000000000000); [lia|].
    destruct (Z.ltb_spec n 100000000000000000); [lia|]. reflexivity.
Qed.


Lemma decimal_digits_are_digits (ds : string) :
  decimal_digits ds ->
  forallb Go.is_digit (list_ascii_of_string ds) = true /\ list_ascii_of_string ds <> [].
Proof.
  intros [Hne Hall]. split.
  - induction Hall as [|c l Hc _ IH]; [reflexivity|].
    cbn [forallb]. rewrite IH, andb_true_r.
    cbn [list_ascii_of_string In] in Hc.
    repeat (destruct Hc as [<-|Hc]; [reflexivity|]). contradiction.
  - destruct ds; [contradiction|discriminate].
Qed.

(** The numeric fast path accepts a minus sign followed by digits, however
    many. *)
Lemma isNumeric_minus_digits (ds : string) :
  decimal_digits ds -> isNumeric (String "-" ds) = true.
Proof.
  intros Hds. destruct (decimal_digits_are_digits ds Hds) as [Hdig Hne].
  unfold isNumeric. cbn [Ascii.eqb Bool.eqb]. rewrite Hdig.
  destruct ds; [contradiction|]. reflexivity.
Qed.

(** C10, as amended.  When the trimmed input is a minus sign followed by one
    or more digits of value [v], the numeric fast path accepts it.  For
    v <= 2^63 ParseTimestamp succeeds and returns the instant -v seconds from
    the epoch (before 1970 when v > 0); for v > 2^63 the value does not fit an
    int64 and ParseTimestamp returns the range error of strconv.ParseInt,
    wrapped. *)
Theorem parse_timestamp_leading_minus (s ds : string) :
  Go.TrimSpace s = String "-" ds ->
  decimal_digits ds ->
  let v := digits_value (list_ascii_of_string ds) in
  isNumeric (String "-" ds) = true
  /\ Go.parse_digits 0 (list_ascii_of_string ds) = Some v
  /\ 0 <= v
  /\ (v <= 2 ^ 63 ->
      ParseTimestamp time_Parse s = Ok (Some (mkTimestamp (- v) 0))
      /\ (0 < v -> - v < 0))
  /\ (2 ^ 63 < v ->
      ParseTimestamp time_Parse s
      = Err (Go.Errorf "invalid unix timestamp: %w"
               [Go.AErr (Go.NumErr "ParseInt" (String "-" ds) Go.ErrRange)])).
Proof.
  intros Ht Hds v.
  pose proof (isNumeric_minus_digits ds Hds) as Hnum.
  destruct (decimal_digits_are_digits ds Hds) as [Hdig Hne].
  split; [exact Hnum|].
  rewrite ParseTimestamp_numeric by (rewrite Ht; exact Hnum). rewrite Ht.
  pose proof (parse_digits_value _ Hdig 0) as Hv. fold (digits_value (list_ascii_of_string ds)) in Hv.
  fold v in Hv.
  destruct (parse_digits_total _ Hdig 0 ltac:(lia)) as (v' & Hv' & Hge).
  rewrite Hv in Hv'. injection Hv' as <-.
  split; [exact Hv|]. split; [lia|].
  assert (HU : Go.ParseUint ds = if v <? 2 ^ 64 then Ok v else Err Go.ErrRange).
  { unfold Go.ParseUint. destruct (list_ascii_of_string ds); [contradiction|].
    rewrite Hv. reflexivity. }
  assert (HI : Go.ParseInt (String "-" ds)
               = if v <=? 2 ^ 63 then Ok (- v) else Err Go.ErrRange).
  { unfold Go.ParseInt. cbn [Ascii.eqb Bool.eqb orb andb negb]. rewrite HU.
    destruct (Z.ltb_spec v (2 ^ 64)); destruct (Z.leb_spec v (2 ^ 63));
      destruct (Z.ltb_spec (2 ^ 63) v); try lia; reflexivity. }
  split.
  - intros Hle. split; [|lia].
    destruct (parseUnixTimestamp_value (String "-" ds) (- v)) as (Hsec & _).
    + rewrite HI. destruct (Z.leb_spec v (2 ^ 63)); [reflexivity|lia].
    + apply Hsec. lia.
  - intros Hgt. unfold parseUnixTimestamp. rewrite HI.
    destruct (Z.leb_spec v (2 ^ 63)); [lia|reflexivity].
Qed.

End Timestamps.


(** C10, the claim as stated fails: -9223372036854775809 is numeric with a
    leading minus sign, its value is below the least int64, and ParseTimestamp
    returns the range error of strconv.ParseInt. *)
Lemma parse_timestamp_minus_out_of_range :
  Normalizer.isNumeric "-9223372036854775809" = true
  /\ Normalizer.ParseTimestamp example_time_Parse "-9223372036854775809"
     = Err (Go.Errorf "invalid unix timestamp: %w"
              [Go.AErr (Go.NumErr "ParseInt" "-9223372036854775809" Go.ErrRange)])
  /\ is_ok (Normalizer.ParseTimestamp example_time_Parse "-9223372036854775809") = false.
Proof. repeat split; vm_compute; reflexivity. Qed.

Lemma parse_timestamp_leading_minus_witness :
  Normalizer.ParseTimestamp example_time_Parse "-5" = Ok (Some (Normalizer.mkTimestamp (-5) 0))
  /\ Normalizer.ParseTimestamp example_time_Parse " -0000000000000000000005 "
     = Ok (Some (Normalizer.mkTimestamp (-5) 0))
  /\ Normalizer.isNumeric "-0000000000000000000005" = true.
Proof.
  assert (Hdigits : forall ds,
             ds <> "" ->
             forallb (fun c => existsb (Ascii.eqb c) (list_ascii_of_string "0123456789"))
               (list_ascii_of_string ds) = true ->
             decimal_digits ds).
  { intros ds Hne Hall. split; [exact Hne|].
    induction (list_ascii_of_string ds) as [|c l IH]; [constructor|].
    cbn [forallb] in Hall. apply andb_prop in Hall as [Hc Hl].
    constructor; [|exact (IH Hl)].
    apply existsb_exists in Hc as (d & Hin & Heq). apply Ascii.eqb_eq in Heq. now subst. }
  split; [|split].
  - destruct (parse_timestamp_leading_minus example_time_Parse "-5" "5")
      as (_ & _ & _ & Hok & _).
    + vm_compute. reflexivity.
    + apply Hdigits; [discriminate|vm_compute; reflexivity].
    + apply Hok. now vm_compute.
  - destruct (parse_timestamp_leading_minus example_time_Parse
                " -0000000000000000000005 " "0000000000000000000005")
      as (_ & _ & _ & Hok & _).
    + vm_compute. reflexivity.
    + apply Hdigits; [discriminate|vm_compute; reflexivity].
    + apply Hok. now vm_compute.
  - destruct (parse_timestamp_leading_minus example_time_Parse
                " -0000000000000000000005 " "0000000000000000000005")
      as (Hnum & _).
    + vm_compute. reflexivity.
    + apply Hdigits; [discriminate|vm_compute; reflexivity].
    + exact Hnum.
Defined.

(** ** Order books *)

Section OrderBooks.
Import Normalizer.
Variable time_Parse : string -> string -> result Go.error Go.Time.
Variable strconv_ParseFloat : string -> result Go.error float.
Variable Sprintf_f : float -> string.
Variable int32_of_float64 : float -> Z.
Variable float64_of_int : Z -> float.
Variable cb_Unmarshal : list byte -> result Go.error Coinbase.CoinbaseOrderBook.
Variable prime_Unmarshal : list byte -> result Go.error Prime.PrimeOrderBook.

Lemma coinbase_levels_have_price levels :
  forall i acc out,
    Coinbase.parse_levels_from strconv_ParseFloat Sprintf_f int32_of_float64 i levels acc = Ok out ->
    Forall has_price acc -> Forall has_price out.
Proof.
  induction levels as [|level rest IH]; intros i acc out H Hacc; cbn in H.
  - now injection H as <-.
  - destruct (Coinbase.parse_level _ _ _ i level) as [obLevel|e] eqn:Hl; [|discriminate].
    apply (IH _ _ _ H). apply Forall_app. split; [exact Hacc|].
    constructor; [|constructor].
    unfold Coinbase.parse_level in Hl.
    destruct level as [|v0 [|v1 tl]]; try discriminate.
    destruct (Coinbase.decimal_string Sprintf_f v0); [|discriminate].
    destruct (Coinbase.decimal_string Sprintf_f v1); [|discriminate].
    injection Hl as <-. eexists. reflexivity.
Qed.

Lemma prime_levels_have_price levels :
  forall i acc out,
    Prime.parse_levels_from strconv_ParseFloat float64_of_int i levels acc = Ok out ->
    Forall has_price acc -> Forall has_price out.
Proof.
  induction levels as [|level rest IH]; intros i acc out H Hacc; cbn in H.
  - now injection H as <-.
  - destruct (Prime.parse_level _ _ i level) as [[price size]|e]; [|discriminate].
    destruct (Prime.is_empty_level price size).
    + exact (IH _ _ _ H Hacc).
    + apply (IH _ _ _ H). apply Forall_app. split; [exact Hacc|].
      constructor; [|constructor]. eexists. reflexivity.
Qed.

Lemma summarizes_levels_intro venueId symbol ts bids asks seq :
  Forall has_price bids -> Forall has_price asks ->
  let bestBid := match bids with l0 :: _ => Price l0 | [] => None end in
  let bestAsk := match asks with l0 :: _ => Price l0 | [] => None end in
  let sm :=
    match bestBid, bestAsk with
    | Some bid, Some ask =>
        (Some (PrimFloat.sub ask bid), Some (PrimFloat.div (PrimFloat.add bid ask) 2%float))
    | _, _ => (None, None)
    end in
  summarizes_levels
    (mkOrderBook venueId symbol ts bids asks bestBid bestAsk (fst sm) (snd sm) seq).
Proof.
  intros Hb Ha bestBid bestAsk sm.
  unfold summarizes_levels.
  cbn [Bids Asks BestBid BestAsk Spread MidPrice].
  split; [|split; [|split; [|split; [|split]]]].
  - intros l0 rest ->. inversion Hb as [|? ? [bid Hbid] _]; subst.
    exists bid. split; [exact Hbid|]. subst bestBid. exact Hbid.
  - intros l0 rest ->. inversion Ha as [|? ? [ask Hask] _]; subst.
    exists ask. split; [exact Hask|]. subst bestAsk. exact Hask.
  - intros bid ask Hbid Hask. subst sm. rewrite Hbid, Hask. split; reflexivity.
  - intros lb rb la ra -> ->.
    inversion Hb as [|? ? [bid Hbid] _]; subst. inversion Ha as [|? ? [ask Hask] _]; subst.
    exists bid, ask. subst sm bestBid bestAsk. rewrite Hbid, Hask. repeat split; reflexivity.
  - intros ->. subst sm bestBid. cbn. repeat split; reflexivity.
  - intros ->. subst sm bestAsk. cbn. destruct bestBid; repeat split; reflexivity.
Qed.

Lemma let_pair {A B C : Type} (x : A * B) (f : A -> B -> C) :
  (let '(a, b) := x in f a b) = f (fst x) (snd x).
Proof. destruct x. reflexivity. Qed.

(** C7. Each normalizer returns an order book whenever the response is not
    empty, decodes, and parseOrderBookLevels converts its bid and ask arrays;
    the sides of the book are those converted lists.  In that book, and in
    every book a normalizer returns, best bid and best ask are the prices of
    the first converted bid and ask level; when both converted sides have a
    level, the spread is best-ask minus best-bid and the mid-price is half
    their sum; when a side has none, its best price, the spread and the
    mid-price are absent. *)
Theorem order_book_best_spread_mid (now : Go.Time) (raw : list byte) :
  (forall cbBook bids asks,
      raw <> [] ->
      cb_Unmarshal raw = Ok cbBook ->
      Coinbase.parseOrderBookLevels strconv_ParseFloat Sprintf_f int32_of_float64
        (Coinbase.Bids (Coinbase.PriceBook_ cbBook)) = Ok bids ->
      Coinbase.parseOrderBookLevels strconv_ParseFloat Sprintf_f int32_of_float64
        (Coinbase.Asks (Coinbase.PriceBook_ cbBook)) = Ok asks ->
      exists ob,
        Coinbase.NormalizeOrderBook time_Parse strconv_ParseFloat Sprintf_f int32_of_float64
          cb_Unmarshal now raw = Ok ob
        /\ Bids ob = bids /\ Asks ob = asks
        /\ summarizes_levels ob)
  /\ (forall ob,
        Coinbase.NormalizeOrderBook time_Parse strconv_ParseFloat Sprintf_f int32_of_float64
          cb_Unmarshal now raw = Ok ob ->
        summarizes_levels ob
        /\ exists cbBook,
             cb_Unmarshal raw = Ok cbBook
             /\ Coinbase.parseOrderBookLevels strconv_ParseFloat Sprintf_f int32_of_float64
                  (Coinbase.Bids (Coinbase.PriceBook_ cbBook)) = Ok (Bids ob)
             /\ Coinbase.parseOrderBookLevels strconv_ParseFloat Sprintf_f int32_of_float64
                  (Coinbase.Asks (Coinbase.PriceBook_ cbBook)) = Ok (Asks ob))
  /\ (forall primeBook bids asks,
        raw <> [] ->
        prime_Unmarshal raw = Ok primeBook ->
        Prime.parseOrderBookLevels strconv_ParseFloat float64_of_int
          (Prime.Bids primeBook) = Ok bids ->
        Prime.parseOrderBookLevels strconv_ParseFloat float64_of_int
          (Prime.Asks primeBook) = Ok asks ->
        exists ob,
          Prime.NormalizeOrderBook time_Parse strconv_ParseFloat float64_of_int
            prime_Unmarshal now raw = Ok ob
          /\ Bids ob = bids /\ Asks ob = asks
          /\ summarizes_levels ob)
  /\ (forall ob,
        Prime.NormalizeOrderBook time_Parse strconv_ParseFloat float64_of_int
          prime_Unmarshal now raw = Ok ob ->
        summarizes_levels ob
        /\ exists primeBook,
             prime_Unmarshal raw = Ok primeBook
             /\ Prime.parseOrderBookLevels strconv_ParseFloat float64_of_int
                  (Prime.Bids primeBook) = Ok (Bids ob)
             /\ Prime.parseOrderBookLevels strconv_ParseFloat float64_of_int
                  (Prime.Asks primeBook) = Ok (Asks ob)).
Proof.
  assert (Hcb : forall ob,
             Coinbase.NormalizeOrderBook time_Parse strconv_ParseFloat Sprintf_f
               int32_of_float64 cb_Unmarshal now raw = Ok ob ->
             summarizes_levels ob
             /\ exists cbBook,
                  cb_Unmarshal raw = Ok cbBook
                  /\ Coinbase.parseOrderBookLevels strconv_ParseFloat Sprintf_f int32_of_float64
                       (Coinbase.Bids (Coinbase.PriceBook_ cbBook)) = Ok (Bids ob)
                  /\ Coinbase.parseOrderBookLevels strconv_ParseFloat Sprintf_f int32_of_float64
                       (Coinbase.Asks (Coinbase.PriceBook_ cbBook)) = Ok (Asks ob)).
  { intros ob. unfold Coinbase.NormalizeOrderBook.
    destruct (length raw =? 0)%nat; [discriminate|].
    destruct (cb_Unmarshal raw) as [cbBook|e]; [|discriminate].
    destruct (Coinbase.parseOrderBookLevels _ _ _ (Coinbase.Bids _)) as [bids|e] eqn:Hb;
      [|discriminate].
    destruct (Coinbase.parseOrderBookLevels _ _ _ (Coinbase.Asks _)) as [asks|e] eqn:Ha;
      [|discriminate].
    rewrite let_pair. intros [= <-]. split.
    + apply summarizes_levels_intro.
      * unfold Coinbase.parseOrderBookLevels in Hb.
        destruct (Coinbase.Bids _); [|injection Hb as <-; constructor].
        exact (coinbase_levels_have_price _ _ _ _ Hb ltac:(constructor)).
      * unfold Coinbase.parseOrderBookLevels in Ha.
        destruct (Coinbase.Asks _); [|injection Ha as <-; constructor].
        exact (coinbase_levels_have_price _ _ _ _ Ha ltac:(constructor)).
    + exists cbBook. repeat split; assumption. }
  assert (Hpr : forall ob,
             Prime.NormalizeOrderBook time_Parse strconv_ParseFloat float64_of_int
               prime_Unmarshal now raw = Ok ob ->
             summarizes_levels ob
             /\ exists primeBook,
                  prime_Unmarshal raw = Ok primeBook
                  /\ Prime.parseOrderBookLevels strconv_ParseFloat float64_of_int
                       (Prime.Bids primeBook) = Ok (Bids ob)
                  /\ Prime.parseOrderBookLevels strconv_ParseFloat float64_of_int
                       (Prime.Asks primeBook) = Ok (Asks ob)).
  { intros ob. unfold Prime.NormalizeOrderBook.
    destruct (length raw =? 0)%nat; [discriminate|].
    destruct (prime_Unmarshal raw) as [primeBook|e]; [|discriminate].
    destruct (Prime.parseOrderBookLevels _ _ (Prime.Bids _)) as [bids|e] eqn:Hb;
      [|discriminate].
    destruct (Prime.parseOrderBookLevels _ _ (Prime.Asks _)) as [asks|e] eqn:Ha;
      [|discriminate].
    rewrite let_pair. intros [= <-]. split.
    + apply summarizes_levels_intro.
      * exact (prime_levels_have_price _ _ _ _ Hb ltac:(constructor)).
      * exact (prime_levels_have_price _ _ _ _ Ha ltac:(constructor)).
    + exists primeBook. repeat split; assumption. }
  split; [|split; [exact Hcb|split; [|exact Hpr]]].
  - intros cbBook bids asks Hne Hdec Hb Ha.
    assert (Hret : exists ob,
               Coinbase.NormalizeOrderBook time_Parse strconv_ParseFloat Sprintf_f
                 int32_of_float64 cb_Unmarshal now raw = Ok ob
               /\ Bids ob = bids /\ Asks ob = asks).
    { unfold Coinbase.NormalizeOrderBook.
      destruct raw; [contradiction|]. cbn [length Nat.eqb]. rewrite Hdec, Hb, Ha.
      rewrite let_pair. eexists. split; [reflexivity|]. split; reflexivity. }
    destruct Hret as (ob & Hob & Hbids & Hasks).
    exists ob. split; [exact Hob|]. split; [exact Hbids|]. split; [exact Hasks|].
    exact (proj1 (Hcb ob Hob)).
  - intros primeBook bids asks Hne Hdec Hb Ha.
    assert (Hret : exists ob,
               Prime.NormalizeOrderBook time_Parse strconv_ParseFloat float64_of_int
                 prime_Unmarshal now raw = Ok ob
               /\ Bids ob = bids /\ Asks ob = asks).
    { unfold Prime.NormalizeOrderBook.
      destruct raw; [contradiction|]. cbn [length Nat.eqb]. rewrite Hdec, Hb, Ha.
      rewrite let_pair. eexists. split; [reflexivity|]. split; reflexivity. }
    destruct Hret as (ob & Hob & Hbids & Hasks).
    exists ob. split; [exact Hob|]. split; [exact Hbids|]. split; [exact Hasks|].
    exact (proj1 (Hpr ob Hob)).
Qed.

End OrderBooks.

Example coinbase_order_book_example :
  coinbase_NormalizeOrderBook_example clock
    (json_bytes "{'pricebook': {'product_id': 'BTC-USD', 'bids': [[50000, 1.5]], 'asks': [[50010, 1.2]]}}")
  = Ok (Normalizer.mkOrderBook (Some "coinbase") (Some "BTC-USD")
          (Some (Normalizer.mkTimestamp 1700000000 0))
          [Normalizer.mkOrderBookLevel (Some 50000%float) (Some 1.5%float) None]
          [Normalizer.mkOrderBookLevel (Some 50010%float) (Some f1_2) None]
          (Some 50000%float) (Some 50010%float) (Some 10%float) (Some 50005%float) None).
Proof. vm_compute. reflexivity. Qed.

Example prime_order_book_example :
  prime_NormalizeOrderBook_example clock
    (json_bytes "{'product_id': 'BTC-USD', 'bids': [[50000, 1.5]], 'asks': [[50010, 1.2]], 'sequence': 12345}")
  = Ok (Normalizer.mkOrderBook (Some "prime") (Some "BTC-USD")
          (Some (Normalizer.mkTimestamp 1700000000 0))
          [Normalizer.mkOrderBookLevel (Some 50000%float) (Some 1.5%float) None]
          [Normalizer.mkOrderBookLevel (Some 50010%float) (Some f1_2) None]
          (Some 50000%float) (Some 50010%float) (Some 10%float) (Some 50005%float)
          (Some 12345)).
Proof. vm_compute. reflexivity. Qed.

Example coinbase_order_book_no_bids :
  coinbase_NormalizeOrderBook_example clock
    (json_bytes "{'pricebook': {'product_id': 'BTC-USD', 'bids': [], 'asks': [['50010', '1.2']]}}")
  = Ok (Normalizer.mkOrderBook (Some "coinbase") (Some "BTC-USD")
          (Some (Normalizer.mkTimestamp 1700000000 0))
          []
          [Normalizer.mkOrderBookLevel (Some 50010%float) (Some f1_2) None]
          None (Some 50010%float) None None None).
Proof. vm_compute. reflexivity. Qed.

Example prime_order_book_all_bids_skipped :
  prime_NormalizeOrderBook_example clock
    (json_bytes "{'product_id': 'BTC-USD', 'bids': [['0', '0.0']], 'asks': [[50010, 1.2]]}")
  = Ok (Normalizer.mkOrderBook (Some "prime") (Some "BTC-USD")
          (Some (Normalizer.mkTimestamp 1700000000 0))
          []
          [Normalizer.mkOrderBookLevel (Some 50010%float) (Some f1_2) None]
          None (Some 50010%float) None None None).
Proof. vm_compute. reflexivity. Qed.

(** Reads the summary of a book off [summarizes_levels], for a book with a
    level on both sides and for a book with no bid. *)
Ltac read_two_sided Hbids Hasks Hsum :=
  let Hbid := fresh "Hbid" in
  let Hask := fresh "Hask" in
  let Hsm := fresh "Hsm" in
  destruct Hsum as (Hbid & Hask & Hsm & _);
  let bid := fresh "bid" in
  let ask := fresh "ask" in
  let Hbb := fresh "Hbb" in
  let Hba := fresh "Hba" in
  let Hpb := fresh "Hpb" in
  let Hpa := fresh "Hpa" in
  destruct (Hbid _ _ Hbids) as (bid & Hpb & Hbb);
  destruct (Hask _ _ Hasks) as (ask & Hpa & Hba);
  injection Hpb as <-; injection Hpa as <-;
  destruct (Hsm _ _ Hbb Hba) as [? ?];
  repeat split; try assumption; vm_compute; reflexivity.

Ltac read_no_bids Hbids Hasks Hsum :=
  let Hask := fresh "Hask" in
  let Hnb := fresh "Hnb" in
  destruct Hsum as (_ & Hask & _ & _ & Hnb & _);
  let ask := fresh "ask" in
  let Hba := fresh "Hba" in
  let Hpa := fresh "Hpa" in
  destruct (Hask _ _ Hasks) as (ask & Hpa & Hba);
  injection Hpa as <-;
  destruct (Hnb Hbids) as (? & ? & ?);
  repeat split; assumption.

Lemma order_book_best_spread_mid_witness :
  (exists ob,
      coinbase_NormalizeOrderBook_example clock
        (json_bytes "{'pricebook': {'product_id': 'BTC-USD', 'bids': [[50000, 1.5]], 'asks': [[50010, 1.2]]}}")
      = Ok ob
      /\ Normalizer.BestBid ob = Some 50000%float
      /\ Normalizer.BestAsk ob = Some 50010%float
      /\ Normalizer.Spread ob = Some 10%float
      /\ Normalizer.MidPrice ob = Some 50005%float)
  /\ (exists ob,
        coinbase_NormalizeOrderBook_example clock
          (json_bytes "{'pricebook': {'product_id': 'BTC-USD', 'bids': [], 'asks': [['50010', '1.2']]}}")
        = Ok ob
        /\ Normalizer.BestAsk ob = Some 50010%float
        /\ Normalizer.BestBid ob = None
        /\ Normalizer.Spread ob = None
        /\ Normalizer.MidPrice ob = None)
  /\ (exists ob,
        prime_NormalizeOrderBook_example clock
          (json_bytes "{'product_id': 'BTC-USD', 'bids': [[50000, 1.5]], 'asks': [[50010, 1.2]], 'sequence': 12345}")
        = Ok ob
        /\ Normalizer.BestBid ob = Some 50000%float
        /\ Normalizer.BestAsk ob = Some 50010%float
        /\ Normalizer.Spread ob = Some 10%float
        /\ Normalizer.MidPrice ob = Some 50005%float)
  /\ (exists ob,
        prime_NormalizeOrderBook_example clock
          (json_bytes "{'product_id': 'BTC-USD', 'bids': [['0', '0.0']], 'asks': [[50010, 1.2]]}")
        = Ok ob
        /\ Normalizer.BestAsk ob = Some 50010%float
        /\ Normalizer.BestBid ob = None
        /\ Normalizer.Spread ob = None
        /\ Normalizer.MidPrice ob = None).
Proof.
  unfold coinbase_NormalizeOrderBook_example, prime_NormalizeOrderBook_example.
  split; [|split; [|split]].
  - destruct (order_book_best_spread_mid example_time_Parse example_ParseFloat
                example_Sprintf_f example_int32_of_float64 example_float64_of_int
                (fixture_Unmarshal coinbase_book_fixtures)
                (fixture_Unmarshal prime_book_fixtures) clock
                (json_bytes "{'pricebook': {'product_id': 'BTC-USD', 'bids': [[50000, 1.5]], 'asks': [[50010, 1.2]]}}"))
      as (H & _).
    destruct (H (Coinbase.mkCoinbaseOrderBook
                   (Coinbase.mkPriceBook "BTC-USD"
                      (Some [[Go.IFloat64 50000; Go.IFloat64 1.5]])
                      (Some [[Go.IFloat64 50010; Go.IFloat64 f1_2]]) "") "")
                [Normalizer.mkOrderBookLevel (Some 50000%float) (Some 1.5%float) None]
                [Normalizer.mkOrderBookLevel (Some 50010%float) (Some f1_2) None])
      as (ob & Hob & Hbids & Hasks & Hsum);
      [discriminate|vm_compute; reflexivity|vm_compute; reflexivity|vm_compute; reflexivity|].
    exists ob. split; [exact Hob|]. read_two_sided Hbids Hasks Hsum.
  - destruct (order_book_best_spread_mid example_time_Parse example_ParseFloat
                example_Sprintf_f example_int32_of_float64 example_float64_of_int
                (fixture_Unmarshal coinbase_book_fixtures)
                (fixture_Unmarshal prime_book_fixtures) clock
                (json_bytes "{'pricebook': {'product_id': 'BTC-USD', 'bids': [], 'asks': [['50010', '1.2']]}}"))
      as (H & _).
    destruct (H (Coinbase.mkCoinbaseOrderBook
                   (Coinbase.mkPriceBook "BTC-USD"
                      (Some [])
                      (Some [[Go.IString "50010"; Go.IString "1.2"]]) "") "")
                []
                [Normalizer.mkOrderBookLevel (Some 50010%float) (Some f1_2) None])
      as (ob & Hob & Hbids & Hasks & Hsum);
      [discriminate|vm_compute; reflexivity|vm_compute; reflexivity|vm_compute; reflexivity|].
    exists ob. split; [exact Hob|]. read_no_bids Hbids Hasks Hsum.
  - destruct (order_book_best_spread_mid example_time_Parse example_ParseFloat
                example_Sprintf_f example_int32_of_float64 example_float64_of_int
                (fixture_Unmarshal coinbase_book_fixtures)
                (fixture_Unmarshal prime_book_fixtures) clock
                (json_bytes "{'product_id': 'BTC-USD', 'bids': [[50000, 1.5]], 'asks': [[50010, 1.2]], 'sequence': 12345}"))
      as (_ & _ & H & _).
    destruct (H (Prime.mkPrimeOrderBook "BTC-USD"
                   [[Go.IFloat64 50000; Go.IFloat64 1.5]]
                   [[Go.IFloat64 50010; Go.IFloat64 f1_2]] "" 12345)
                [Normalizer.mkOrderBookLevel (Some 50000%float) (Some 1.5%float) None]
                [Normalizer.mkOrderBookLevel (Some 50010%float) (Some f1_2) None])
      as (ob & Hob & Hbids & Hasks & Hsum);
      [discriminate|vm_compute; reflexivity|vm_compute; reflexivity|vm_compute; reflexivity|].
    exists ob. split; [exact Hob|]. read_two_sided Hbids Hasks Hsum.
  - destruct (order_book_best_spread_mid example_time_Parse example_ParseFloat
                example_Sprintf_f example_int32_of_float64 example_float64_of_int
                (fixture_Unmarshal coinbase_book_fixtures)
                (fixture_Unmarshal prime_book_fixtures) clock
                (json_bytes "{'product_id': 'BTC-USD', 'bids': [['0', '0.0']], 'asks': [[50010, 1.2]]}"))
      as (_ & _ & H & _).
    destruct (H (Prime.mkPrimeOrderBook "BTC-USD"
                   [[Go.IString "0"; Go.IString "0.0"]]
                   [[Go.IFloat64 50010; Go.IFloat64 f1_2]] "" 0)
                []
                [Normalizer.mkOrderBookLevel (Some 50010%float) (Some f1_2) None])
      as (ob & Hob & Hbids & Hasks & Hsum);
      [discriminate|vm_compute; reflexivity|vm_compute; reflexivity|vm_compute; reflexivity|].
    exists ob. split; [exact Hob|]. read_no_bids Hbids Hasks Hsum.
Defined.

(** ** The level parser of the Prime order book *)

Section PrimeLevels.
Import Normalizer.
Variable strconv_ParseFloat : string -> result Go.error float.
Variable float64_of_int : Z -> float.

Abbreviation number := (Prime.number strconv_ParseFloat float64_of_int).
Abbreviation parse_level := (Prime.parse_level strconv_ParseFloat float64_of_int).
Abbreviation parse_levels_from := (Prime.parse_levels_from strconv_ParseFloat float64_of_int).
Abbreviation parseOrderBookLevels := (Prime.parseOrderBookLevels strconv_ParseFloat float64_of_int).

Abbreviation level_values := (level_values strconv_ParseFloat float64_of_int).
Abbreviation all_values := (all_values strconv_ParseFloat float64_of_int).

Lemma parse_level_values i level :
  match level_values level with
  | Some pq => parse_level i level = Ok pq
  | None => exists e, parse_level i level = Err e
  end.
Proof.
  unfold level_values, Prime.parse_level.
  destruct level as [|v0 [|v1 tl]]; try (eexists; reflexivity).
  destruct (number v0); [|eexists; reflexivity].
  destruct (number v1); [reflexivity|eexists; reflexivity].
Qed.

Lemma parse_levels_from_spec levels :
  forall i acc,
    match all_values levels with
    | Some vals => parse_levels_from i levels acc = Ok (acc ++ map level_of (kept vals))
    | None => exists e, parse_levels_from i levels acc = Err e
    end.
Proof.
  induction levels as [|level rest IH]; intros i acc; cbn [all_values Prime.parse_levels_from].
  - cbn. now rewrite app_nil_r.
  - pose proof (parse_level_values i level) as Hl.
    destruct (level_values level) as [[price size]|].
    + rewrite Hl. cbn beta iota.
      destruct (Prime.is_empty_level price size) eqn:Hempty.
      * specialize (IH (i + 1) acc).
        destruct (all_values rest) as [vals|]; [|exact IH].
        rewrite IH. unfold kept. cbn [List.filter fst snd]. rewrite Hempty. reflexivity.
      * specialize (IH (i + 1) (acc ++ [mkOrderBookLevel (Some price) (Some size) None])).
        destruct (all_values rest) as [vals|]; [|exact IH].
        rewrite IH. unfold kept. cbn [List.filter fst snd]. rewrite Hempty.
        cbn [negb map]. rewrite <- app_assoc. reflexivity.
    + destruct Hl as [e He]. rewrite He. now exists e.
Qed.

Lemma parseOrderBookLevels_ok levels out :
  parseOrderBookLevels levels = Ok out
  <-> exists vals, all_values levels = Some vals /\ out = map level_of (kept vals).
Proof.
  unfold Prime.parseOrderBookLevels.
  pose proof (parse_levels_from_spec levels 0 []) as H.
  destruct (all_values levels) as [vals|].
  - rewrite H. cbn [app]. split.
    + intros [= <-]. now exists vals.
    + intros (vals' & [= <-] & ->). reflexivity.
  - destruct H as [e He]. rewrite He. split; [discriminate|].
    intros (vals' & Hv & _). discriminate.
Qed.

Lemma all_values_app l1 l2 :
  all_values (l1 ++ l2)
  = match all_values l1, all_values l2 with
    | Some a, Some b => Some (a ++ b)
    | _, _ => None
    end.
Proof.
  induction l1 as [|level l1 IH]; cbn [app all_values].
  - now destruct (all_values l2).
  - rewrite IH. destruct (level_values level); [|reflexivity].
    destruct (all_values l1); [|reflexivity].
    now destruct (all_values l2).
Qed.

Lemma all_values_length levels vals :
  all_values levels = Some vals -> length vals = length levels.
Proof.
  revert vals. induction levels as [|level rest IH]; intros vals; cbn [all_values].
  - now intros [= <-].
  - destruct (level_values level); [|discriminate].
    destruct (all_values rest) as [vs|]; [|discriminate].
    intros [= <-]. cbn. now rewrite (IH vs eq_refl).
Qed.

Lemma kept_app a b : kept (a ++ b) = kept a ++ kept b.
Proof. unfold kept. induction a as [|x a IH]; cbn; [reflexivity|]. rewrite IH. now destruct (negb _). Qed.

Lemma kept_length vals : (length (kept vals) <= length vals)%nat.
Proof.
  unfold kept. induction vals as [|x vals IH]; cbn; [lia|].
  destruct (negb _); cbn; lia.
Qed.

(** C9. parseOrderBookLevels of the Prime normalizer, on levels that all hold
    a price and a size, returns the levels whose price and size are not both
    zero, in order: a level with both zero gives no error and no entry (the
    result is the one for the input without that level), so the output can be
    strictly shorter than the input, and a level with a zero price or a zero
    size is in the output exactly when its other component is not zero. *)
Theorem prime_levels_skip_zero_levels (levels : list (list Go.iface)) :
  (forall vals,
      all_values levels = Some vals ->
      parseOrderBookLevels levels = Ok (map level_of (kept vals)))
  /\ (forall pre level post price size out,
        level_values level = Some (price, size) ->
        PrimFloat.eqb price 0%float = true -> PrimFloat.eqb size 0%float = true ->
        (parseOrderBookLevels (pre ++ level :: post) = Ok out
         <-> parseOrderBookLevels (pre ++ post) = Ok out))
  /\ (forall out, parseOrderBookLevels levels = Ok out -> (length out <= length levels)%nat)
  /\ (forall vals price size,
        all_values levels = Some vals ->
        (In (level_of (price, size)) (map level_of (kept vals))
         <-> In (price, size) vals
             /\ (PrimFloat.eqb price 0%float = false \/ PrimFloat.eqb size 0%float = false)))
  /\ (exists out,
        parseOrderBookLevels
          [ [Go.IFloat64 0%float; Go.IFloat64 0%float];
            [Go.IFloat64 50000%float; Go.IFloat64 1.5%float] ] = Ok out
        /\ out = [mkOrderBookLevel (Some 50000%float) (Some 1.5%float) None]
        /\ (length out < 2)%nat).
Proof.
  split; [|split; [|split; [|split]]].
  - intros vals Hv. apply parseOrderBookLevels_ok. now exists vals.
  - intros pre level post price size out Hl Hp Hs.
    rewrite !parseOrderBookLevels_ok, !all_values_app. cbn [all_values]. rewrite Hl.
    destruct (all_values pre) as [a|]; [|split; intros (v & Hv & _); discriminate].
    destruct (all_values post) as [b|]; [|split; intros (v & Hv & _); discriminate].
    assert (Hk : kept (a ++ (price, size) :: b) = kept (a ++ b)).
    { rewrite !kept_app. f_equal. unfold kept. cbn [List.filter fst snd].
      unfold Prime.is_empty_level. rewrite Hp, Hs. reflexivity. }
    split; intros (v & [= <-] & ->); eexists; (split; [reflexivity|]); now rewrite Hk.
  - intros out Hout. apply parseOrderBookLevels_ok in Hout as (vals & Hv & ->).
    rewrite length_map, <- (all_values_length _ _ Hv). apply kept_length.
  - intros vals price size _. unfold kept. rewrite in_map_iff. split.
    + intros ([p q] & [= -> ->] & Hin). apply filter_In in Hin as [Hin Hne].
      split; [exact Hin|]. cbn [fst snd] in Hne. unfold Prime.is_empty_level in Hne.
      destruct (PrimFloat.eqb price 0); [right|left; reflexivity].
      now destruct (PrimFloat.eqb size 0).
    + intros [Hin Hnz]. exists (price, size). split; [reflexivity|].
      apply filter_In. split; [exact Hin|]. cbn [fst snd]. unfold Prime.is_empty_level.
      destruct Hnz as [-> | ->]; [reflexivity|]. now rewrite andb_false_r.
  - eexists. split; [vm_compute; reflexivity|]. split; [reflexivity|]. cbn. lia.
Qed.

End PrimeLevels.

Lemma prime_levels_skip_zero_levels_witness :
  Prime.parseOrderBookLevels example_ParseFloat example_float64_of_int
    [ [Go.IFloat64 50000; Go.IFloat64 1.5];
      [Go.IString "0"; Go.IString "0.0"; Go.IFloat64 3];
      [Go.IFloat64 0; Go.IFloat64 2];
      [Go.IInt 49990; Go.IString "  "] ]
  = Ok [ Normalizer.mkOrderBookLevel (Some 50000%float) (Some 1.5%float) None;
         Normalizer.mkOrderBookLevel (Some 0%float) (Some 2%float) None;
         Normalizer.mkOrderBookLevel (Some 49990%float) (Some 0%float) None ].
Proof.
  destruct (prime_levels_skip_zero_levels example_ParseFloat example_float64_of_int
              [ [Go.IFloat64 50000; Go.IFloat64 1.5];
                [Go.IString "0"; Go.IString "0.0"; Go.IFloat64 3];
                [Go.IFloat64 0; Go.IFloat64 2];
                [Go.IInt 49990; Go.IString "  "] ]) as (Hkept & _).
  rewrite (Hkept [(50000, 1.5); (0, 0); (0, 2); (49990, 0)]%float).
  - vm_compute. reflexivity.
  - vm_compute. reflexivity.
Defined.

(** * Further properties *)

(** ** Signers *)

Lemma append_assoc (a b c : string) : (a +:+ b) +:+ c = a +:+ (b +:+ c).
Proof.
  induction a as [|x a IH]; [reflexivity|].
  change (String x ((a +:+ b) +:+ c) = String x (a +:+ (b +:+ c))). now rewrite IH.
Qed.

Section SignerProperties.
Import Auth.

(** X1. NewHMACSigner checks the API key, the secret and the passphrase for
    emptiness in that order, then the secret for base64; the first check
    that fails decides the error, and the signer returned otherwise holds the
    configuration unchanged. *)
Theorem NewHMACSigner_outcome (config : HMACConfig) :
  (APIKey config = "" ->
   NewHMACSigner config = Err (Go.Errorf "API key is required" []))
  /\ (APIKey config <> "" -> Secret config = "" ->
      NewHMACSigner config = Err (Go.Errorf "secret is required" []))
  /\ (APIKey config <> "" -> Secret config <> "" -> Passphrase config = "" ->
      NewHMACSigner config = Err (Go.Errorf "passphrase is required" []))
  /\ (APIKey config <> "" -> Secret config <> "" -> Passphrase config <> "" ->
      is_ok (Base64.DecodeString (Secret config)) = false ->
      NewHMACSigner config
      = Err (Go.Errorf "secret must be valid base64: %w" [Go.AErr Go.Base64Corrupt]))
  /\ (APIKey config <> "" -> Secret config <> "" -> Passphrase config <> "" ->
      is_ok (Base64.DecodeString (Secret config)) = true ->
      NewHMACSigner config = Ok (mkHMACSigner config)).
Proof.
  unfold NewHMACSigner.
  destruct (String.eqb_spec (APIKey config) "") as [Hk|Hk];
    [repeat split; intros; (reflexivity || contradiction)|].
  destruct (String.eqb_spec (Secret config) "") as [Hs|Hs];
    [repeat split; intros; (reflexivity || contradiction)|].
  destruct (String.eqb_spec (Passphrase config) "") as [Hp|Hp];
    [repeat split; intros; (reflexivity || contradiction)|].
  destruct (Base64.DecodeString (Secret config));
    repeat split; intros; (reflexivity || contradiction || discriminate).
Qed.

Lemma hmac_sign_result_shape_aux s now req res :
  HMACSigner_Sign s now req = Ok res ->
  exists key,
    Base64.DecodeString (Secret (config s)) = Ok key
    /\ SignResult.Headers res !! "CB-ACCESS-SIGN"
       = Some (signature_of key (prehash (effective_timestamp now req) req)).
Proof.
  intros Hsign.
  destruct (Base64.DecodeString (Secret (config s))) as [key|e] eqn:Hdec.
  - destruct (HMACSigner_Sign_ok s now req key Hdec) as (res' & Hres & Hsig & _).
    rewrite Hres in Hsign. injection Hsign as <-. now exists key.
  - unfold HMACSigner_Sign in Hsign. rewrite Hdec in Hsign. discriminate.
Qed.

(** X2. A successful HMAC Sign returns exactly the four CB-ACCESS headers and
    no query parameter; the timestamp header is the timestamp the signature
    covers: the caller's when there is one, else the clock's Unix seconds in
    decimal; key and passphrase are echoed from the configuration. *)
Theorem hmac_sign_result_shape s now req res :
  HMACSigner_Sign s now req = Ok res ->
  dom (SignResult.Headers res)
  = ({["CB-ACCESS-KEY"; "CB-ACCESS-SIGN"; "CB-ACCESS-TIMESTAMP"; "CB-ACCESS-PASSPHRASE"]}
       : gset string)
  /\ SignResult.QueryParams res = ∅
  /\ (exists key,
        Base64.DecodeString (Secret (config s)) = Ok key
        /\ SignResult.Headers res !! "CB-ACCESS-SIGN"
           = Some (signature_of key (prehash (effective_timestamp now req) req)))
  /\ SignResult.Headers res !! "CB-ACCESS-TIMESTAMP" = Some (effective_timestamp now req)
  /\ (SignRequest.Timestamp req = "" ->
      effective_timestamp now req = Go.FormatInt (Go.unix_sec now))
  /\ (SignRequest.Timestamp req <> "" ->
      effective_timestamp now req = SignRequest.Timestamp req)
  /\ SignResult.Headers res !! "CB-ACCESS-KEY" = Some (APIKey (config s))
  /\ SignResult.Headers res !! "CB-ACCESS-PASSPHRASE" = Some (Passphrase (config s)).
Proof.
  intros Hsign.
  destruct (Base64.DecodeString (Secret (config s))) as [key|e] eqn:Hdec.
  - destruct (HMACSigner_Sign_ok s now req key Hdec) as (res' & Hres & Hsig & Hts & Hk & Hp).
    rewrite Hres in Hsign. injection Hsign as <-.
    split.
    { unfold HMACSigner_Sign in Hres. rewrite Hdec in Hres. injection Hres as <-.
      cbn [SignResult.Headers]. rewrite !dom_insert_L, dom_empty_L. set_solver. }
    split.
    { unfold HMACSigner_Sign in Hres. rewrite Hdec in Hres. now injection Hres as <-. }
    split; [exists key; split; [reflexivity|exact Hsig]|].
    split; [exact Hts|].
    unfold effective_timestamp.
    split; [intros ->; reflexivity|].
    split; [intros Hne; now destruct (String.eqb_spec (SignRequest.Timestamp req) "")|].
    split; assumption.
  - unfold HMACSigner_Sign in Hsign. rewrite Hdec in Hsign. discriminate.
Qed.

Lemma hmac_sign_result_shape_witness :
  exists res,
    HMACSigner_Sign (mkHMACSigner (mkHMACConfig "key" "c2VjcmV0" "pass"))
      (Go.mkTime 1700000000 0)
      (SignRequest.mk "POST" "/orders" (Some (Go.bytes_of_string "{}")) "" ∅) = Ok res
    /\ dom (SignResult.Headers res)
       = ({["CB-ACCESS-KEY"; "CB-ACCESS-SIGN"; "CB-ACCESS-TIMESTAMP"; "CB-ACCESS-PASSPHRASE"]}
            : gset string)
    /\ SignResult.QueryParams res = ∅
    /\ SignResult.Headers res !! "CB-ACCESS-TIMESTAMP" = Some "1700000000".
Proof.
  destruct (HMACSigner_Sign_ok (mkHMACSigner (mkHMACConfig "key" "c2VjcmV0" "pass"))
              (Go.mkTime 1700000000 0)
              (SignRequest.mk "POST" "/orders" (Some (Go.bytes_of_string "{}")) "" ∅)
              (Go.bytes_of_string "secret") ltac:(vm_compute; reflexivity))
    as (res & Hres & _).
  exists res. split; [exact Hres|].
  destruct (hmac_sign_result_shape _ _ _ _ Hres) as (Hdom & Hq & _ & Hts & Hclock & _).
  split; [exact Hdom|]. split; [exact Hq|].
  rewrite Hts, (Hclock eq_refl). vm_compute. reflexivity.
Defined.

(** X3. The pre-hash has no delimiters, so requests that differ only in where
    the boundary between method and path, or between path and body, falls
    are signed alike: moving characters from the end of the method to the
    start of the path, or from the end of the path to the start of a body,
    leaves the whole result of Sign unchanged. *)
Theorem hmac_sign_field_boundaries_not_signed s now method x path body (text : string)
        timestamp headers :
  HMACSigner_Sign s now (SignRequest.mk (method +:+ x) path body timestamp headers)
  = HMACSigner_Sign s now (SignRequest.mk method (x +:+ path) body timestamp headers)
  /\ HMACSigner_Sign s now
       (SignRequest.mk method (path +:+ x) (Some (Go.bytes_of_string text)) timestamp headers)
     = HMACSigner_Sign s now
         (SignRequest.mk method path (Some (Go.bytes_of_string (x +:+ text))) timestamp headers).
Proof.
  unfold HMACSigner_Sign, prehash, Go.string_of_slice, Go.bytes_of_string.
  cbn [SignRequest.Timestamp SignRequest.Method SignRequest.Path SignRequest.Body].
  rewrite !string_of_list_byte_of_string.
  split.
  - now rewrite !append_assoc.
  - now rewrite !append_assoc.
Qed.

(** X4. The signature depends on the configuration through the secret only,
    and on the request through the pre-hash only: two signers with one secret
    give one CB-ACCESS-SIGN value to requests with one pre-hash, whatever
    their API keys, passphrases and request headers. *)
Theorem hmac_signature_depends_on_secret_and_prehash s1 s2 now1 now2 req1 req2 res1 res2 :
  Secret (config s1) = Secret (config s2) ->
  prehash (effective_timestamp now1 req1) req1 = prehash (effective_timestamp now2 req2) req2 ->
  HMACSigner_Sign s1 now1 req1 = Ok res1 ->
  HMACSigner_Sign s2 now2 req2 = Ok res2 ->
  SignResult.Headers res1 !! "CB-ACCESS-SIGN" = SignResult.Headers res2 !! "CB-ACCESS-SIGN".
Proof.
  intros Hsecret Hpre H1 H2.
  destruct (hmac_sign_result_shape_aux s1 now1 req1 res1 H1) as (k1 & Hk1 & Hs1).
  destruct (hmac_sign_result_shape_aux s2 now2 req2 res2 H2) as (k2 & Hk2 & Hs2).
  rewrite Hsecret, Hk2 in Hk1. injection Hk1 as <-.
  now rewrite Hs1, Hs2, Hpre.
Qed.

Lemma hmac_signature_depends_on_secret_and_prehash_witness :
  exists res1 res2,
    HMACSigner_Sign (mkHMACSigner (mkHMACConfig "key-a" "c2VjcmV0" "pass-a")) (Go.mkTime 5 0)
      (SignRequest.mk "GET" "/orders" None "1234567890" ∅) = Ok res1
    /\ HMACSigner_Sign (mkHMACSigner (mkHMACConfig "key-b" "c2VjcmV0" "pass-b"))
         (Go.mkTime 1234567890 0)
         (SignRequest.mk "GET" "/ord" (Some (Go.bytes_of_string "ers")) ""
            {["X-Trace" := ["1"]]}) = Ok res2
    /\ SignResult.Headers res1 !! "CB-ACCESS-SIGN" = SignResult.Headers res2 !! "CB-ACCESS-SIGN".
Proof.
  destruct (HMACSigner_Sign_ok (mkHMACSigner (mkHMACConfig "key-a" "c2VjcmV0" "pass-a"))
              (Go.mkTime 5 0) (SignRequest.mk "GET" "/orders" None "1234567890" ∅)
              (Go.bytes_of_string "secret") ltac:(vm_compute; reflexivity))
    as (res1 & Hres1 & _).
  destruct (HMACSigner_Sign_ok (mkHMACSigner (mkHMACConfig "key-b" "c2VjcmV0" "pass-b"))
              (Go.mkTime 1234567890 0)
              (SignRequest.mk "GET" "/ord" (Some (Go.bytes_of_string "ers")) ""
                 {["X-Trace" := ["1"]]})
              (Go.bytes_of_string "secret") ltac:(vm_compute; reflexivity))
    as (res2 & Hres2 & _).
  exists res1, res2. split; [exact Hres1|]. split; [exact Hres2|].
  refine (hmac_signature_depends_on_secret_and_prehash _ _ _ _ _ _ _ _ _ _ Hres1 Hres2);
    [reflexivity|vm_compute; reflexivity].
Defined.

End SignerProperties.

(** ** The default MPC signing function *)

Lemma sha256_block_length h p : length h = 8%nat -> length (SHA256.block h p) = 8%nat.
Proof.
  intros Hh. unfold SHA256.block.
  destruct (fold_left SHA256.round _ _) as [a b c d e f g hh].
  rewrite !length_map, length_combine, Hh. reflexivity.
Qed.

Lemma sha256_blocks_length n :
  forall h p, length h = 8%nat -> length (SHA256.blocks n h p) = 8%nat.
Proof.
  induction n as [|n IH]; intros h p Hh; cbn [SHA256.blocks]; [exact Hh|].
  apply IH. now apply sha256_block_length.
Qed.

Lemma flat_map_length_const {A B : Type} (f : A -> list B) (k : nat) (l : list A) :
  (forall x, length (f x) = k) -> length (flat_map f l) = (k * length l)%nat.
Proof.
  intros Hf. induction l as [|x l IH]; cbn [flat_map length]; [lia|].
  rewrite length_app, Hf, IH. lia.
Qed.

(** A SHA-256 digest has 32 bytes. *)
Lemma sha256_sum_length msg : length (SHA256.Sum256 msg) = 32%nat.
Proof.
  unfold SHA256.Sum256.
  rewrite (flat_map_length_const (SHA256.be_bytes 4) 4).
  - rewrite sha256_blocks_length; reflexivity.
  - intros x. unfold SHA256.be_bytes. now rewrite length_map, length_rev, length_seq.
Qed.

Lemma byte_to_Z_range b : 0 <= Go.byte_to_Z b < 256.
Proof.
  unfold Go.byte_to_Z. pose proof (Byte.to_N_bounded b). lia.
Qed.

Lemma hex_digit_is_hex v :
  0 <= v < 16 -> is_hex_digit (ascii_of_N (Z.to_N (Hex.digit v))) = true.
Proof.
  intros Hv.
  assert (H : v = 0 \/ v = 1 \/ v = 2 \/ v = 3 \/ v = 4 \/ v = 5 \/ v = 6 \/ v = 7
              \/ v = 8 \/ v = 9 \/ v = 10 \/ v = 11 \/ v = 12 \/ v = 13 \/ v = 14 \/ v = 15)
    by lia.
  repeat (destruct H as [->|H]; [reflexivity|]). subst v. reflexivity.
Qed.

Lemma string_of_codes_length l : String.length (Go.string_of_codes l) = length l.
Proof.
  unfold Go.string_of_codes. induction l as [|z l IH]; cbn; [reflexivity|]. now rewrite IH.
Qed.

Lemma hex_EncodeToString_spec (src : list byte) :
  String.length (Hex.EncodeToString src) = (2 * length src)%nat
  /\ forallb is_hex_digit (list_ascii_of_string (Hex.EncodeToString src)) = true.
Proof.
  unfold Hex.EncodeToString, Hex.Encode. split.
  - rewrite string_of_codes_length.
    rewrite (flat_map_length_const _ 2); [now rewrite length_map|reflexivity].
  - unfold Go.string_of_codes. rewrite list_ascii_of_string_of_list_ascii.
    induction src as [|b src IH]; [reflexivity|].
    cbn [map flat_map app forallb]. rewrite IH.
    pose proof (byte_to_Z_range b) as Hb.
    rewrite !hex_digit_is_hex; [reflexivity| |].
    + change 15 with (Z.ones 4). rewrite Z.land_ones by lia.
      apply Z.mod_pos_bound. lia.
    + rewrite Z.shiftr_div_pow2 by lia. change (2 ^ 4) with 16.
      split; [apply Z.div_pos; lia|apply Z.div_lt_upper_bound; lia].
Qed.

Section DefaultSigner.
Import Auth.
Context {Ctx W : Type}.

(** X5. An MPC signer built on DefaultMPCSignerFunc never fails to sign and
    leaves the caller's state alone; its X-SIGNATURE is 64 lower-case
    hexadecimal digits, the SHA-256 digest of timestamp + method + path +
    body. *)
Theorem mpc_sign_with_default_func apiKey now (ctx : Ctx) req (w : W) :
  exists res signature,
    MPCSigner_Sign (mkMPCSigner apiKey DefaultMPCSignerFunc) now ctx req w = (Ok res, w)
    /\ SignResult.Headers res !! "X-SIGNATURE" = Some signature
    /\ String.length signature = 64%nat
    /\ forallb is_hex_digit (list_ascii_of_string signature) = true
    /\ (SignRequest.Timestamp req <> "" ->
        signature
        = Hex.EncodeToString
            (map Go.byte_of_Z
               (SHA256.Sum256
                  (map Go.byte_to_Z
                     (Go.bytes_of_string
                        (SignRequest.Timestamp req +:+ SignRequest.Method req
                           +:+ SignRequest.Path req
                           +:+ Go.string_of_slice (SignRequest.Body req))))))).
Proof.
  unfold MPCSigner_Sign, DefaultMPCSignerFunc, message.
  cbn [signer_SignerFunc signer_APIKey].
  eexists. eexists. split; [reflexivity|].
  cbn [SignResult.Headers].
  split; [simplify_map_eq; reflexivity|].
  match goal with
  | |- context [Hex.EncodeToString ?src] =>
      destruct (hex_EncodeToString_spec src) as [Hlen Hhex]
  end.
  split.
  { rewrite Hlen, length_map, sha256_sum_length. reflexivity. }
  split; [exact Hhex|].
  intros Hts. now destruct (String.eqb_spec (SignRequest.Timestamp req) "").
Qed.

(** X6. MPC Sign returns what the external function returns: its error,
    wrapped, with no result; or exactly the three X- headers, with the
    signature it gave, the timestamp the message starts with (the caller's,
    else the clock's Unix milliseconds in decimal) and the API key, which is
    not part of the message. *)
Theorem mpc_sign_outcome (f : @SignerFunc Ctx W) apiKey now ctx req w :
  let timestamp :=
    if String.eqb (SignRequest.Timestamp req) ""
    then Go.FormatInt (Go.unix_sec now * 1000 + Z.quot (Go.nanosecond now) 1000000)
    else SignRequest.Timestamp req in
  let msg :=
    Go.bytes_of_string
      (timestamp +:+ SignRequest.Method req +:+ SignRequest.Path req
         +:+ Go.string_of_slice (SignRequest.Body req)) in
  (forall err w',
      f ctx msg w = (Err err, w') ->
      MPCSigner_Sign (mkMPCSigner apiKey f) now ctx req w
      = (Err (Go.Errorf "MPC signing failed: %w" [Go.AErr err]), w'))
  /\ (forall signature w',
        f ctx msg w = (Ok signature, w') ->
        exists res,
          MPCSigner_Sign (mkMPCSigner apiKey f) now ctx req w = (Ok res, w')
          /\ dom (SignResult.Headers res)
             = ({["X-API-KEY"; "X-TIMESTAMP"; "X-SIGNATURE"]} : gset string)
          /\ SignResult.Headers res !! "X-SIGNATURE" = Some signature
          /\ SignResult.Headers res !! "X-TIMESTAMP" = Some timestamp
          /\ SignResult.Headers res !! "X-API-KEY" = Some apiKey
          /\ SignResult.QueryParams res = ∅).
Proof.
  intros timestamp msg.
  unfold MPCSigner_Sign, message. cbn [signer_SignerFunc signer_APIKey].
  change (Go.Time_UnixMilli now)
    with (Go.unix_sec now * 1000 + Z.quot (Go.nanosecond now) 1000000).
  fold timestamp. fold msg. split.
  - intros err w' Hf. rewrite Hf. reflexivity.
  - intros signature w' Hf. rewrite Hf. eexists. split; [reflexivity|].
    cbn [SignResult.Headers SignResult.QueryParams].
    split; [rewrite !dom_insert_L, dom_empty_L; set_solver|].
    repeat split; simplify_map_eq; reflexivity.
Qed.

End DefaultSigner.

(** ** Decimals and numeric timestamps *)

Section DecimalProperties.
Import Normalizer.
Variable strconv_ParseFloat : string -> result Go.error float.

(** X7. Whatever strconv.ParseFloat returns, a decimal ParseDecimal accepts
    is finite: never NaN, never an infinity.  Input that trims to nothing or
    to null is 0.  ParseDecimalOrZero agrees with ParseDecimal where that
    succeeds, is 0 where it fails, and so is finite on every input. *)
Theorem ParseDecimal_is_finite (s : string) :
  (forall f, ParseDecimal strconv_ParseFloat s = Ok f ->
             PrimFloat.is_nan f = false /\ PrimFloat.is_infinity f = false)
  /\ (Go.TrimSpace s = "" \/ Go.TrimSpace s = "null" ->
      ParseDecimal strconv_ParseFloat s = Ok 0%float)
  /\ (forall f, ParseDecimal strconv_ParseFloat s = Ok f ->
                ParseDecimalOrZero strconv_ParseFloat s = f)
  /\ (is_ok (ParseDecimal strconv_ParseFloat s) = false ->
      ParseDecimalOrZero strconv_ParseFloat s = 0%float)
  /\ PrimFloat.is_nan (ParseDecimalOrZero strconv_ParseFloat s) = false
  /\ PrimFloat.is_infinity (ParseDecimalOrZero strconv_ParseFloat s) = false.
Proof.
  assert (Hfin : forall f, ParseDecimal strconv_ParseFloat s = Ok f ->
                           PrimFloat.is_nan f = false /\ PrimFloat.is_infinity f = false).
  { intros f. unfold ParseDecimal.
    destruct (String.eqb (Go.TrimSpace s) "" || String.eqb (Go.TrimSpace s) "null").
    - intros [= <-]. split; reflexivity.
    - destruct (strconv_ParseFloat (Go.TrimSpace s)) as [g|e]; [|discriminate].
      destruct (PrimFloat.is_nan g) eqn:Hnan; [discriminate|].
      destruct (PrimFloat.is_infinity g) eqn:Hinf; [discriminate|].
      intros [= <-]. split; assumption. }
  split; [exact Hfin|]. split.
  { intros Ht. unfold ParseDecimal. destruct Ht as [-> | ->]; reflexivity. }
  unfold ParseDecimalOrZero.
  destruct (ParseDecimal strconv_ParseFloat s) as [f|e] eqn:Hp.
  - destruct (Hfin f eq_refl) as [Hnan Hinf].
    repeat split; try assumption; try discriminate. now intros g [= <-].
  - repeat split; try reflexivity. discriminate.
Qed.

End DecimalProperties.

Lemma digits_value_nonneg (l : list ascii) :
  forallb Go.is_digit l = true -> 0 <= digits_value l.
Proof.
  intros Hall. destruct (parse_digits_total l Hall 0 ltac:(lia)) as (v & Hv & Hge).
  rewrite (parse_digits_value l Hall 0) in Hv. injection Hv as Hv.
  unfold digits_value. lia.
Qed.

(** strconv.ParseInt on a numeric string: its value when that fits an int64,
    a range error otherwise, never a syntax error. *)
Lemma ParseInt_numeric (t : string) :
  Normalizer.isNumeric t = true ->
  Go.ParseInt t
  = if (- 2 ^ 63 <=? numeric_value t) && (numeric_value t <? 2 ^ 63)
    then Ok (numeric_value t) else Err Go.ErrRange.
Proof.
  destruct t as [|c0 rest]; [discriminate|].
  unfold Normalizer.isNumeric, numeric_value, Go.ParseInt.
  destruct (Ascii.eqb_spec c0 "-") as [->|Hminus].
  - cbn [Ascii.eqb Bool.eqb orb andb negb].
    destruct (forallb Go.is_digit (list_ascii_of_string rest)) eqn:Hdig; [|discriminate].
    intros Hlen.
    assert (Hne : list_ascii_of_string rest <> []) by (destruct rest; discriminate).
    pose proof (digits_value_nonneg _ Hdig) as Hge.
    unfold Go.ParseUint.
    destruct (list_ascii_of_string rest) as [|d l] eqn:Hl; [contradiction|].
    rewrite (parse_digits_value (d :: l) Hdig 0). fold (digits_value (d :: l)).
    set (v := digits_value (d :: l)) in *.
    destruct (Z.ltb_spec v (2 ^ 64)); destruct (Z.ltb_spec (2 ^ 63) v);
      destruct (Z.leb_spec (- 2 ^ 63) (- v)); destruct (Z.ltb_spec (- v) (2 ^ 63));
      cbn [andb]; try lia; reflexivity.
  - destruct (forallb Go.is_digit (list_ascii_of_string (String c0 rest))) eqn:Hdig;
      [|discriminate].
    intros _.
    assert (Hplus : Ascii.eqb c0 "+" = false).
    { destruct (Ascii.eqb_spec c0 "+") as [->|]; [discriminate Hdig|reflexivity]. }
    rewrite Hplus. cbn [orb negb andb].
    pose proof (digits_value_nonneg _ Hdig) as Hge.
    unfold Go.ParseUint.
    change (list_ascii_of_string (String c0 rest)) with (c0 :: list_ascii_of_string rest) in *.
    cbv beta iota.
    rewrite (parse_digits_value _ Hdig 0). fold (digits_value (c0 :: list_ascii_of_string rest)).
    set (v := digits_value (c0 :: list_ascii_of_string rest)) in *.
    destruct (Z.ltb_spec v (2 ^ 64)); destruct (Z.leb_spec (2 ^ 63) v);
      destruct (Z.leb_spec (- 2 ^ 63) v); destruct (Z.ltb_spec v (2 ^ 63));
      cbn [andb]; try lia; reflexivity.
Qed.

Section NumericTimestamps.
Import Normalizer.
Variable time_Parse : string -> string -> result Go.error Go.Time.

(** X8. On numeric input of value [v] (the trimmed input is digits after an
    optional minus sign), ParseTimestamp succeeds exactly when
    -2^63 <= v < 1e17.  The timestamp returned then loses nothing: its
    nanosecond field is within [0, 1e9) and seconds * 1e9 + nanoseconds is
    [v] seconds, milliseconds or microseconds according to its magnitude. *)
Theorem parse_timestamp_numeric_exact (s : string) :
  isNumeric (Go.TrimSpace s) = true ->
  let v := numeric_value (Go.TrimSpace s) in
  (- 2 ^ 63 <= v < 10 ^ 17 ->
   exists ts,
     ParseTimestamp time_Parse s = Ok (Some ts)
     /\ 0 <= Nanos ts < 10 ^ 9
     /\ Seconds ts * 10 ^ 9 + Nanos ts = v * timestamp_unit v)
  /\ (v < - 2 ^ 63 \/ 10 ^ 17 <= v -> is_ok (ParseTimestamp time_Parse s) = false).
Proof.
  intros Hnum v.
  rewrite (ParseTimestamp_numeric time_Parse s Hnum).
  pose proof (ParseInt_numeric _ Hnum) as HI. fold v in HI.
  change (2 ^ 63) with 9223372036854775808 in *.
  change (10 ^ 17) with 100000000000000000.
  split.
  - intros Hr.
    assert (Hb : (Z.opp 9223372036854775808 <=? v) && (v <? 9223372036854775808) = true).
    { apply andb_true_intro. split; [apply Z.leb_le|apply Z.ltb_lt]; lia. }
    rewrite Hb in HI.
    destruct (parseUnixTimestamp_value (Go.TrimSpace s) v HI) as (Hs & Hms & Hus & _).
    change (10 ^ 11) with 100000000000 in *. change (10 ^ 14) with 100000000000000 in *.
    change (10 ^ 17) with 100000000000000000 in *.
    unfold timestamp_unit.
    change (10 ^ 11) with 100000000000. change (10 ^ 14) with 100000000000000.
    change (10 ^ 9) with 1000000000. change (10 ^ 6) with 1000000. change (10 ^ 3) with 1000.
    destruct (Z.ltb_spec v 100000000000).
    + eexists. split; [apply Hs; lia|]. cbn [Seconds Nanos]. lia.
    + destruct (Z.ltb_spec v 100000000000000).
      * eexists. split; [apply Hms; lia|]. cbn [Seconds Nanos].
        pose proof (Z.mod_pos_bound v 1000 ltac:(lia)).
        pose proof (Z.div_mod v 1000 ltac:(lia)). lia.
      * eexists. split; [apply Hus; lia|]. cbn [Seconds Nanos].
        pose proof (Z.mod_pos_bound v 1000000 ltac:(lia)).
        pose proof (Z.div_mod v 1000000 ltac:(lia)). lia.
  - intros Hr. unfold parseUnixTimestamp. rewrite HI.
    destruct ((Z.opp 9223372036854775808 <=? v) && (v <? 9223372036854775808)) eqn:Hb;
      [|reflexivity].
    apply andb_prop in Hb as [Hlo Hhi]. apply Z.leb_le in Hlo. apply Z.ltb_lt in Hhi.
    destruct (Z.ltb_spec v 100000000000); [lia|].
    destruct (Z.ltb_spec v 100000000000000); [lia|].
    destruct (Z.ltb_spec v 100000000000000000); [lia|]. reflexivity.
Qed.

End NumericTimestamps.

Lemma parse_timestamp_numeric_exact_witness :
  exists ts,
    Normalizer.ParseTimestamp example_time_Parse " 1700000000123 " = Ok (Some ts)
    /\ 0 <= Normalizer.Nanos ts < 10 ^ 9
    /\ Normalizer.Seconds ts * 10 ^ 9 + Normalizer.Nanos ts = 1700000000123 * 10 ^ 6.
Proof.
  pose proof (parse_timestamp_numeric_exact example_time_Parse " 1700000000123 "
                ltac:(vm_compute; reflexivity)) as H.
  cbv zeta in H. destruct H as (H & _).
  destruct H as (ts & Hts & Hn & Hv); [split; now vm_compute|].
  exists ts. split; [exact Hts|]. split; [exact Hn|].
  rewrite Hv. vm_compute. reflexivity.
Defined.

(** ** The error taxonomy *)

(** Splits a conjunction of equivalences and equations about a classified
    error and closes the parts that follow from the status code alone. *)
Ltac taxonomy_goal :=
  repeat match goal with
         | |- _ /\ _ => split
         | |- _ <-> _ => split
         end;
  try reflexivity;
  try (eexists; split; [reflexivity|cbn; tauto]);
  try (intros _; tauto);
  try (let H := fresh in
       intros H; try discriminate H;
       repeat (destruct H as [H|H]);
       try (match type of H with _ /\ _ => destruct H as [H ?] end);
       try discriminate H; try lia; try reflexivity).

Section Taxonomy.
Variable cb_Unmarshal : list byte -> result Go.error Coinbase.CoinbaseError.
Variable prime_Unmarshal : list byte -> result Go.error Prime.PrimeError.
Variable json_Marshal : gmap string Go.iface -> result Go.error string.


Lemma prime_NormalizeError_decoded statusCode body primeErr :
  body <> [] -> prime_Unmarshal body = Ok primeErr ->
  Prime.NormalizeError prime_Unmarshal json_Marshal statusCode body
  = Prime.classifyError statusCode (Prime.formatErrorMessage json_Marshal primeErr) primeErr.
Proof.
  clear cb_Unmarshal.
  intros Hne Hdec. unfold Prime.NormalizeError.
  destruct body; [contradiction|]. cbn [length Nat.eqb]. now rewrite Hdec.
Qed.


(** X10. The Prime taxonomy, for a body that decodes, through the package's
    predicates.  IsPermanent holds exactly for status 401, 403 and 404 and
    for a 400 whose code is a client error code; IsRateLimit holds exactly
    for 429; IsTemporary holds exactly when IsPermanent does not, rate-limit
    errors included.  The error wraps the formatted message with the status
    code and carries the decoded code. *)
Theorem prime_taxonomy (statusCode : Z) (body : list byte) (primeErr : Prime.PrimeError) :
  body <> [] -> prime_Unmarshal body = Ok primeErr ->
  let err := Prime.NormalizeError prime_Unmarshal json_Marshal statusCode body in
  (Prime.IsPermanent err = true
   <-> statusCode = 401 \/ statusCode = 403 \/ statusCode = 404
       \/ (statusCode = 400 /\ In (Prime.Code primeErr) prime_client_codes))
  /\ (Prime.IsRateLimit err = true <-> statusCode = 429)
  /\ Prime.IsTemporary err = negb (Prime.IsPermanent err)
  /\ prime_wrapped err
     = Some (base_error (Prime.formatErrorMessage json_Marshal primeErr) statusCode,
             Prime.Code primeErr).
Proof.
  clear cb_Unmarshal.
  intros Hne Hdec err. subst err.
  rewrite (prime_NormalizeError_decoded statusCode body primeErr Hne Hdec).
  unfold Prime.classifyError.
  fold (base_error (Prime.formatErrorMessage json_Marshal primeErr) statusCode).
  pose proof (prime_isClientError_spec primeErr) as Hkw.
  destruct (Z.eqb_spec statusCode 401) as [->|H401]; [cbn; taxonomy_goal|].
  destruct (Z.eqb_spec statusCode 403) as [->|H403]; [cbn; taxonomy_goal|].
  destruct (Z.eqb_spec statusCode 429) as [->|H429]; [cbn; taxonomy_goal|].
  destruct (Z.eqb_spec statusCode 400) as [->|H400].
  { cbn [orb]. destruct (Prime.isClientError primeErr) eqn:Hc; cbn; taxonomy_goal.
    apply Hkw. assumption. }
  destruct (Z.eqb_spec statusCode 404) as [->|H404]; [cbn; taxonomy_goal|].
  cbn [orb].
  destruct ((statusCode =? 500) || (statusCode =? 503) || (statusCode =? 502)); cbn;
    taxonomy_goal.
Qed.

(** X11. An error response whose body is empty or does not decode is outside
    the taxonomy, whatever the status: none of IsTemporary, IsPermanent and
    IsRateLimit holds of the Prime error, and the Coinbase error is of none
    of the three classified types, even for status 429 or 503. *)
Theorem unclassified_errors_have_no_kind (statusCode : Z) (body : list byte) :
  body = []
  \/ (is_ok (cb_Unmarshal body) = false /\ is_ok (prime_Unmarshal body) = false) ->
  let cb := Coinbase.NormalizeError cb_Unmarshal statusCode body in
  let pr := Prime.NormalizeError prime_Unmarshal json_Marshal statusCode body in
  Prime.IsTemporary pr = false /\ Prime.IsPermanent pr = false /\ Prime.IsRateLimit pr = false
  /\ coinbase_is_temporary cb = false /\ coinbase_is_permanent cb = false
  /\ coinbase_is_rate_limit cb = false
  /\ coinbase_wrapped cb = None /\ prime_wrapped pr = None.
Proof.
  intros H cb pr. subst cb pr. unfold Coinbase.NormalizeError, Prime.NormalizeError.
  destruct H as [->|[Hc Hp]].
  - cbn. repeat split; reflexivity.
  - destruct (length body =? 0)%nat; [cbn; repeat split; reflexivity|].
    destruct (cb_Unmarshal body); [discriminate|].
    destruct (prime_Unmarshal body); [discriminate|].
    cbn. repeat split; reflexivity.
Qed.

End Taxonomy.


Lemma prime_taxonomy_witness :
  Prime.IsPermanent
    (Prime.NormalizeError (fixture_Unmarshal prime_error_fixtures) no_Marshal 400
       (json_bytes "{'message': 'Invalid order', 'code': 'INVALID_ORDER'}")) = true
  /\ Prime.IsTemporary
       (Prime.NormalizeError (fixture_Unmarshal prime_error_fixtures) no_Marshal 400
          (json_bytes "{'message': 'Invalid order', 'code': 'INVALID_ORDER'}")) = false.
Proof.
  pose proof (prime_taxonomy (fixture_Unmarshal prime_error_fixtures) no_Marshal 400
                (json_bytes "{'message': 'Invalid order', 'code': 'INVALID_ORDER'}")
                (Prime.mkPrimeError "Invalid order" "INVALID_ORDER" ∅ 0)
                ltac:(discriminate) ltac:(vm_compute; reflexivity)) as H.
  cbv zeta in H. destruct H as (Hperm & _ & Htemp & _).
  assert (Hp : Prime.IsPermanent
                 (Prime.NormalizeError (fixture_Unmarshal prime_error_fixtures) no_Marshal 400
                    (json_bytes "{'message': 'Invalid order', 'code': 'INVALID_ORDER'}")) = true).
  { apply Hperm. right; right; right. split; [reflexivity|]. cbn. tauto. }
  split; [exact Hp|]. rewrite Htemp, Hp. reflexivity.
Defined.

Lemma unclassified_errors_have_no_kind_witness :
  Prime.IsTemporary
    (Prime.NormalizeError (fixture_Unmarshal prime_error_fixtures) no_Marshal 503
       (Go.bytes_of_string "{invalid json")) = false
  /\ coinbase_is_rate_limit
       (Coinbase.NormalizeError (fixture_Unmarshal coinbase_error_fixtures) 429
          (Go.bytes_of_string "{invalid json")) = false.
Proof.
  split.
  - pose proof (unclassified_errors_have_no_kind (fixture_Unmarshal coinbase_error_fixtures)
                  (fixture_Unmarshal prime_error_fixtures) no_Marshal 503
                  (Go.bytes_of_string "{invalid json")
                  ltac:(right; split; vm_compute; reflexivity)) as H.
    cbv zeta in H. apply H.
  - pose proof (unclassified_errors_have_no_kind (fixture_Unmarshal coinbase_error_fixtures)
                  (fixture_Unmarshal prime_error_fixtures) no_Marshal 429
                  (Go.bytes_of_string "{invalid json")
                  ltac:(right; split; vm_compute; reflexivity)) as H.
    cbv zeta in H. apply H.
Defined.

(** ** The case-insensitive search of the Coinbase package *)

Lemma toLower_cons c s :
  Coinbase.toLower (String c s) = String (lower_char c) (Coinbase.toLower s).
Proof. reflexivity. Qed.

Lemma toLower_append a b :
  Coinbase.toLower (a +:+ b) = Coinbase.toLower a +:+ Coinbase.toLower b.
Proof.
  induction a as [|c a IH]; [reflexivity|].
  change (String c a +:+ b) with (String c (a +:+ b)).
  rewrite !toLower_cons, IH. reflexivity.
Qed.

Lemma code_range c : 0 <= Go.code c < 256.
Proof.
  unfold Go.code. pose proof (N_ascii_bounded c). lia.
Qed.

Lemma code_ascii_of z : 0 <= z < 256 -> Go.code (ascii_of_N (Z.to_N z)) = z.
Proof.
  intros Hz. unfold Go.code. rewrite N_ascii_embedding by lia. lia.
Qed.

Lemma lower_char_idem c : lower_char (lower_char c) = lower_char c.
Proof.
  unfold lower_char. pose proof (code_range c) as Hc.
  destruct (Z.leb_spec 65 (Go.code c)); destruct (Z.leb_spec (Go.code c) 90); cbn [andb].
  - rewrite code_ascii_of by lia.
    destruct (Z.leb_spec 65 (Go.code c + 32)); destruct (Z.leb_spec (Go.code c + 32) 90);
      cbn [andb]; try lia; reflexivity.
  - rewrite code_ascii_of by lia.
    destruct (Z.leb_spec 65 (Go.code c)); destruct (Z.leb_spec (Go.code c) 90);
      cbn [andb]; try lia; reflexivity.
  - rewrite code_ascii_of by lia.
    destruct (Z.leb_spec 65 (Go.code c)); destruct (Z.leb_spec (Go.code c) 90);
      cbn [andb]; try lia; reflexivity.
  - rewrite code_ascii_of by lia.
    destruct (Z.leb_spec 65 (Go.code c)); destruct (Z.leb_spec (Go.code c) 90);
      cbn [andb]; try lia; reflexivity.
Qed.

Lemma toLower_idem s : Coinbase.toLower (Coinbase.toLower s) = Coinbase.toLower s.
Proof.
  induction s as [|c s IH]; [reflexivity|].
  rewrite !toLower_cons, lower_char_idem, IH. reflexivity.
Qed.

Lemma toLower_length s : String.length (Coinbase.toLower s) = String.length s.
Proof.
  induction s as [|c s IH]; [reflexivity|]. rewrite toLower_cons. cbn. now rewrite IH.
Qed.

Lemma append_nil_r (s : string) : s +:+ "" = s.
Proof.
  induction s as [|c s IH]; [reflexivity|].
  change (String c (s +:+ "") = String c s). now rewrite IH.
Qed.

(** X12. The search helper of the Coinbase package.  toLower keeps the length
    and is idempotent; contains takes no account of ASCII letter case on
    either side, finds the empty string and every string in itself, and a
    match in a string is a match in every string around it. *)
Theorem contains_case_insensitive_search (s substr : string) :
  String.length (Coinbase.toLower s) = String.length s
  /\ Coinbase.toLower (Coinbase.toLower s) = Coinbase.toLower s
  /\ Coinbase.contains (Coinbase.toLower s) substr = Coinbase.contains s substr
  /\ Coinbase.contains s (Coinbase.toLower substr) = Coinbase.contains s substr
  /\ Coinbase.contains s "" = true
  /\ Coinbase.contains s s = true
  /\ (forall pre post,
        Coinbase.contains s substr = true ->
        Coinbase.contains (pre +:+ s +:+ post) substr = true)
  /\ (Coinbase.contains s substr = true -> (String.length substr <= String.length s)%nat).
Proof.
  split; [apply toLower_length|]. split; [apply toLower_idem|].
  split.
  { apply Bool.eq_iff_eq_true. rewrite !contains_spec, toLower_idem. reflexivity. }
  split.
  { apply Bool.eq_iff_eq_true. rewrite !contains_spec, toLower_idem. reflexivity. }
  split.
  { apply contains_spec. exists "", (Coinbase.toLower s). reflexivity. }
  split.
  { apply contains_spec. exists "", "". rewrite append_nil_r. reflexivity. }
  split.
  { intros pre post Hc. apply contains_spec in Hc as (a & b & Heq).
    apply contains_spec.
    exists (Coinbase.toLower pre +:+ a), (b +:+ Coinbase.toLower post).
    rewrite !toLower_append, Heq, !append_assoc. reflexivity. }
  intros Hc. apply contains_spec in Hc as (a & b & Heq).
  apply (f_equal String.length) in Heq.
  rewrite !length_append, !toLower_length in Heq. lia.
Qed.

(** X13. A client keyword in any of the three fields the Coinbase search
    reads makes isClientError hold.  The converse fails: the fields are joined
    by single spaces before the search, so a keyword with a space in it is
    found across two fields that do not hold it on their own. *)
Theorem coinbase_keyword_in_any_field :
  (forall cbErr kw,
      In kw Coinbase.clientErrors ->
      Coinbase.contains (Coinbase.Error cbErr) kw = true
      \/ Coinbase.contains (Coinbase.Message cbErr) kw = true
      \/ Coinbase.contains (Coinbase.ErrorDetails cbErr) kw = true ->
      Coinbase.isClientError cbErr = true)
  /\ (let cbErr := Coinbase.mkCoinbaseError "too" "small" "" "" "" "" in
      Coinbase.isClientError cbErr = true
      /\ forallb (fun kw =>
                    negb (Coinbase.contains (Coinbase.Error cbErr) kw)
                    && negb (Coinbase.contains (Coinbase.Message cbErr) kw)
                    && negb (Coinbase.contains (Coinbase.ErrorDetails cbErr) kw))
                 Coinbase.clientErrors = true).
Proof.
  split.
  - intros cbErr kw Hin H. unfold Coinbase.isClientError.
    apply existsb_exists. exists kw. split; [exact Hin|].
    destruct (contains_case_insensitive_search (Coinbase.Error cbErr) kw)
      as (_ & _ & _ & _ & _ & _ & He & _).
    destruct (contains_case_insensitive_search (Coinbase.Message cbErr) kw)
      as (_ & _ & _ & _ & _ & _ & Hm & _).
    destruct (contains_case_insensitive_search (Coinbase.ErrorDetails cbErr) kw)
      as (_ & _ & _ & _ & _ & _ & Hd & _).
    destruct H as [H|[H|H]].
    + specialize (He "" (" " +:+ Coinbase.Message cbErr +:+ " " +:+ Coinbase.ErrorDetails cbErr) H).
      exact He.
    + specialize (Hm (Coinbase.Error cbErr +:+ " ") (" " +:+ Coinbase.ErrorDetails cbErr) H).
      rewrite append_assoc in Hm. exact Hm.
    + specialize (Hd (Coinbase.Error cbErr +:+ " " +:+ Coinbase.Message cbErr +:+ " ") "" H).
      rewrite append_nil_r, !append_assoc in Hd. exact Hd.
  - split; vm_compute; reflexivity.
Qed.

(** ** Level parsers: positions and errors *)

Section LevelPositions.
Import Normalizer.
Variable strconv_ParseFloat : string -> result Go.error float.
Variable Sprintf_f : float -> string.
Variable int32_of_float64 : float -> Z.
Variable float64_of_int : Z -> float.

Abbreviation cb_parse_level :=
  (Coinbase.parse_level strconv_ParseFloat Sprintf_f int32_of_float64).
Abbreviation cb_parse_levels_from :=
  (Coinbase.parse_levels_from strconv_ParseFloat Sprintf_f int32_of_float64).
Abbreviation cb_parseOrderBookLevels :=
  (Coinbase.parseOrderBookLevels strconv_ParseFloat Sprintf_f int32_of_float64).
Abbreviation pr_parse_level := (Prime.parse_level strconv_ParseFloat float64_of_int).
Abbreviation pr_parse_levels_from := (Prime.parse_levels_from strconv_ParseFloat float64_of_int).
Abbreviation pr_parseOrderBookLevels :=
  (Prime.parseOrderBookLevels strconv_ParseFloat float64_of_int).

Lemma coinbase_parse_levels_from_ok (levels : list (list Go.iface)) :
  forall i0 acc out,
    cb_parse_levels_from i0 levels acc = Ok out ->
    exists outs,
      out = acc ++ outs
      /\ length outs = length levels
      /\ forall (k : nat) level,
            levels !! k = Some level ->
            exists obLevel,
              cb_parse_level (i0 + Z.of_nat k) level = Ok obLevel
              /\ outs !! k = Some obLevel.
Proof.
  induction levels as [|level0 rest IH]; intros i0 acc out H; cbn in H.
  - injection H as <-. exists []. rewrite app_nil_r. repeat split. intros k level Hk.
    destruct k; discriminate.
  - destruct (cb_parse_level i0 level0) as [ob0|e] eqn:Hl; [|discriminate].
    destruct (IH _ _ _ H) as (outs & -> & Hlen & Hnth).
    exists (ob0 :: outs). rewrite <- app_assoc. split; [reflexivity|].
    split; [cbn; now rewrite Hlen|].
    intros [|k] level Hk; cbn in Hk.
    + injection Hk as <-. exists ob0. rewrite Z.add_0_r. split; [exact Hl|reflexivity].
    + destruct (Hnth k level Hk) as (ob & Hob & Hout).
      exists ob. split; [|exact Hout].
      replace (i0 + Z.of_nat (S k)) with (i0 + 1 + Z.of_nat k) by lia. exact Hob.
Qed.

Lemma coinbase_parse_levels_from_err (levels : list (list Go.iface)) :
  forall i0 acc e,
    cb_parse_levels_from i0 levels acc = Err e ->
    exists (k : nat) level,
      levels !! k = Some level
      /\ cb_parse_level (i0 + Z.of_nat k) level = Err e
      /\ forall (j : nat) levelj,
            (j < k)%nat -> levels !! j = Some levelj ->
            is_ok (cb_parse_level (i0 + Z.of_nat j) levelj) = true.
Proof.
  induction levels as [|level0 rest IH]; intros i0 acc e H; cbn in H; [discriminate|].
  destruct (cb_parse_level i0 level0) as [ob0|e0] eqn:Hl.
  - destruct (IH _ _ _ H) as (k & level & Hk & Herr & Hbefore).
    exists (S k), level. split; [exact Hk|]. split.
    + replace (i0 + Z.of_nat (S k)) with (i0 + 1 + Z.of_nat k) by lia. exact Herr.
    + intros [|j] levelj Hj Hlj; cbn in Hlj.
      * injection Hlj as <-. rewrite Z.add_0_r, Hl. reflexivity.
      * replace (i0 + Z.of_nat (S j)) with (i0 + 1 + Z.of_nat j) by lia.
        apply Hbefore; [lia|exact Hlj].
  - injection H as <-. exists 0%nat, level0. rewrite Z.add_0_r.
    split; [reflexivity|]. split; [exact Hl|]. intros j levelj Hj. lia.
Qed.

(** X14. The Coinbase level parser converts position by position and drops
    nothing: on success the output has the length of the input and its k-th
    entry is the conversion of the k-th level; on failure the error is that of
    the first level that does not convert, numbered from 0; a nil list gives an
    empty list. *)
Theorem coinbase_levels_by_position (levels : list (list Go.iface)) :
  (forall out,
      cb_parseOrderBookLevels (Some levels) = Ok out ->
      length out = length levels
      /\ forall (k : nat) level,
            levels !! k = Some level ->
            exists obLevel,
              cb_parse_level (Z.of_nat k) level = Ok obLevel /\ out !! k = Some obLevel)
  /\ (forall e,
        cb_parseOrderBookLevels (Some levels) = Err e ->
        exists (k : nat) level,
          levels !! k = Some level
          /\ cb_parse_level (Z.of_nat k) level = Err e
          /\ forall (j : nat) levelj,
                (j < k)%nat -> levels !! j = Some levelj ->
                is_ok (cb_parse_level (Z.of_nat j) levelj) = true)
  /\ cb_parseOrderBookLevels None = Ok [].
Proof.
  unfold Coinbase.parseOrderBookLevels. split; [|split; [|reflexivity]].
  - intros out H. destruct (coinbase_parse_levels_from_ok _ _ _ _ H) as (outs & -> & Hlen & Hnth).
    cbn [app]. split; [exact Hlen|]. intros k level Hk.
    destruct (Hnth k level Hk) as (ob & Hob & Hout). now exists ob.
  - intros e H. destruct (coinbase_parse_levels_from_err _ _ _ _ H) as (k & level & Hk & He & Hb).
    exists k, level. split; [exact Hk|]. split; [exact He|]. exact Hb.
Qed.

Lemma prime_parse_levels_from_err (levels : list (list Go.iface)) :
  forall i0 acc e,
    pr_parse_levels_from i0 levels acc = Err e ->
    exists (k : nat) level,
      levels !! k = Some level
      /\ pr_parse_level (i0 + Z.of_nat k) level = Err e
      /\ forall (j : nat) levelj,
            (j < k)%nat -> levels !! j = Some levelj ->
            is_ok (pr_parse_level (i0 + Z.of_nat j) levelj) = true.
Proof.
  induction levels as [|level0 rest IH]; intros i0 acc e H; cbn in H; [discriminate|].
  destruct (pr_parse_level i0 level0) as [[price size]|e0] eqn:Hl.
  - assert (Hrec : exists acc', pr_parse_levels_from (i0 + 1) rest acc' = Err e).
    { destruct (Prime.is_empty_level price size); eauto. }
    destruct Hrec as (acc' & Hrec).
    destruct (IH _ _ _ Hrec) as (k & level & Hk & Herr & Hbefore).
    exists (S k), level. split; [exact Hk|]. split.
    + replace (i0 + Z.of_nat (S k)) with (i0 + 1 + Z.of_nat k) by lia. exact Herr.
    + intros [|j] levelj Hj Hlj; cbn in Hlj.
      * injection Hlj as <-. rewrite Z.add_0_r, Hl. reflexivity.
      * replace (i0 + Z.of_nat (S j)) with (i0 + 1 + Z.of_nat j) by lia.
        apply Hbefore; [lia|exact Hlj].
  - injection H as <-. exists 0%nat, level0. rewrite Z.add_0_r.
    split; [reflexivity|]. split; [exact Hl|]. intros j levelj Hj. lia.
Qed.

(** X15. The Prime level parser fails exactly when some level has fewer than
    two elements or a price or size that is neither a string nor a number.
    The error is that of the first such level, numbered from 0 by its place in
    the input: levels skipped before it count, and levels skipped or kept
    before it do not hide it. *)
Theorem prime_levels_first_error (levels : list (list Go.iface)) :
  (is_ok (pr_parseOrderBookLevels levels) = false
   <-> exists level,
         In level levels /\ level_values strconv_ParseFloat float64_of_int level = None)
  /\ (forall e,
        pr_parseOrderBookLevels levels = Err e ->
        exists (k : nat) level,
          levels !! k = Some level
          /\ pr_parse_level (Z.of_nat k) level = Err e
          /\ forall (j : nat) levelj,
                (j < k)%nat -> levels !! j = Some levelj ->
                is_ok (pr_parse_level (Z.of_nat j) levelj) = true).
Proof.
  split.
  - unfold Prime.parseOrderBookLevels.
    pose proof (parse_levels_from_spec strconv_ParseFloat float64_of_int levels 0 []) as Hspec.
    destruct (all_values strconv_ParseFloat float64_of_int levels) as [vals|] eqn:Hv.
    + rewrite Hspec. split; [discriminate|]. intros (level & Hin & Hnone). exfalso.
      clear Hspec. revert vals Hv.
      induction levels as [|l0 rest IH]; intros vals Hv; [contradiction|].
      cbn [all_values] in Hv.
      destruct (level_values strconv_ParseFloat float64_of_int l0) eqn:Hl0; [|discriminate].
      destruct (all_values strconv_ParseFloat float64_of_int rest) eqn:Hrest; [|discriminate].
      destruct Hin as [->|Hin]; [congruence|]. exact (IH Hin _ eq_refl).
    + destruct Hspec as [e He]. rewrite He. split; [|reflexivity]. intros _.
      clear He. induction levels as [|l0 rest IH]; [discriminate|].
      cbn [all_values] in Hv.
      destruct (level_values strconv_ParseFloat float64_of_int l0) eqn:Hl0.
      * destruct (all_values strconv_ParseFloat float64_of_int rest) eqn:Hrest; [discriminate|].
        destruct (IH eq_refl) as (level & Hin & Hnone). exists level. split; [now right|exact Hnone].
      * exists l0. split; [now left|exact Hl0].
  - intros e H. unfold Prime.parseOrderBookLevels in H.
    destruct (prime_parse_levels_from_err _ _ _ _ H) as (k & level & Hk & He & Hb).
    exists k, level. split; [exact Hk|]. split; [exact He|]. exact Hb.
Qed.

End LevelPositions.

(** ** Order books: failures, fields and the timestamp *)

Lemma ParseTimestamp_nil_iff time_Parse (s : string) :
  Normalizer.ParseTimestamp time_Parse s = Ok None
  <-> Go.TrimSpace s = "" \/ Go.TrimSpace s = "null".
Proof.
  unfold Normalizer.ParseTimestamp.
  destruct (String.eqb_spec (Go.TrimSpace s) "") as [He|He];
    [split; [now left|reflexivity]|].
  destruct (String.eqb_spec (Go.TrimSpace s) "null") as [Hn|Hn];
    [split; [now right|reflexivity]|].
  cbn [orb]. split; [|intros [H|H]; contradiction].
  intros H. exfalso.
  destruct (Normalizer.isNumeric (Go.TrimSpace s)).
  - unfold Normalizer.parseUnixTimestamp in H.
    destruct (Go.ParseInt (Go.TrimSpace s)) as [n|k]; [|discriminate].
    destruct (n <? 100000000000); [discriminate|].
    destruct (n <? 100000000000000); [discriminate|].
    destruct (n <? 100000000000000000); discriminate.
  - revert H. generalize Normalizer.formats.
    induction l as [|f fs IH]; cbn [Normalizer.try_formats]; [discriminate|].
    destruct (time_Parse f (Go.TrimSpace s)); [discriminate|exact IH].
Qed.

Section OrderBookOutcome.
Import Normalizer.
Variable time_Parse : string -> string -> result Go.error Go.Time.
Variable strconv_ParseFloat : string -> result Go.error float.
Variable Sprintf_f : float -> string.
Variable int32_of_float64 : float -> Z.
Variable float64_of_int : Z -> float.
Variable cb_Unmarshal : list byte -> result Go.error Coinbase.CoinbaseOrderBook.
Variable prime_Unmarshal : list byte -> result Go.error Prime.PrimeOrderBook.

Abbreviation cb_NormalizeOrderBook :=
  (Coinbase.NormalizeOrderBook time_Parse strconv_ParseFloat Sprintf_f int32_of_float64
     cb_Unmarshal).
Abbreviation cb_levels :=
  (Coinbase.parseOrderBookLevels strconv_ParseFloat Sprintf_f int32_of_float64).
Abbreviation pr_NormalizeOrderBook :=
  (Prime.NormalizeOrderBook time_Parse strconv_ParseFloat float64_of_int prime_Unmarshal).
Abbreviation pr_levels := (Prime.parseOrderBookLevels strconv_ParseFloat float64_of_int).

(** X16. Coinbase NormalizeOrderBook fails for an empty response, for one
    that does not decode, and for a malformed level, and for nothing else:
    the time string never fails it.  A malformed bid is reported whatever the
    asks are.  A book returned has the venue coinbase, the product id as its
    symbol, the converted levels in the order of the response and no
    sequence number. *)
Theorem coinbase_order_book_outcome (now : Go.Time) (raw : list byte) :
  (raw = [] -> cb_NormalizeOrderBook now raw = Err (Go.Errorf "empty orderbook response" []))
  /\ (forall err,
        raw <> [] -> cb_Unmarshal raw = Err err ->
        cb_NormalizeOrderBook now raw
        = Err (Go.Errorf "failed to parse coinbase orderbook: %w" [Go.AErr err]))
  /\ (forall cbBook,
        raw <> [] -> cb_Unmarshal raw = Ok cbBook ->
        let pb := Coinbase.PriceBook_ cbBook in
        (forall e,
            cb_levels (Coinbase.Bids pb) = Err e ->
            cb_NormalizeOrderBook now raw
            = Err (Go.Errorf "failed to parse bids: %w" [Go.AErr e]))
        /\ (forall bids e,
              cb_levels (Coinbase.Bids pb) = Ok bids ->
              cb_levels (Coinbase.Asks pb) = Err e ->
              cb_NormalizeOrderBook now raw
              = Err (Go.Errorf "failed to parse asks: %w" [Go.AErr e]))
        /\ (forall bids asks,
              cb_levels (Coinbase.Bids pb) = Ok bids ->
              cb_levels (Coinbase.Asks pb) = Ok asks ->
              exists ob,
                cb_NormalizeOrderBook now raw = Ok ob
                /\ VenueId ob = Some "coinbase"
                /\ VenueSymbol ob = Some (Coinbase.ProductID pb)
                /\ Bids ob = bids /\ Asks ob = asks
                /\ Sequence ob = None)).
Proof.
  unfold Coinbase.NormalizeOrderBook. split; [intros ->; reflexivity|]. split.
  - intros err Hne Hdec. destruct raw; [contradiction|]. cbn [length Nat.eqb]. now rewrite Hdec.
  - intros cbBook Hne Hdec.
    destruct raw; [contradiction|]. cbn [length Nat.eqb]. rewrite Hdec. cbv zeta.
    split; [intros e ->; reflexivity|]. split; [intros bids e -> ->; reflexivity|].
    intros bids asks -> ->.
    destruct (match bids with l0 :: _ => Price l0 | [] => None end);
      destruct (match asks with l0 :: _ => Price l0 | [] => None end);
      eexists; (split; [reflexivity|]); repeat split.
Qed.

(** X17. Prime NormalizeOrderBook fails for an empty response, for one that
    does not decode, and for a malformed level, bids before asks, and for
    nothing else.  A book returned has the venue prime, the product id as its
    symbol and the kept levels; its sequence number is that of the response
    when positive and absent when zero or negative. *)
Theorem prime_order_book_outcome (now : Go.Time) (raw : list byte) :
  (raw = [] -> pr_NormalizeOrderBook now raw = Err (Go.Errorf "empty orderbook response" []))
  /\ (forall err,
        raw <> [] -> prime_Unmarshal raw = Err err ->
        pr_NormalizeOrderBook now raw
        = Err (Go.Errorf "failed to parse prime orderbook: %w" [Go.AErr err]))
  /\ (forall primeBook,
        raw <> [] -> prime_Unmarshal raw = Ok primeBook ->
        (forall e,
            pr_levels (Prime.Bids primeBook) = Err e ->
            pr_NormalizeOrderBook now raw
            = Err (Go.Errorf "failed to parse bids: %w" [Go.AErr e]))
        /\ (forall bids e,
              pr_levels (Prime.Bids primeBook) = Ok bids ->
              pr_levels (Prime.Asks primeBook) = Err e ->
              pr_NormalizeOrderBook now raw
              = Err (Go.Errorf "failed to parse asks: %w" [Go.AErr e]))
        /\ (forall bids asks,
              pr_levels (Prime.Bids primeBook) = Ok bids ->
              pr_levels (Prime.Asks primeBook) = Ok asks ->
              exists ob,
                pr_NormalizeOrderBook now raw = Ok ob
                /\ VenueId ob = Some "prime"
                /\ VenueSymbol ob = Some (Prime.ProductID primeBook)
                /\ Bids ob = bids /\ Asks ob = asks
                /\ (0 < Prime.Sequence primeBook -> Sequence ob = Some (Prime.Sequence primeBook))
                /\ (Prime.Sequence primeBook <= 0 -> Sequence ob = None))).
Proof.
  unfold Prime.NormalizeOrderBook. split; [intros ->; reflexivity|]. split.
  - intros err Hne Hdec. destruct raw; [contradiction|]. cbn [length Nat.eqb]. now rewrite Hdec.
  - intros primeBook Hne Hdec.
    destruct raw; [contradiction|]. cbn [length Nat.eqb]. rewrite Hdec. cbv zeta.
    split; [intros e ->; reflexivity|]. split; [intros bids e -> ->; reflexivity|].
    intros bids asks -> ->.
    destruct (match bids with l0 :: _ => Price l0 | [] => None end);
      destruct (match asks with l0 :: _ => Price l0 | [] => None end);
      eexists; (split; [reflexivity|]); cbn [VenueId VenueSymbol Bids Asks Sequence];
      (split; [reflexivity|]); (split; [reflexivity|]); (split; [reflexivity|]);
      (split; [reflexivity|]);
      (split; intros Hs; destruct (Z.ltb_spec 0 (Prime.Sequence primeBook)); (reflexivity || lia)).
Qed.

Lemma book_timestamp_rule (now : Go.Time) (timeStr : string) :
  let timestamp :=
    if negb (String.eqb timeStr "") then
      match ParseTimestamp time_Parse timeStr with
      | Ok ts => ts
      | Err _ => Some (timestamppb_New now)
      end
    else Some (timestamppb_New now) in
  (timeStr = "" -> timestamp = Some (timestamppb_New now))
  /\ (timeStr <> "" -> Go.TrimSpace timeStr = "" \/ Go.TrimSpace timeStr = "null" ->
      timestamp = None)
  /\ (Go.TrimSpace timeStr <> "" -> Go.TrimSpace timeStr <> "null" ->
      timestamp = Some (ParseTimestampOrNow time_Parse now timeStr)).
Proof.
  cbv zeta. split; [intros ->; reflexivity|]. split.
  - intros Hne Hnil. destruct (String.eqb_spec timeStr ""); [contradiction|]. cbn [negb].
    apply (ParseTimestamp_nil_iff time_Parse) in Hnil. now rewrite Hnil.
  - intros He Hn.
    assert (Hne : timeStr <> "") by (intros ->; now apply He).
    destruct (String.eqb_spec timeStr ""); [contradiction|]. cbn [negb].
    unfold ParseTimestampOrNow.
    destruct (ParseTimestamp time_Parse timeStr) as [[ts|]|e] eqn:Hp; try reflexivity.
    apply ParseTimestamp_nil_iff in Hp. tauto.
Qed.

(** X18. The timestamp of a normalized order book.  The time string is the
    response's time, and for Coinbase the price book's time when the top-level
    time is empty.  An empty time string gives the clock's time; a time
    string that is not empty but trims to nothing or to null gives a book
    with no timestamp at all; any other gives what ParseTimestampOrNow gives:
    the parsed time, or the clock's time when it does not parse. *)
Theorem order_book_timestamp_rule (now : Go.Time) (raw : list byte) (ob : OrderBook) :
  (forall cbBook,
      cb_Unmarshal raw = Ok cbBook ->
      cb_NormalizeOrderBook now raw = Ok ob ->
      let timeStr :=
        if String.eqb (Coinbase.Time cbBook) ""
        then Coinbase.pb_Time (Coinbase.PriceBook_ cbBook) else Coinbase.Time cbBook in
      (timeStr = "" -> Timestamp_ ob = Some (timestamppb_New now))
      /\ (timeStr <> "" -> Go.TrimSpace timeStr = "" \/ Go.TrimSpace timeStr = "null" ->
          Timestamp_ ob = None)
      /\ (Go.TrimSpace timeStr <> "" -> Go.TrimSpace timeStr <> "null" ->
          Timestamp_ ob = Some (ParseTimestampOrNow time_Parse now timeStr)))
  /\ (forall primeBook,
        prime_Unmarshal raw = Ok primeBook ->
        pr_NormalizeOrderBook now raw = Ok ob ->
        let timeStr := Prime.Time primeBook in
        (timeStr = "" -> Timestamp_ ob = Some (timestamppb_New now))
        /\ (timeStr <> "" -> Go.TrimSpace timeStr = "" \/ Go.TrimSpace timeStr = "null" ->
            Timestamp_ ob = None)
        /\ (Go.TrimSpace timeStr <> "" -> Go.TrimSpace timeStr <> "null" ->
            Timestamp_ ob = Some (ParseTimestampOrNow time_Parse now timeStr))).
Proof.
  split.
  - intros cbBook Hdec Hob timeStr.
    unfold Coinbase.NormalizeOrderBook in Hob.
    destruct (length raw =? 0)%nat; [discriminate|]. rewrite Hdec in Hob. cbv zeta in Hob.
    fold timeStr in Hob.
    destruct (cb_levels (Coinbase.Bids (Coinbase.PriceBook_ cbBook))) as [bids|]; [|discriminate].
    destruct (cb_levels (Coinbase.Asks (Coinbase.PriceBook_ cbBook))) as [asks|]; [|discriminate].
    destruct (match bids with l0 :: _ => Price l0 | [] => None end);
      destruct (match asks with l0 :: _ => Price l0 | [] => None end);
      injection Hob as <-; cbn [Timestamp_]; exact (book_timestamp_rule now timeStr).
  - intros primeBook Hdec Hob timeStr.
    unfold Prime.NormalizeOrderBook in Hob.
    destruct (length raw =? 0)%nat; [discriminate|]. rewrite Hdec in Hob. cbv zeta in Hob.
    fold timeStr in Hob.
    destruct (pr_levels (Prime.Bids primeBook)) as [bids|]; [|discriminate].
    destruct (pr_levels (Prime.Asks primeBook)) as [asks|]; [|discriminate].
    destruct (match bids with l0 :: _ => Price l0 | [] => None end);
      destruct (match asks with l0 :: _ => Price l0 | [] => None end);
      injection Hob as <-; cbn [Timestamp_]; exact (book_timestamp_rule now timeStr).
Qed.

End OrderBookOutcome.

Example coinbase_order_book_timestamps :
  let normalize :=
    Coinbase.NormalizeOrderBook example_time_Parse example_ParseFloat example_Sprintf_f
      example_int32_of_float64 (fixture_Unmarshal coinbase_timed_book_fixtures) clock in
  option_map Normalizer.Timestamp_
    (match normalize
             (json_bytes "{'pricebook': {'product_id': 'BTC-USD', 'time': '2021-01-01T00:00:00Z'}, 'time': ' '}")
     with Ok ob => Some ob | Err _ => None end)
  = Some None
  /\ option_map Normalizer.Timestamp_
       (match normalize
                (json_bytes "{'pricebook': {'product_id': 'BTC-USD', 'time': '2021-01-01T00:00:00Z'}}")
        with Ok ob => Some ob | Err _ => None end)
     = Some (Some (Normalizer.mkTimestamp 1609459200 0))
  /\ option_map Normalizer.Timestamp_
       (match normalize (json_bytes "{'pricebook': {'product_id': 'BTC-USD'}, 'time': 'yesterday'}")
        with Ok ob => Some ob | Err _ => None end)
     = Some (Some (Normalizer.mkTimestamp 1700000000 0)).
Proof. cbv zeta. split; [|split]; vm_compute; reflexivity. Qed.

(** ** Coinbase trades *)

Lemma ParseDecimalOrZero_finite strconv_ParseFloat (s : string) :
  finite (Normalizer.ParseDecimalOrZero strconv_ParseFloat s).
Proof.
  unfold finite, Normalizer.ParseDecimalOrZero, Normalizer.ParseDecimal.
  destruct (String.eqb (Go.TrimSpace s) "" || String.eqb (Go.TrimSpace s) "null");
    [split; reflexivity|].
  destruct (strconv_ParseFloat (Go.TrimSpace s)) as [f|e]; [|split; reflexivity].
  destruct (PrimFloat.is_nan f) eqn:Hn; [split; reflexivity|].
  destruct (PrimFloat.is_infinity f) eqn:Hi; [split; reflexivity|].
  cbn [orb]. now split.
Qed.

Lemma ParseDecimalOrZero_reads strconv_ParseFloat (s : string) :
  reads_decimal strconv_ParseFloat s
    (Some (Normalizer.ParseDecimalOrZero strconv_ParseFloat s)).
Proof.
  unfold reads_decimal. split; [reflexivity|].
  split; [apply ParseDecimalOrZero_finite|].
  unfold Normalizer.ParseDecimalOrZero. split; [|split].
  - intros f ->. reflexivity.
  - destruct (Normalizer.ParseDecimal strconv_ParseFloat s); [discriminate|reflexivity].
  - intros ->. reflexivity.
Qed.

Lemma parseTradeSide_spec (side : string) :
  (Coinbase.parseTradeSide side = Normalizer.TRADE_SIDE_BUY <-> side = "BUY")
  /\ (Coinbase.parseTradeSide side = Normalizer.TRADE_SIDE_SELL <-> side = "SELL").
Proof.
  unfold Coinbase.parseTradeSide.
  destruct (String.eqb_spec side "BUY") as [->|Hb].
  - split; split; (reflexivity || discriminate).
  - destruct (String.eqb_spec side "SELL") as [->|Hs].
    + split; split; (reflexivity || discriminate).
    + split; split; (discriminate || contradiction).
Qed.

Lemma omap_cons_case {A B : Type} (f : A -> option B) (x : A) (l : list A) :
  omap f (x :: l) = match f x with Some y => y :: omap f l | None => omap f l end.
Proof. reflexivity. Qed.

Section TradeProperties.
Import Normalizer.
Variable time_Parse : string -> string -> result Go.error Go.Time.
Variable strconv_ParseFloat : string -> result Go.error float.
Variable trades_Unmarshal : list byte -> result Go.error Coinbase.CoinbaseTradesResponse.
Variable trade_Unmarshal : list byte -> result Go.error Coinbase.CoinbaseTrade.t.

Abbreviation cb_single := (Coinbase.normalizeSingleTrade time_Parse strconv_ParseFloat).
Abbreviation cb_NormalizeTrade :=
  (Coinbase.NormalizeTrade time_Parse strconv_ParseFloat trades_Unmarshal trade_Unmarshal).
Abbreviation cb_NormalizeTrades :=
  (Coinbase.NormalizeTrades time_Parse strconv_ParseFloat trades_Unmarshal).

(** X19. A single Coinbase trade is rejected exactly when its time does not
    parse.  A trade whose time is empty, blank or null is accepted, without a
    timestamp.  The price of an accepted trade is what ParseDecimal reads in
    the price field and its quantity what it reads in the size field, 0
    standing for a field that does not parse, so both are finite; its value
    is their product; the side is BUY or SELL only for exactly those
    upper-case words. *)
Theorem single_trade_outcome (cbTrade : Coinbase.CoinbaseTrade.t) :
  (forall err,
      ParseTimestamp time_Parse (Coinbase.CoinbaseTrade.Time cbTrade) = Err err ->
      cb_single cbTrade = Err (Go.Errorf "invalid trade time: %w" [Go.AErr err]))
  /\ (forall timestamp,
        ParseTimestamp time_Parse (Coinbase.CoinbaseTrade.Time cbTrade) = Ok timestamp ->
        exists trade price quantity side,
          cb_single cbTrade = Ok trade
          /\ Trade.Timestamp trade = timestamp
          /\ Trade.TradeId trade = Some (Coinbase.CoinbaseTrade.TradeID cbTrade)
          /\ Trade.VenueId trade = Some "coinbase"
          /\ Trade.VenueSymbol trade = Some (Coinbase.CoinbaseTrade.ProductID cbTrade)
          /\ Trade.Price trade = Some price /\ finite price
          /\ Trade.Quantity trade = Some quantity /\ finite quantity
          /\ Trade.Value trade = Some (PrimFloat.mul price quantity)
          /\ Trade.Side trade = Some side
          /\ (side = TRADE_SIDE_BUY <-> Coinbase.CoinbaseTrade.Side cbTrade = "BUY")
          /\ (side = TRADE_SIDE_SELL <-> Coinbase.CoinbaseTrade.Side cbTrade = "SELL")
          /\ price = ParseDecimalOrZero strconv_ParseFloat (Coinbase.CoinbaseTrade.Price cbTrade)
          /\ quantity
             = ParseDecimalOrZero strconv_ParseFloat (Coinbase.CoinbaseTrade.Size cbTrade)
          /\ reads_decimal strconv_ParseFloat (Coinbase.CoinbaseTrade.Price cbTrade)
               (Trade.Price trade)
          /\ reads_decimal strconv_ParseFloat (Coinbase.CoinbaseTrade.Size cbTrade)
               (Trade.Quantity trade))
  /\ (Go.TrimSpace (Coinbase.CoinbaseTrade.Time cbTrade) = ""
      \/ Go.TrimSpace (Coinbase.CoinbaseTrade.Time cbTrade) = "null" ->
      exists trade, cb_single cbTrade = Ok trade /\ Trade.Timestamp trade = None).
Proof.
  unfold Coinbase.normalizeSingleTrade. split; [intros err ->; reflexivity|]. split.
  - intros timestamp ->.
    destruct (parseTradeSide_spec (Coinbase.CoinbaseTrade.Side cbTrade)) as [Hbuy Hsell].
    do 4 eexists. split; [reflexivity|]. cbn [Trade.Timestamp Trade.TradeId Trade.VenueId
      Trade.VenueSymbol Trade.Price Trade.Quantity Trade.Value Trade.Side].
    split; [reflexivity|]. split; [reflexivity|]. split; [reflexivity|]. split; [reflexivity|].
    split; [reflexivity|]. split; [apply ParseDecimalOrZero_finite|].
    split; [reflexivity|]. split; [apply ParseDecimalOrZero_finite|].
    split; [reflexivity|]. split; [reflexivity|]. split; [assumption|]. split; [assumption|].
    split; [reflexivity|]. split; [reflexivity|].
    split; apply ParseDecimalOrZero_reads.
  - intros Hnil. apply (ParseTimestamp_nil_iff time_Parse) in Hnil. rewrite Hnil.
    eexists. split; reflexivity.
Qed.

Lemma normalize_trades_from_omap (cbTrades : list Coinbase.CoinbaseTrade.t) :
  forall trades,
    Coinbase.normalize_trades_from time_Parse strconv_ParseFloat cbTrades trades
    = trades ++ omap (fun cbTrade => ok_value (cb_single cbTrade)) cbTrades.
Proof.
  induction cbTrades as [|cbTrade rest IH]; intros trades; cbn [Coinbase.normalize_trades_from].
  - cbn. now rewrite app_nil_r.
  - rewrite omap_cons_case.
    destruct (cb_single cbTrade) as [trade|e]; cbn [ok_value]; rewrite IH.
    + now rewrite <- app_assoc.
    + reflexivity.
Qed.

Lemma single_trade_accepted (cbTrade : Coinbase.CoinbaseTrade.t) :
  is_ok (cb_single cbTrade)
  = is_ok (ParseTimestamp time_Parse (Coinbase.CoinbaseTrade.Time cbTrade))
  /\ forall trade, cb_single cbTrade = Ok trade -> Trade.VenueId trade = Some "coinbase".
Proof.
  unfold Coinbase.normalizeSingleTrade.
  destruct (ParseTimestamp time_Parse (Coinbase.CoinbaseTrade.Time cbTrade)).
  - split; [reflexivity|]. intros trade Heq. injection Heq as <-. reflexivity.
  - split; [reflexivity|]. discriminate.
Qed.

Lemma converted_trades_length (cbTrades : list Coinbase.CoinbaseTrade.t) :
  let out := omap (fun cbTrade => ok_value (cb_single cbTrade)) cbTrades in
  (length out <= length cbTrades)%nat
  /\ (length out = length cbTrades
      <-> Forall (fun cbTrade =>
                    is_ok (ParseTimestamp time_Parse (Coinbase.CoinbaseTrade.Time cbTrade)) = true)
                 cbTrades)
  /\ Forall (fun trade => Trade.VenueId trade = Some "coinbase") out.
Proof.
  cbv zeta. induction cbTrades as [|cbTrade rest (IHle & IHeq & IHv)].
  - cbn. split; [lia|]. split; [split; [constructor|reflexivity]|constructor].
  - rewrite omap_cons_case.
    pose proof (single_trade_accepted cbTrade) as (Hok & Hvenue).
    destruct (cb_single cbTrade) as [trade|e]; cbn [ok_value length is_ok] in *.
    + split; [lia|]. split.
      * split.
        -- intros Hl. constructor; [now rewrite <- Hok|]. apply IHeq. lia.
        -- intros Hall. inversion Hall; subst. f_equal. now apply IHeq.
      * constructor; [now apply Hvenue|exact IHv].
    + split; [lia|]. split; [|exact IHv]. split.
      * intros Hl. lia.
      * intros Hall. inversion Hall as [|? ? Hhd Htl]; subst. rewrite <- Hok in Hhd. discriminate.
Qed.

(** X20. NormalizeTrades fails only for an empty response or one that does
    not decode.  It returns the conversions of exactly the trades whose time
    parses, in the order of the response, and passes over the others without
    an error: the result is as long as the response only when every time
    parses. *)
Theorem normalize_trades_keeps_convertible (raw : list byte) :
  (raw = [] -> cb_NormalizeTrades raw = Err (Go.Errorf "empty trades response" []))
  /\ (forall err,
        raw <> [] -> trades_Unmarshal raw = Err err ->
        cb_NormalizeTrades raw
        = Err (Go.Errorf "failed to parse coinbase trades: %w" [Go.AErr err]))
  /\ (forall tradesResp,
        raw <> [] -> trades_Unmarshal raw = Ok tradesResp ->
        let out :=
          omap (fun cbTrade => ok_value (cb_single cbTrade)) (Coinbase.Trades tradesResp) in
        cb_NormalizeTrades raw = Ok out
        /\ (length out <= length (Coinbase.Trades tradesResp))%nat
        /\ (length out = length (Coinbase.Trades tradesResp)
            <-> Forall (fun cbTrade =>
                          is_ok (ParseTimestamp time_Parse (Coinbase.CoinbaseTrade.Time cbTrade))
                          = true)
                       (Coinbase.Trades tradesResp))
        /\ Forall (fun trade => Trade.VenueId trade = Some "coinbase") out).
Proof.
  unfold Coinbase.NormalizeTrades. split; [intros ->; reflexivity|]. split.
  - intros err Hne Hdec. destruct raw; [contradiction|]. cbn [length Nat.eqb]. now rewrite Hdec.
  - intros tradesResp Hne Hdec.
    destruct raw; [contradiction|]. cbn [length Nat.eqb]. rewrite Hdec.
    split; [|exact (converted_trades_length (Coinbase.Trades tradesResp))].
    destruct (Coinbase.Trades tradesResp) as [|cb0 rest]; [reflexivity|].
    cbn [length Nat.eqb]. now rewrite normalize_trades_from_omap.
Qed.

(** X21. NormalizeTrade on a response that decodes as a trades list with at
    least one trade is the conversion of the first trade, whether that
    succeeds or not: the later trades and the single-trade reading are not
    tried.  A trade it returns is then the first that NormalizeTrades
    returns.  On any other response it is the conversion of the response
    read as a single trade. *)
Theorem normalize_trade_first_of_list (raw : list byte) :
  (raw = [] -> cb_NormalizeTrade raw = Err (Go.Errorf "empty trade response" []))
  /\ (forall tradesResp cbTrade0 rest,
        raw <> [] -> trades_Unmarshal raw = Ok tradesResp ->
        Coinbase.Trades tradesResp = cbTrade0 :: rest ->
        cb_NormalizeTrade raw = cb_single cbTrade0
        /\ forall trade,
             cb_NormalizeTrade raw = Ok trade ->
             exists more, cb_NormalizeTrades raw = Ok (trade :: more))
  /\ (raw <> [] ->
      is_ok (trades_Unmarshal raw) = false
      \/ (exists tradesResp,
             trades_Unmarshal raw = Ok tradesResp /\ Coinbase.Trades tradesResp = []) ->
      cb_NormalizeTrade raw
      = match trade_Unmarshal raw with
        | Err err => Err (Go.Errorf "failed to parse coinbase trade: %w" [Go.AErr err])
        | Ok trade => cb_single trade
        end).
Proof.
  unfold Coinbase.NormalizeTrade, Coinbase.NormalizeTrades.
  split; [intros ->; reflexivity|]. split.
  - intros tradesResp cbTrade0 rest Hne Hdec Htrades.
    destruct raw; [contradiction|]. cbn [length Nat.eqb]. rewrite Hdec, Htrades.
    split; [reflexivity|]. intros trade Hfirst.
    cbn [length Nat.eqb]. rewrite normalize_trades_from_omap, omap_cons_case. cbn [app].
    rewrite Hfirst. cbn [ok_value]. eexists. reflexivity.
  - intros Hne Hlist. destruct raw; [contradiction|]. cbn [length Nat.eqb].
    destruct Hlist as [Hfail|(tradesResp & Hdec & Hnone)].
    + destruct (trades_Unmarshal (b :: raw)); [discriminate|reflexivity].
    + rewrite Hdec, Hnone. reflexivity.
Qed.

End TradeProperties.

(** ** The enumeration maps of the Prime package *)

(** Closes an equivalence or a negation about the image of a literal under
    one of the enumeration maps, the string comparisons being decided. *)
Ltac enum_map_goal :=
  cbn [In]; repeat split; intros; try reflexivity; try discriminate; try tauto;
  try congruence; intuition (discriminate || congruence).

Section EnumMaps.
Import Normalizer.

(** X22. The Prime enumeration maps compare exactly, case and all.  Order
    types: TWAP, VWAP, BLOCK and RFQ are reported as LIMIT, and only four
    types are ever reported.  Status: EXPIRED is reported as REJECTED and
    WORKING as OPEN; no order is ever reported NEW or PARTIALLY_FILLED.
    Time in force: never unspecified, every unknown word being GTC. *)
Theorem prime_enum_maps (s : string) :
  (Prime.mapOrderType s = ORDER_TYPE_MARKET <-> s = "MARKET")
  /\ (Prime.mapOrderType s = ORDER_TYPE_STOP_LIMIT <-> s = "STOP_LIMIT")
  /\ (Prime.mapOrderType s = ORDER_TYPE_LIMIT
      <-> In s ["LIMIT"; "TWAP"; "VWAP"; "BLOCK"; "RFQ"])
  /\ In (Prime.mapOrderType s)
        [ORDER_TYPE_UNSPECIFIED; ORDER_TYPE_MARKET; ORDER_TYPE_LIMIT; ORDER_TYPE_STOP_LIMIT]
  /\ (Prime.mapOrderSide s = ORDER_SIDE_BUY <-> s = "BUY")
  /\ (Prime.mapOrderSide s = ORDER_SIDE_SELL <-> s = "SELL")
  /\ (Prime.mapOrderStatus s = ORDER_STATUS_OPEN <-> s = "OPEN" \/ s = "WORKING")
  /\ (Prime.mapOrderStatus s = ORDER_STATUS_REJECTED <-> s = "EXPIRED" \/ s = "REJECTED")
  /\ Prime.mapOrderStatus s <> ORDER_STATUS_NEW
  /\ Prime.mapOrderStatus s <> ORDER_STATUS_PARTIALLY_FILLED
  /\ Prime.mapTimeInForce s <> TIME_IN_FORCE_UNSPECIFIED
  /\ (Prime.mapTimeInForce s = TIME_IN_FORCE_GTC
      <-> ~ In s ["GOOD_UNTIL_DATE_TIME"; "IMMEDIATE_OR_CANCEL"; "FILL_OR_KILL"]).
Proof.
  assert (Htype :
            (Prime.mapOrderType s = ORDER_TYPE_MARKET <-> s = "MARKET")
            /\ (Prime.mapOrderType s = ORDER_TYPE_STOP_LIMIT <-> s = "STOP_LIMIT")
            /\ (Prime.mapOrderType s = ORDER_TYPE_LIMIT
                <-> In s ["LIMIT"; "TWAP"; "VWAP"; "BLOCK"; "RFQ"])
            /\ In (Prime.mapOrderType s)
                  [ORDER_TYPE_UNSPECIFIED; ORDER_TYPE_MARKET; ORDER_TYPE_LIMIT;
                   ORDER_TYPE_STOP_LIMIT]).
  { unfold Prime.mapOrderType.
    destruct (String.eqb_spec s "MARKET") as [->|?]; [enum_map_goal|].
    destruct (String.eqb_spec s "LIMIT") as [->|?]; [enum_map_goal|].
    destruct (String.eqb_spec s "STOP_LIMIT") as [->|?]; [enum_map_goal|].
    destruct (String.eqb_spec s "TWAP") as [->|?]; [enum_map_goal|].
    destruct (String.eqb_spec s "VWAP") as [->|?]; [enum_map_goal|].
    destruct (String.eqb_spec s "BLOCK") as [->|?]; [enum_map_goal|].
    destruct (String.eqb_spec s "RFQ") as [->|?]; enum_map_goal. }
  assert (Hside :
            (Prime.mapOrderSide s = ORDER_SIDE_BUY <-> s = "BUY")
            /\ (Prime.mapOrderSide s = ORDER_SIDE_SELL <-> s = "SELL")).
  { unfold Prime.mapOrderSide.
    destruct (String.eqb_spec s "BUY") as [->|?]; [enum_map_goal|].
    destruct (String.eqb_spec s "SELL") as [->|?]; enum_map_goal. }
  assert (Hstatus :
            (Prime.mapOrderStatus s = ORDER_STATUS_OPEN <-> s = "OPEN" \/ s = "WORKING")
            /\ (Prime.mapOrderStatus s = ORDER_STATUS_REJECTED
                <-> s = "EXPIRED" \/ s = "REJECTED")
            /\ Prime.mapOrderStatus s <> ORDER_STATUS_NEW
            /\ Prime.mapOrderStatus s <> ORDER_STATUS_PARTIALLY_FILLED).
  { unfold Prime.mapOrderStatus.
    destruct (String.eqb_spec s "OPEN") as [->|?]; [enum_map_goal|].
    destruct (String.eqb_spec s "WORKING") as [->|?]; [enum_map_goal|]. cbn [orb].
    destruct (String.eqb_spec s "FILLED") as [->|?]; [enum_map_goal|].
    destruct (String.eqb_spec s "CANCELLED") as [->|?]; [enum_map_goal|].
    destruct (String.eqb_spec s "EXPIRED") as [->|?]; [enum_map_goal|].
    destruct (String.eqb_spec s "PENDING") as [->|?]; [enum_map_goal|].
    destruct (String.eqb_spec s "REJECTED") as [->|?]; enum_map_goal. }
  assert (Htif :
            Prime.mapTimeInForce s <> TIME_IN_FORCE_UNSPECIFIED
            /\ (Prime.mapTimeInForce s = TIME_IN_FORCE_GTC
                <-> ~ In s ["GOOD_UNTIL_DATE_TIME"; "IMMEDIATE_OR_CANCEL"; "FILL_OR_KILL"])).
  { unfold Prime.mapTimeInForce.
    destruct (String.eqb_spec s "GOOD_UNTIL_DATE_TIME") as [->|?]; [enum_map_goal|].
    destruct (String.eqb_spec s "GOOD_UNTIL_CANCELLED") as [->|?]; [enum_map_goal|].
    destruct (String.eqb_spec s "IMMEDIATE_OR_CANCEL") as [->|?]; [enum_map_goal|].
    destruct (String.eqb_spec s "FILL_OR_KILL") as [->|?]; enum_map_goal. }
  tauto.
Qed.

End EnumMaps.

(** ** Prime balances, orders and fills *)

Section PrimeAccountProperties.
Import Normalizer.
Variable time_Parse : string -> string -> result Go.error Go.Time.
Variable strconv_ParseFloat : string -> result Go.error float.
Variable balance_Unmarshal : list byte -> result Go.error Prime.PrimeBalance.t.
Variable wallet_Unmarshal : list byte -> result Go.error Prime.PrimeWalletBalance.t.
Variable order_Unmarshal : list byte -> result Go.error Prime.PrimeOrder.t.
Variable fill_Unmarshal : list byte -> result Go.error Prime.PrimeFill.t.

Abbreviation pr_NormalizeBalance := (Prime.NormalizeBalance strconv_ParseFloat balance_Unmarshal).
Abbreviation pr_NormalizeWalletBalance :=
  (Prime.NormalizeWalletBalance strconv_ParseFloat wallet_Unmarshal).
Abbreviation pr_NormalizeOrder :=
  (Prime.NormalizeOrder time_Parse strconv_ParseFloat order_Unmarshal).
Abbreviation pr_NormalizeExecutionReport :=
  (Prime.NormalizeExecutionReport time_Parse fill_Unmarshal).

(** X23. The Prime balance normalizers fail only for an empty response or
    one that does not decode: an amount that does not parse counts as 0.  The
    balance returned has finite total and locked amounts, the locked amount
    being the holds, and available = total - locked; a portfolio balance has
    no account id, a wallet balance has the wallet id. *)
Theorem prime_balance_outcome (raw : list byte) :
  (raw = [] ->
   pr_NormalizeBalance raw = Err (Go.Errorf "empty balance response" [])
   /\ pr_NormalizeWalletBalance raw = Err (Go.Errorf "empty wallet balance response" []))
  /\ (forall err,
        raw <> [] -> balance_Unmarshal raw = Err err ->
        pr_NormalizeBalance raw
        = Err (Go.Errorf "failed to parse prime balance: %w" [Go.AErr err]))
  /\ (forall err,
        raw <> [] -> wallet_Unmarshal raw = Err err ->
        pr_NormalizeWalletBalance raw
        = Err (Go.Errorf "failed to parse prime wallet balance: %w" [Go.AErr err]))
  /\ (forall primeBalance,
        raw <> [] -> balance_Unmarshal raw = Ok primeBalance ->
        exists balance total holds,
          pr_NormalizeBalance raw = Ok balance
          /\ total = ParseDecimalOrZero strconv_ParseFloat (Prime.PrimeBalance.Amount primeBalance)
          /\ holds = ParseDecimalOrZero strconv_ParseFloat (Prime.PrimeBalance.Holds primeBalance)
          /\ finite total /\ finite holds
          /\ Balance.AccountId balance = None
          /\ Balance.AssetId balance = Some (Prime.PrimeBalance.Symbol primeBalance)
          /\ Balance.Total balance = Some total
          /\ Balance.Locked balance = Some holds
          /\ Balance.Available balance = Some (PrimFloat.sub total holds))
  /\ (forall walletBalance,
        raw <> [] -> wallet_Unmarshal raw = Ok walletBalance ->
        exists balance total holds,
          pr_NormalizeWalletBalance raw = Ok balance
          /\ total
             = ParseDecimalOrZero strconv_ParseFloat (Prime.PrimeWalletBalance.Amount walletBalance)
          /\ holds
             = ParseDecimalOrZero strconv_ParseFloat (Prime.PrimeWalletBalance.Holds walletBalance)
          /\ finite total /\ finite holds
          /\ Balance.AccountId balance = Some (Prime.PrimeWalletBalance.WalletID walletBalance)
          /\ Balance.AssetId balance = Some (Prime.PrimeWalletBalance.Symbol walletBalance)
          /\ Balance.Total balance = Some total
          /\ Balance.Locked balance = Some holds
          /\ Balance.Available balance = Some (PrimFloat.sub total holds)).
Proof.
  unfold Prime.NormalizeBalance, Prime.NormalizeWalletBalance.
  split; [intros ->; split; reflexivity|].
  split; [intros err Hne Hdec; destruct raw; [contradiction|]; cbn [length Nat.eqb];
          now rewrite Hdec|].
  split; [intros err Hne Hdec; destruct raw; [contradiction|]; cbn [length Nat.eqb];
          now rewrite Hdec|].
  split.
  - intros primeBalance Hne Hdec. destruct raw; [contradiction|]. cbn [length Nat.eqb].
    rewrite Hdec. do 3 eexists. split; [reflexivity|].
    split; [reflexivity|]. split; [reflexivity|].
    split; [apply ParseDecimalOrZero_finite|]. split; [apply ParseDecimalOrZero_finite|].
    repeat split.
  - intros walletBalance Hne Hdec. destruct raw; [contradiction|]. cbn [length Nat.eqb].
    rewrite Hdec. do 3 eexists. split; [reflexivity|].
    split; [reflexivity|]. split; [reflexivity|].
    split; [apply ParseDecimalOrZero_finite|]. split; [apply ParseDecimalOrZero_finite|].
    repeat split.
Qed.

Lemma decimal_field_finite (s : string) :
  finite (Prime.decimal_field strconv_ParseFloat s)
  /\ (s = "" -> Prime.decimal_field strconv_ParseFloat s = 0%float).
Proof.
  unfold Prime.decimal_field. destruct (String.eqb_spec s "") as [->|Hne]; cbn [negb].
  - split; [split; reflexivity|reflexivity].
  - split; [apply ParseDecimalOrZero_finite|contradiction].
Qed.

(** Testing the field for emptiness first changes nothing: ParseDecimal
    reads an empty field as 0. *)
Lemma decimal_field_reads (s : string) :
  Prime.decimal_field strconv_ParseFloat s = ParseDecimalOrZero strconv_ParseFloat s.
Proof.
  unfold Prime.decimal_field. destruct (String.eqb_spec s "") as [->|Hne]; reflexivity.
Qed.

(** X24. Prime NormalizeOrder fails only for an empty response, one that does
    not decode, or a created_at that does not parse: no other field can fail
    it.  In the order returned the update time is the creation time, the order
    id and the venue order id are both the response's id, and each of the six
    decimal fields is what ParseDecimal reads in its field of the response
    (quantity in base_quantity, price in limit_price, stop price in
    stop_price, filled quantity in filled_quantity, average fill price in
    average_filled_price, total fees in commission), 0 standing for a field
    that is empty or does not parse, so all six are present and finite. *)
Theorem prime_order_outcome (raw : list byte) :
  (raw = [] -> pr_NormalizeOrder raw = Err (Go.Errorf "empty order response" []))
  /\ (forall err,
        raw <> [] -> order_Unmarshal raw = Err err ->
        pr_NormalizeOrder raw = Err (Go.Errorf "failed to parse prime order: %w" [Go.AErr err]))
  /\ (forall primeOrder,
        raw <> [] -> order_Unmarshal raw = Ok primeOrder ->
        (forall err,
            ParseTimestamp time_Parse (Prime.PrimeOrder.CreatedAt primeOrder) = Err err ->
            pr_NormalizeOrder raw = Err (Go.Errorf "invalid created_at: %w" [Go.AErr err]))
        /\ (forall createdAt,
              ParseTimestamp time_Parse (Prime.PrimeOrder.CreatedAt primeOrder) = Ok createdAt ->
              exists order,
                pr_NormalizeOrder raw = Ok order
                /\ Order.CreatedAt order = createdAt
                /\ Order.UpdatedAt order = createdAt
                /\ Order.OrderId order = Some (Prime.PrimeOrder.ID primeOrder)
                /\ Order.VenueOrderId order = Some (Prime.PrimeOrder.ID primeOrder)
                /\ Order.OrderType order
                   = Some (Prime.mapOrderType (Prime.PrimeOrder.Type_ primeOrder))
                /\ Order.Status order
                   = Some (Prime.mapOrderStatus (Prime.PrimeOrder.Status primeOrder))
                /\ Forall (fun field => exists f, field = Some f /\ finite f)
                     [Order.Quantity order; Order.Price order; Order.StopPrice order;
                      Order.FilledQuantity order; Order.AverageFillPrice order;
                      Order.TotalFees order]
                /\ (Prime.PrimeOrder.LimitPrice primeOrder = "" ->
                    Order.Price order = Some 0%float)
                /\ reads_decimal strconv_ParseFloat (Prime.PrimeOrder.BaseQuantity primeOrder)
                     (Order.Quantity order)
                /\ reads_decimal strconv_ParseFloat (Prime.PrimeOrder.LimitPrice primeOrder)
                     (Order.Price order)
                /\ reads_decimal strconv_ParseFloat (Prime.PrimeOrder.StopPrice primeOrder)
                     (Order.StopPrice order)
                /\ reads_decimal strconv_ParseFloat (Prime.PrimeOrder.FilledQuantity primeOrder)
                     (Order.FilledQuantity order)
                /\ reads_decimal strconv_ParseFloat
                     (Prime.PrimeOrder.AverageFilledPrice primeOrder)
                     (Order.AverageFillPrice order)
                /\ reads_decimal strconv_ParseFloat (Prime.PrimeOrder.Commission primeOrder)
                     (Order.TotalFees order))).
Proof.
  unfold Prime.NormalizeOrder. split; [intros ->; reflexivity|]. split.
  - intros err Hne Hdec. destruct raw; [contradiction|]. cbn [length Nat.eqb]. now rewrite Hdec.
  - intros primeOrder Hne Hdec. destruct raw; [contradiction|]. cbn [length Nat.eqb].
    rewrite Hdec. split; [intros err ->; reflexivity|].
    intros createdAt ->. eexists. split; [reflexivity|].
    cbn [Order.CreatedAt Order.UpdatedAt Order.OrderId Order.VenueOrderId Order.OrderType
         Order.Status Order.Quantity Order.Price Order.StopPrice Order.FilledQuantity
         Order.AverageFillPrice Order.TotalFees].
    split; [reflexivity|]. split; [reflexivity|]. split; [reflexivity|]. split; [reflexivity|].
    split; [reflexivity|]. split; [reflexivity|]. split.
    { repeat constructor; eexists; (split; [reflexivity|apply decimal_field_finite]). }
    split.
    { intros Hempty. f_equal. now apply decimal_field_finite. }
    rewrite !decimal_field_reads.
    repeat split; apply ParseDecimalOrZero_reads.
Qed.

(** X25. Prime NormalizeExecutionReport fails only for an empty response, one
    that does not decode, or an event_time that does not parse.  Every report
    returned is a FILL and marks the fill as taker; its execution id and venue
    execution id are the fill id, its order id and venue order id the order
    id, its value fill_price * fill_qty; the client order id is present
    exactly when the response's is not empty. *)
Theorem prime_execution_report_outcome (raw : list byte) :
  (raw = [] ->
   pr_NormalizeExecutionReport raw = Err (Go.Errorf "empty execution report response" []))
  /\ (forall err,
        raw <> [] -> fill_Unmarshal raw = Err err ->
        pr_NormalizeExecutionReport raw
        = Err (Go.Errorf "failed to parse prime fill: %w" [Go.AErr err]))
  /\ (forall primeFill,
        raw <> [] -> fill_Unmarshal raw = Ok primeFill ->
        (forall err,
            ParseTimestamp time_Parse (Prime.PrimeFill.EventTime primeFill) = Err err ->
            pr_NormalizeExecutionReport raw
            = Err (Go.Errorf "invalid event_time: %w" [Go.AErr err]))
        /\ (forall timestamp,
              ParseTimestamp time_Parse (Prime.PrimeFill.EventTime primeFill) = Ok timestamp ->
              exists report,
                pr_NormalizeExecutionReport raw = Ok report
                /\ ExecutionReport.Timestamp report = timestamp
                /\ ExecutionReport.ExecutionType report = Some EXECUTION_TYPE_FILL
                /\ ExecutionReport.IsMaker report = Some false
                /\ ExecutionReport.ExecutionId report = Some (Prime.PrimeFill.FillID primeFill)
                /\ ExecutionReport.VenueExecutionId report
                   = Some (Prime.PrimeFill.FillID primeFill)
                /\ ExecutionReport.OrderId report = Some (Prime.PrimeFill.OrderID primeFill)
                /\ ExecutionReport.VenueOrderId report
                   = Some (Prime.PrimeFill.OrderID primeFill)
                /\ ExecutionReport.Value report
                   = Some (PrimFloat.mul (Prime.PrimeFill.FillPrice primeFill)
                             (Prime.PrimeFill.FillQty primeFill))
                /\ (Prime.PrimeFill.ClientOrderID primeFill = "" ->
                    ExecutionReport.ClientOrderId report = None)
                /\ (Prime.PrimeFill.ClientOrderID primeFill <> "" ->
                    ExecutionReport.ClientOrderId report
                    = Some (Prime.PrimeFill.ClientOrderID primeFill)))).
Proof.
  unfold Prime.NormalizeExecutionReport. split; [intros ->; reflexivity|]. split.
  - intros err Hne Hdec. destruct raw; [contradiction|]. cbn [length Nat.eqb]. now rewrite Hdec.
  - intros primeFill Hne Hdec. destruct raw; [contradiction|]. cbn [length Nat.eqb].
    rewrite Hdec. split; [intros err ->; reflexivity|].
    intros timestamp ->. eexists. split; [reflexivity|].
    cbn [ExecutionReport.Timestamp ExecutionReport.ExecutionType ExecutionReport.IsMaker
         ExecutionReport.ExecutionId ExecutionReport.VenueExecutionId ExecutionReport.OrderId
         ExecutionReport.VenueOrderId ExecutionReport.Value ExecutionReport.ClientOrderId].
    split; [reflexivity|]. split; [reflexivity|]. split; [reflexivity|]. split; [reflexivity|].
    split; [reflexivity|]. split; [reflexivity|]. split; [reflexivity|]. split; [reflexivity|].
    destruct (String.eqb_spec (Prime.PrimeFill.ClientOrderID primeFill) "") as [He|He];
      cbn [negb]; split; intros; (reflexivity || contradiction).
Qed.

End PrimeAccountProperties.

Example coinbase_trades_example :
  let raw :=
    json_bytes "{'trades': [{'trade_id': '1', 'time': 'soon', 'price': '10', 'size': '2', 'side': 'BUY'}, {'trade_id': '2', 'time': '1700000000', 'price': '1.5', 'size': '2', 'side': 'sell'}]}" in
  Coinbase.NormalizeTrades example_time_Parse example_ParseFloat
    (fixture_Unmarshal coinbase_trades_fixtures) raw
  = Ok [ Normalizer.Trade.mk (Some "2") (Some "coinbase") (Some "")
           (Some (Normalizer.mkTimestamp 1700000000 0)) (Some 1.5%float) (Some 2%float)
           (Some Normalizer.TRADE_SIDE_UNSPECIFIED) (Some 3%float) ]
  /\ is_ok (Coinbase.NormalizeTrade example_time_Parse example_ParseFloat
              (fixture_Unmarshal coinbase_trades_fixtures)
              (fixture_Unmarshal coinbase_trade_fixtures) raw)
     = false.
Proof. cbv zeta. split; vm_compute; reflexivity. Qed.

Example prime_account_examples :
  Prime.NormalizeBalance example_ParseFloat (fixture_Unmarshal prime_balance_fixtures)
    (json_bytes "{'symbol': 'BTC', 'amount': '1.5', 'holds': 'n/a'}")
  = Ok (Normalizer.Balance.mk None (Some "BTC") (Some 1.5%float) (Some 1.5%float)
          (Some 0%float))
  /\ Prime.NormalizeOrder example_time_Parse example_ParseFloat
       (fixture_Unmarshal prime_order_fixtures)
       (json_bytes "{'id': 'o-1', 'product_id': 'BTC-USD', 'side': 'BUY', 'type': 'TWAP', 'base_quantity': '2', 'limit_price': 'market', 'status': 'EXPIRED', 'created_at': '2021-01-01T00:00:00Z'}")
     = Ok (Normalizer.Order.mk (Some "o-1") (Some "o-1") (Some "") (Some "BTC-USD")
             (Some Normalizer.ORDER_SIDE_BUY) (Some Normalizer.ORDER_TYPE_LIMIT)
             (Some Normalizer.ORDER_STATUS_REJECTED) (Some Normalizer.TIME_IN_FORCE_GTC)
             (Some 2%float) (Some 0%float) (Some 0%float) (Some 0%float) (Some 0%float)
             (Some (Normalizer.mkTimestamp 1609459200 0))
             (Some (Normalizer.mkTimestamp 1609459200 0))
             (Some 0%float) (Some false))
  /\ is_ok (Prime.NormalizeOrder example_time_Parse example_ParseFloat
              (fixture_Unmarshal prime_order_fixtures)
              (json_bytes "{'id': 'o-2', 'product_id': 'BTC-USD', 'created_at': 'yesterday'}"))
     = false
  /\ option_map Normalizer.ExecutionReport.Value
       (ok_value
          (Prime.NormalizeExecutionReport example_time_Parse
             (fixture_Unmarshal prime_fill_fixtures)
             (json_bytes "{'fill_id': 'f-1', 'order_id': 'o-1', 'symbol': 'BTC-USD', 'fill_price': 1.5, 'fill_qty': 2, 'side': 'BUY'}")))
     = Some (Some 3%float).
Proof. split; [|split; [|split]]; vm_compute; reflexivity. Qed.

(** ** Bearer tokens *)

Section BearerProperties.
Import Auth.

(** X26. NewBearerSigner fails exactly for an empty token.  A signer it
    returns never fails to sign; the result is the same for every request:
    the single header Authorization, Bearer followed by the token, and no
    query parameter.  Signers with different tokens give different
    headers. *)
Theorem bearer_sign_outcome (config : BearerConfig) :
  (Token config = "" -> NewBearerSigner config = Err (Go.Errorf "token is required" []))
  /\ (Token config <> "" ->
      NewBearerSigner config = Ok (mkBearerSigner config)
      /\ exists res,
           (forall req, BearerSigner_Sign (mkBearerSigner config) req = Ok res)
           /\ dom (SignResult.Headers res) = ({["Authorization"]} : gset string)
           /\ SignResult.Headers res !! "Authorization" = Some ("Bearer " +:+ Token config)
           /\ SignResult.QueryParams res = ∅)
  /\ (forall config' req req',
        BearerSigner_Sign (mkBearerSigner config) req
        = BearerSigner_Sign (mkBearerSigner config') req' ->
        Token config = Token config').
Proof.
  unfold NewBearerSigner, BearerSigner_Sign. cbn [bearer_config].
  split; [intros ->; reflexivity|]. split.
  - intros Hne. destruct (String.eqb_spec (Token config) ""); [contradiction|].
    split; [reflexivity|]. eexists. split; [intros req; reflexivity|].
    cbn [SignResult.Headers SignResult.QueryParams].
    split; [rewrite dom_insert_L, dom_empty_L; set_solver|].
    split; [now simplify_map_eq|reflexivity].
  - intros config' req req' Heq.
    apply (f_equal (fun r => match r with
                             | Ok res => SignResult.Headers res !! "Authorization"
                             | Err _ => None
                             end)) in Heq.
    cbn [SignResult.Headers] in Heq. rewrite !lookup_insert in Heq.
    cbv [String.append] in Heq. now injection Heq.
Qed.

End BearerProperties.

(** ** Base64 and the secret of the HMAC signer *)

Lemma lor_add_low (x y n : Z) :
  0 <= n -> x mod 2 ^ n = 0 -> 0 <= y < 2 ^ n -> Z.lor x y = x + y.
Proof.
  intros Hn Hx Hy. symmetry. apply Z.add_nocarry_lor.
  apply Z.bits_inj'. intros m Hm. rewrite Z.land_spec, Z.bits_0.
  destruct (Z.lt_ge_cases m n) as [Hlt|Hge].
  - assert (Hxd : x = x / 2 ^ n * 2 ^ n).
    { pose proof (Z.div_mod x (2 ^ n) ltac:(lia)). lia. }
    rewrite Hxd, Z.mul_pow2_bits_low by lia. reflexivity.
  - rewrite <- (Z.mod_small y (2 ^ n)) by lia.
    rewrite Z.mod_pow2_bits_high by lia. apply andb_false_r.
Qed.

Lemma land_63 x : Z.land x 63 = x mod 64.
Proof. change 63 with (Z.ones 6). now rewrite Z.land_ones by lia. Qed.

Lemma land_255 x : Z.land x 255 = x mod 256.
Proof. change 255 with (Z.ones 8). now rewrite Z.land_ones by lia. Qed.

Lemma base64_dec_enc (v : Z) : Base64.dec (Base64.enc v) = Some (v mod 64).
Proof.
  unfold Base64.enc. rewrite land_63.
  pose proof (Z.mod_pos_bound v 64 ltac:(lia)) as Hr.
  assert (Hall : forallb (fun i => match Base64.dec (nth i Base64.alphabet 0) with
                                   | Some j => j =? Z.of_nat i
                                   | None => false
                                   end) (seq 0 64) = true) by (vm_compute; reflexivity).
  rewrite forallb_forall in Hall.
  specialize (Hall (Z.to_nat (v mod 64))).
  rewrite in_seq in Hall. specialize (Hall ltac:(lia)).
  destruct (Base64.dec (nth (Z.to_nat (v mod 64)) Base64.alphabet 0)); [|discriminate].
  apply Z.eqb_eq in Hall. f_equal. lia.
Qed.

Lemma base64_enc_char (v : Z) :
  0 <= Base64.enc v < 256 /\ Base64.is_newline (Base64.enc v) = false.
Proof.
  unfold Base64.enc. rewrite land_63.
  pose proof (Z.mod_pos_bound v 64 ltac:(lia)) as Hr.
  assert (Hall : forallb (fun i => let c := nth i Base64.alphabet 0 in
                                   (0 <=? c) && (c <? 256) && negb (Base64.is_newline c))
                         (seq 0 64) = true) by (vm_compute; reflexivity).
  rewrite forallb_forall in Hall.
  specialize (Hall (Z.to_nat (v mod 64))).
  rewrite in_seq in Hall. specialize (Hall ltac:(lia)). cbv zeta in Hall.
  apply andb_prop in Hall as [Hb Hnl]. apply andb_prop in Hb as [Hlo Hhi].
  apply Z.leb_le in Hlo. apply Z.ltb_lt in Hhi. apply negb_true_iff in Hnl.
  split; [lia|exact Hnl].
Qed.

(** Arithmetic on the shifts and masks of a 24-bit quantum. *)
Ltac pow2_literals :=
  change (2 ^ 6) with 64 in *; change (2 ^ 8) with 256 in *; change (2 ^ 12) with 4096 in *;
  change (2 ^ 16) with 65536 in *; change (2 ^ 18) with 262144 in *.

Ltac pow2_arith := pow2_literals; Z.div_mod_to_equations; lia.

Lemma base64_quantum3 (a b c : Z) :
  is_byte a -> is_byte b -> is_byte c ->
  let v := Z.lor (Z.lor (Z.shiftl a 16) (Z.shiftl b 8)) c in
  let v' := Z.lor (Z.lor (Z.lor (Z.shiftl (Z.shiftr v 18 mod 64) 18)
                                (Z.shiftl (Z.shiftr v 12 mod 64) 12))
                         (Z.shiftl (Z.shiftr v 6 mod 64) 6)) (v mod 64) in
  Z.land (Z.shiftr v' 16) 255 = a /\ Z.land (Z.shiftr v' 8) 255 = b /\ Z.land v' 255 = c.
Proof.
  intros Ha Hb Hc v v'. unfold is_byte in *.
  assert (Hv : v = a * 65536 + b * 256 + c).
  { subst v. rewrite !Z.shiftl_mul_pow2 by lia. pow2_literals.
    rewrite (lor_add_low (a * 65536) (b * 256) 16) by pow2_arith.
    rewrite (lor_add_low _ c 8) by pow2_arith. reflexivity. }
  assert (Hv' : v' = v).
  { subst v'. rewrite !Z.shiftr_div_pow2, !Z.shiftl_mul_pow2 by lia. pow2_literals.
    clearbody v. subst v.
    set (w := a * 65536 + b * 256 + c).
    assert (Hw : 0 <= w < 16777216) by (subst w; lia). clearbody w.
    rewrite (lor_add_low (w / 262144 mod 64 * 262144) (w / 4096 mod 64 * 4096) 18) by pow2_arith.
    rewrite (lor_add_low _ (w / 64 mod 64 * 64) 12) by pow2_arith.
    rewrite (lor_add_low _ (w mod 64) 6) by pow2_arith.
    pow2_arith. }
  rewrite Hv', Hv. rewrite !land_255, !Z.shiftr_div_pow2 by lia. pow2_literals.
  repeat split; pow2_arith.
Qed.

Lemma base64_quantum2 (a b : Z) :
  is_byte a -> is_byte b ->
  let v := Z.lor (Z.shiftl a 16) (Z.shiftl b 8) in
  let v' := Z.lor (Z.lor (Z.shiftl (Z.shiftr v 18 mod 64) 18)
                         (Z.shiftl (Z.shiftr v 12 mod 64) 12))
                  (Z.shiftl (Z.shiftr v 6 mod 64) 6) in
  Z.land (Z.shiftr v' 16) 255 = a /\ Z.land (Z.shiftr v' 8) 255 = b.
Proof.
  intros Ha Hb v v'. unfold is_byte in *.
  assert (Hv : v = a * 65536 + b * 256).
  { subst v. rewrite !Z.shiftl_mul_pow2 by lia. pow2_literals.
    rewrite (lor_add_low (a * 65536) (b * 256) 16) by pow2_arith. reflexivity. }
  assert (Hv' : v' = v).
  { subst v'. rewrite !Z.shiftr_div_pow2, !Z.shiftl_mul_pow2 by lia. pow2_literals.
    clearbody v. subst v.
    set (w := a * 65536 + b * 256).
    assert (Hw : 0 <= w < 16777216 /\ w mod 64 = 0) by (subst w; split; [lia|pow2_arith]).
    clearbody w.
    rewrite (lor_add_low (w / 262144 mod 64 * 262144) (w / 4096 mod 64 * 4096) 18) by pow2_arith.
    rewrite (lor_add_low _ (w / 64 mod 64 * 64) 12) by pow2_arith.
    pow2_arith. }
  rewrite Hv', Hv. rewrite !land_255, !Z.shiftr_div_pow2 by lia. pow2_literals.
  split; pow2_arith.
Qed.

Lemma base64_quantum1 (a : Z) :
  is_byte a ->
  let v := Z.shiftl a 16 in
  let v' := Z.lor (Z.shiftl (Z.shiftr v 18 mod 64) 18) (Z.shiftl (Z.shiftr v 12 mod 64) 12) in
  Z.land (Z.shiftr v' 16) 255 = a.
Proof.
  intros Ha v v'. unfold is_byte in *.
  assert (Hv : v = a * 65536) by (subst v; now rewrite Z.shiftl_mul_pow2 by lia).
  assert (Hv' : v' = v).
  { subst v'. rewrite !Z.shiftr_div_pow2, !Z.shiftl_mul_pow2 by lia. pow2_literals.
    clearbody v. subst v.
    set (w := a * 65536).
    assert (Hw : 0 <= w < 16777216 /\ w mod 4096 = 0) by (subst w; split; [lia|pow2_arith]).
    clearbody w.
    rewrite (lor_add_low (w / 262144 mod 64 * 262144) (w / 4096 mod 64 * 4096) 18) by pow2_arith.
    pow2_arith. }
  rewrite Hv', Hv. rewrite !land_255, !Z.shiftr_div_pow2 by lia. pow2_literals.
  pow2_arith.
Qed.

Lemma base64_decode_encode (n : nat) :
  forall src,
    (length src <= n)%nat -> Forall is_byte src ->
    Base64.decode_quanta (Base64.encode src) = Some src.
Proof.
  induction n as [|n IH]; intros src Hlen Hall.
  - destruct src; [reflexivity|cbn in Hlen; lia].
  - destruct src as [|a [|b [|c rest]]]; [reflexivity| | |].
    + inversion Hall as [|? ? Ha _]; subst.
      cbn [Base64.encode]. cbv zeta. cbn [Base64.decode_quanta].
      rewrite !base64_dec_enc.
      change (Base64.dec Base64.padChar) with (@None Z).
      rewrite Z.eqb_refl. cbn [andb]. cbv zeta.
      now rewrite (base64_quantum1 a Ha).
    + inversion Hall as [|? ? Ha Hall']; subst. inversion Hall' as [|? ? Hb _]; subst.
      cbn [Base64.encode]. cbv zeta. cbn [Base64.decode_quanta].
      rewrite !base64_dec_enc.
      change (Base64.dec Base64.padChar) with (@None Z).
      rewrite Z.eqb_refl. cbn [andb]. cbv zeta.
      destruct (base64_quantum2 a b Ha Hb) as [-> ->]. reflexivity.
    + inversion Hall as [|? ? Ha Hall']; subst. inversion Hall' as [|? ? Hb Hall'']; subst.
      inversion Hall'' as [|? ? Hc Hrest]; subst.
      cbn [Base64.encode]. cbv zeta. cbn [Base64.decode_quanta].
      rewrite !base64_dec_enc. cbv zeta.
      rewrite IH; [|cbn in Hlen; lia|assumption].
      destruct (base64_quantum3 a b c Ha Hb Hc) as (-> & -> & ->). reflexivity.
Qed.

Lemma base64_encode_chars (n : nat) :
  forall src,
    (length src <= n)%nat ->
    Forall (fun c => is_byte c /\ Base64.is_newline c = false) (Base64.encode src)
    /\ length (Base64.encode src) = (4 * ((length src + 2) / 3))%nat.
Proof.
  assert (Hpad : is_byte Base64.padChar /\ Base64.is_newline Base64.padChar = false)
    by (split; [unfold is_byte, Base64.padChar; lia|reflexivity]).
  induction n as [|n IH]; intros src Hlen.
  - destruct src; [split; [constructor|reflexivity]|cbn in Hlen; lia].
  - destruct src as [|a [|b [|c rest]]].
    + split; [constructor|reflexivity].
    + split; [|reflexivity]. cbn [Base64.encode]. cbv zeta.
      repeat (constructor; [first [apply base64_enc_char|exact Hpad]|]). constructor.
    + split; [|reflexivity]. cbn [Base64.encode]. cbv zeta.
      repeat (constructor; [first [apply base64_enc_char|exact Hpad]|]). constructor.
    + destruct (IH rest ltac:(cbn in Hlen; lia)) as [Hchars Hlength].
      split.
      * cbn [Base64.encode]. cbv zeta.
        repeat (constructor; [apply base64_enc_char|]). exact Hchars.
      * cbn [Base64.encode]. cbv zeta. cbn [length]. rewrite Hlength.
        replace (S (S (S (length rest))) + 2)%nat with (length rest + 2 + 1 * 3)%nat by lia.
        rewrite Nat.div_add by lia. lia.
Qed.

Lemma codes_string_of_codes (l : list Z) :
  Forall is_byte l -> Go.codes (Go.string_of_codes l) = l.
Proof.
  unfold Go.codes, Go.string_of_codes. rewrite list_ascii_of_string_of_list_ascii.
  induction 1 as [|z l Hz _ IH]; [reflexivity|].
  cbn [map]. rewrite IH. f_equal. now apply code_ascii_of.
Qed.

Lemma byte_of_to_Z (b : byte) : Go.byte_of_Z (Go.byte_to_Z b) = b.
Proof.
  unfold Go.byte_of_Z. pose proof (byte_to_Z_range b) as Hr.
  rewrite Z.mod_small by lia. unfold Go.byte_to_Z. rewrite N2Z.id.
  now rewrite Byte.of_to_N.
Qed.

Lemma base64_round_trip (src : list byte) :
  Base64.DecodeString (Base64.EncodeToString src) = Ok src
  /\ String.length (Base64.EncodeToString src) = (4 * ((length src + 2) / 3))%nat.
Proof.
  unfold Base64.DecodeString, Base64.EncodeToString.
  set (zs := map Go.byte_to_Z src).
  assert (Hzs : Forall is_byte zs).
  { subst zs. induction src as [|b src IH]; constructor; [apply byte_to_Z_range|exact IH]. }
  destruct (base64_encode_chars (length zs) zs ltac:(lia)) as [Hchars Hlength].
  split.
  - rewrite codes_string_of_codes
      by (eapply Forall_impl; [exact Hchars|]; intros c [Hc _]; exact Hc).
    assert (Hfilter : List.filter (fun c => negb (Base64.is_newline c)) (Base64.encode zs)
                      = Base64.encode zs).
    { clear Hlength. induction Hchars as [|c l [_ Hnl] _ IH]; [reflexivity|].
      cbn [List.filter]. rewrite Hnl. cbn [negb]. now rewrite IH. }
    rewrite Hfilter, (base64_decode_encode (length zs) zs ltac:(lia) Hzs).
    f_equal. subst zs. rewrite map_map. clear. induction src as [|b src IH]; [reflexivity|].
    cbn [map]. now rewrite byte_of_to_Z, IH.
  - rewrite string_of_codes_length, Hlength. subst zs. now rewrite length_map.
Qed.

Section SecretProperties.
Import Auth.

(** X27. Base64 decoding undoes encoding, so NewHMACSigner accepts the
    standard encoding of every non-empty secret, and the signer signs with
    exactly those bytes as the HMAC key; the encoding of the empty secret is
    refused as a missing secret. *)
Theorem hmac_signer_accepts_encoded_secret apiKey (secret : list byte) passphrase now req :
  Base64.DecodeString (Base64.EncodeToString secret) = Ok secret
  /\ (apiKey <> "" -> secret <> [] -> passphrase <> "" ->
      exists s res,
        NewHMACSigner (mkHMACConfig apiKey (Base64.EncodeToString secret) passphrase) = Ok s
        /\ HMACSigner_Sign s now req = Ok res
        /\ SignResult.Headers res !! "CB-ACCESS-SIGN"
           = Some (signature_of secret (prehash (effective_timestamp now req) req)))
  /\ (apiKey <> "" -> secret = [] ->
      NewHMACSigner (mkHMACConfig apiKey (Base64.EncodeToString secret) passphrase)
      = Err (Go.Errorf "secret is required" [])).
Proof.
  destruct (base64_round_trip secret) as [Hdec Hlen].
  split; [exact Hdec|]. split.
  - intros Hkey Hsecret Hpass.
    assert (Hne : Base64.EncodeToString secret <> "").
    { intros Hempty. rewrite Hempty in Hlen. destruct secret as [|b0 rest]; [contradiction|].
      cbn [length String.length] in Hlen.
      assert (1 <= (S (length rest) + 2) / 3)%nat
        by (apply Nat.div_le_lower_bound; lia).
      lia. }
    exists (mkHMACSigner (mkHMACConfig apiKey (Base64.EncodeToString secret) passphrase)).
    destruct (HMACSigner_Sign_ok
                (mkHMACSigner (mkHMACConfig apiKey (Base64.EncodeToString secret) passphrase))
                now req secret Hdec) as (res & Hres & Hsig & _).
    exists res. split; [|split; [exact Hres|exact Hsig]].
    unfold NewHMACSigner. cbn [APIKey Secret Passphrase].
    destruct (String.eqb_spec apiKey ""); [contradiction|].
    destruct (String.eqb_spec (Base64.EncodeToString secret) ""); [contradiction|].
    destruct (String.eqb_spec passphrase ""); [contradiction|].
    now rewrite Hdec.
  - intros Hkey ->. unfold NewHMACSigner. cbn [APIKey Secret Passphrase].
    destruct (String.eqb_spec apiKey ""); [contradiction|]. reflexivity.
Qed.

Lemma signature_of_shape (key : list byte) (message : string) :
  String.length (signature_of key message) = 44%nat
  /\ exists mac,
       Base64.DecodeString (signature_of key message) = Ok mac /\ length mac = 32%nat.
Proof.
  unfold signature_of.
  set (mac := map Go.byte_of_Z
                (HMAC.Sum (map Go.byte_to_Z key)
                   (map Go.byte_to_Z (Go.bytes_of_string message)))).
  assert (Hmac : length mac = 32%nat).
  { subst mac. rewrite length_map. unfold HMAC.Sum. apply sha256_sum_length. }
  destruct (base64_round_trip mac) as [Hdec Hlen].
  split; [rewrite Hlen, Hmac; reflexivity|]. exists mac. split; [exact Hdec|exact Hmac].
Qed.

(** X28. Every CB-ACCESS-SIGN value that Sign returns is 44 characters of
    base64 that decode to a 32-byte MAC, whatever the secret and the
    request. *)
Theorem hmac_signature_is_44_characters s now req res :
  HMACSigner_Sign s now req = Ok res ->
  exists signature mac,
    SignResult.Headers res !! "CB-ACCESS-SIGN" = Some signature
    /\ String.length signature = 44%nat
    /\ Base64.DecodeString signature = Ok mac
    /\ length mac = 32%nat.
Proof.
  intros Hsign.
  destruct (hmac_sign_result_shape_aux s now req res Hsign) as (key & _ & Hsig).
  destruct (signature_of_shape key (prehash (effective_timestamp now req) req))
    as (Hlen & mac & Hdec & Hmac).
  eexists. exists mac. split; [exact Hsig|]. split; [exact Hlen|]. split; [exact Hdec|exact Hmac].
Qed.

Lemma hmac_signature_is_44_characters_witness :
  exists res signature mac,
    HMACSigner_Sign (mkHMACSigner (mkHMACConfig "key" "c2VjcmV0" "pass"))
      (Go.mkTime 1700000000 0)
      (SignRequest.mk "POST" "/orders" (Some (Go.bytes_of_string "{}")) "" ∅) = Ok res
    /\ SignResult.Headers res !! "CB-ACCESS-SIGN" = Some signature
    /\ String.length signature = 44%nat
    /\ Base64.DecodeString signature = Ok mac
    /\ length mac = 32%nat.
Proof.
  destruct (HMACSigner_Sign_ok (mkHMACSigner (mkHMACConfig "key" "c2VjcmV0" "pass"))
              (Go.mkTime 1700000000 0)
              (SignRequest.mk "POST" "/orders" (Some (Go.bytes_of_string "{}")) "" ∅)
              (Go.bytes_of_string "secret") ltac:(vm_compute; reflexivity))
    as (res & Hres & _).
  exists res.
  destruct (hmac_signature_is_44_characters _ _ _ _ Hres) as (signature & mac & H).
  exists signature, mac. split; [exact Hres|exact H].
Defined.

End SecretProperties.

(** ** Calendar timestamps *)

Section CalendarTimestamps.
Import Normalizer.
Variable time_Parse : string -> string -> result Go.error Go.Time.

Lemma try_formats_first (fs : list string) (t : string) :
  forall (k : nat) format tm,
    fs !! k = Some format ->
    time_Parse format t = Ok tm ->
    (forall (j : nat) f, (j < k)%nat -> fs !! j = Some f -> is_err (time_Parse f t) = true) ->
    try_formats time_Parse fs t = Ok (Some (timestamppb_New tm)).
Proof.
  induction fs as [|f0 fs IH]; intros k format tm Hk Hparse Hbefore; [destruct k; discriminate|].
  cbn [try_formats]. destruct k as [|k]; cbn in Hk.
  - injection Hk as ->. now rewrite Hparse.
  - pose proof (Hbefore 0%nat f0 ltac:(lia) eq_refl) as Hf0.
    destruct (time_Parse f0 t); [discriminate|].
    apply (IH k format tm Hk Hparse). intros j f Hj Hf.
    apply (Hbefore (S j) f); [lia|exact Hf].
Qed.

Lemma try_formats_ok_iff (fs : list string) (t : string) :
  is_ok (try_formats time_Parse fs t) = true
  <-> exists format, In format fs /\ is_ok (time_Parse format t) = true.
Proof.
  induction fs as [|f0 fs IH]; cbn [try_formats].
  - split; [discriminate|]. intros (format & [] & _).
  - destruct (time_Parse f0 t) as [tm|e] eqn:Hf0.
    + split; [|reflexivity]. intros _. exists f0. split; [now left|now rewrite Hf0].
    + rewrite IH. split.
      * intros (format & Hin & Hok). exists format. split; [now right|exact Hok].
      * intros (format & [<-|Hin] & Hok); [rewrite Hf0 in Hok; discriminate|].
        exists format. now split.
Qed.

(** X29. Calendar timestamps.  A trimmed input that is not empty, null or
    numeric is tried against the seven calendar formats in their order: the
    first format that parses it gives the timestamp, and ParseTimestamp
    succeeds exactly when one of the seven parses it.  On empty, null and
    numeric input the calendar parser has no say: the result is the same
    whatever time.Parse would return. *)
Theorem parse_timestamp_calendar (s : string) :
  let t := Go.TrimSpace s in
  (t = "" \/ t = "null" \/ isNumeric t = true ->
   forall time_Parse', ParseTimestamp time_Parse' s = ParseTimestamp time_Parse s)
  /\ (t <> "" -> t <> "null" -> isNumeric t = false ->
      (forall (k : nat) format tm,
          formats !! k = Some format ->
          time_Parse format t = Ok tm ->
          (forall (j : nat) f,
              (j < k)%nat -> formats !! j = Some f -> is_err (time_Parse f t) = true) ->
          ParseTimestamp time_Parse s = Ok (Some (timestamppb_New tm)))
      /\ (is_ok (ParseTimestamp time_Parse s) = true
          <-> exists format, In format formats /\ is_ok (time_Parse format t) = true))
  /\ length formats = 7%nat.
Proof.
  intros t. unfold ParseTimestamp. fold t. split; [|split; [|reflexivity]].
  - intros [->|[->|Hnum]] time_Parse'; [reflexivity|reflexivity|].
    rewrite Hnum. destruct (String.eqb t "" || String.eqb t "null"); reflexivity.
  - intros He Hn Hnum. rewrite Hnum.
    destruct (String.eqb_spec t ""); [contradiction|].
    destruct (String.eqb_spec t "null"); [contradiction|]. cbn [orb].
    split; [apply try_formats_first|apply try_formats_ok_iff].
Qed.

End CalendarTimestamps.

Example parse_timestamp_calendar_example :
  Normalizer.ParseTimestamp example_time_Parse " 2021-01-01T00:00:00Z "
  = Ok (Some (Normalizer.mkTimestamp 1609459200 0))
  /\ Normalizer.isNumeric (Go.TrimSpace " 2021-01-01T00:00:00Z ") = false.
Proof. split; vm_compute; reflexivity. Qed.
